(** * Scrideo: caption timing, cue segmentation, style resolution and muxing

    A shallow embedding of the caption pipeline of the Scrideo service:
    [helpers.py] (module [Helpers]) and the duplicated logic of [app.py]
    (module [App]).

    Conventions of the embedding.
    - A Python [float] holding a number of seconds is a rational [Q] (so it
      is finite); the arithmetic is exact, so the binary rounding of [*] and
      [/] on doubles is idealised away.  [//], [%], [int] and [round] follow
      Python on every rational.
    - A Python [str] is a [string]; the characters are ASCII.  Whitespace is
      what [str.isspace] accepts below code 128.
    - A [dict] with string keys is a [gmap string _]; [d.get(k, v)] is
      [default v (d !! k)].
    - Code with effects (files, logging, the encoder process) threads a
      [world] through a result monad. *)

From Stdlib Require Import ZArith QArith Qround Qabs Qminmax Lia Lqa.
From Stdlib Require Import Ascii DecimalString.
From stdpp Require Import gmap strings list.

Local Open Scope Z_scope.

(** * Python primitives *)

Module Py.

(** ** Strings *)

(** [str.isspace] on the ASCII range: tab, LF, VT, FF, CR, the four
    separators 28..31, and space. *)
Definition isspace (c : ascii) : bool :=
  let n := nat_of_ascii c in
  ((9 <=? n)%nat && (n <=? 13)%nat) || ((28 <=? n)%nat && (n <=? 32)%nat).

Fixpoint lstrip (s : string) : string :=
  match s with
  | String c s' => if isspace c then lstrip s' else s
  | EmptyString => EmptyString
  end.

(** [rstrip] keeps a character when it is not white space or when
    something remains after it. *)
Fixpoint rstrip (s : string) : string :=
  match s with
  | String c s' =>
      match rstrip s' with
      | EmptyString => if isspace c then EmptyString else String c EmptyString
      | r => String c r
      end
  | EmptyString => EmptyString
  end.

Definition strip (s : string) : string := rstrip (lstrip s).

(** [s.split()]: maximal runs of non-white-space characters.  [cur] is
    the word being read, in order. *)
Fixpoint split_go (cur : string) (s : string) : list string :=
  match s with
  | EmptyString => match cur with EmptyString => [] | _ => [cur] end
  | String c s' =>
      if isspace c
      then match cur with
           | EmptyString => split_go EmptyString s'
           | _ => cur :: split_go EmptyString s'
           end
      else split_go (cur +:+ String c EmptyString) s'
  end.

Definition split (s : string) : list string := split_go EmptyString s.

(** [s.startswith(pre)] *)
Fixpoint startswith (pre s : string) : bool :=
  match pre, s with
  | EmptyString, _ => true
  | String a pre', String b s' => Ascii.eqb a b && startswith pre' s'
  | String _ _, EmptyString => false
  end.

(** [s.split(sep)] for a non-empty separator: [skip] counts the
    characters of a separator occurrence still to be passed over. *)
Fixpoint split_sep_go (sep : string) (skip : nat) (cur : string) (s : string)
  : list string :=
  match s with
  | EmptyString => [cur]
  | String c s' =>
      match skip with
      | S k => split_sep_go sep k cur s'
      | O =>
          if startswith sep s
          then cur :: split_sep_go sep (String.length sep - 1) EmptyString s'
          else split_sep_go sep O (cur +:+ String c EmptyString) s'
      end
  end.

Definition split_sep (sep s : string) : list string :=
  split_sep_go sep O EmptyString s.

(** [s.replace(old, new)] for a non-empty [old]: leftmost occurrences,
    not overlapping. *)
Fixpoint replace_go (old new : string) (skip : nat) (s : string) : string :=
  match s with
  | EmptyString => EmptyString
  | String c s' =>
      match skip with
      | S k => replace_go old new k s'
      | O =>
          if startswith old s
          then new +:+ replace_go old new (String.length old - 1) s'
          else String c (replace_go old new O s')
      end
  end.

Definition replace (old new s : string) : string := replace_go old new O s.

(** [sub in s] *)
Fixpoint contains (sub s : string) : bool :=
  startswith sub s ||
  match s with
  | String _ s' => contains sub s'
  | EmptyString => false
  end.

(** [sep.join(l)] *)
Fixpoint join (sep : string) (l : list string) : string :=
  match l with
  | [] => EmptyString
  | [x] => x
  | x :: l' => x +:+ sep +:+ join sep l'
  end.

(** [s.lower()] on ASCII letters *)
Definition lower_char (c : ascii) : ascii :=
  let n := nat_of_ascii c in
  if (65 <=? n)%nat && (n <=? 90)%nat then ascii_of_nat (n + 32) else c.

Fixpoint lower (s : string) : string :=
  match s with
  | String c s' => String (lower_char c) (lower s')
  | EmptyString => EmptyString
  end.

(** The line feed, written [\n] in the source. *)
Definition nl : string := String "010" EmptyString.

(** [f.readlines()] of a file opened in text mode: a line ends at a line
    feed, at a carriage return, or at the two together, and is returned
    with a single line feed; the last line has none when the text does not
    end in one. *)
Fixpoint readlines_go (cur : string) (s : string) : list string :=
  match s with
  | EmptyString => match cur with EmptyString => [] | _ => [cur] end
  | String c s' =>
      if Ascii.eqb c "010"
      then (cur +:+ nl) :: readlines_go EmptyString s'
      else if Ascii.eqb c "013"
      then match s' with
           | String "010" _ => readlines_go cur s'
           | _ => (cur +:+ nl) :: readlines_go EmptyString s'
           end
      else readlines_go (cur +:+ String c EmptyString) s'
  end.

Definition readlines (s : string) : list string := readlines_go EmptyString s.

(** ** Numbers *)

Definition digit (c : ascii) : option Z :=
  let n := nat_of_ascii c in
  if (48 <=? n)%nat && (n <=? 57)%nat then Some (Z.of_nat (n - 48)) else None.

Fixpoint digits_go (acc : Z) (s : string) : option Z :=
  match s with
  | EmptyString => Some acc
  | String c s' =>
      match digit c with
      | Some d => digits_go (10 * acc + d) s'
      | None => None
      end
  end.

(** [int(s)] on a non-empty run of decimal digits.  [None] covers every
    other text: those on which Python raises [ValueError] and the
    literals left out here (sign, surrounding white space, underscores). *)
Definition parse_int (s : string) : option Z :=
  match s with
  | EmptyString => None
  | _ => digits_go 0 s
  end.

(** [float(s)] on [digits] or [digits.digits]; [None] as for
    [parse_int] (exponents, signs, [inf] and [nan] are left out too). *)
Definition parse_float (s : string) : option Q :=
  match split_sep "." s with
  | [a] => z ← parse_int a; Some (inject_Z z)
  | [a; b] =>
      z ← parse_int a; f ← digits_go 0 b;
      Some (inject_Z z + inject_Z f / inject_Z (10 ^ Z.of_nat (String.length b)))%Q
  | _ => None
  end.

(** [str(n)] for [n >= 0] *)
Definition str_nat (n : Z) : string :=
  NilZero.string_of_uint (N.to_uint (Z.to_N n)).

(** [f"{n}"] *)
Definition str_int (n : Z) : string :=
  if n <? 0 then "-" +:+ str_nat (- n) else str_nat n.

Fixpoint zeros (k : nat) : string :=
  match k with O => EmptyString | S k' => String "0" (zeros k') end.

Definition zfill (width : nat) (digits : string) : string :=
  zeros (width - String.length digits) +:+ digits.

(** [f"{n:0Wd}"]: the zeros go between the sign and the digits, the sign
    counts in the width. *)
Definition fmt_0d (width : nat) (n : Z) : string :=
  if n <? 0 then "-" +:+ zfill (width - 1) (str_nat (- n))
  else zfill width (str_nat n).

Local Open Scope Q_scope.

(** [x // y] and [x % y] on floats: floor division, and the remainder
    that has the sign of the divisor. *)
Definition floordiv (x y : Q) : Q := inject_Z (Qfloor (x / y)).
Definition pymod (x y : Q) : Q := x - y * inject_Z (Qfloor (x / y)).

(** [int(x)]: truncation towards zero. *)
Definition int (x : Q) : Z :=
  if Qlt_le_dec x 0 then Qceiling x else Qfloor x.

(** [round(x)]: nearest integer, ties to the even one. *)
Definition round (x : Q) : Z :=
  let f := Qfloor x in
  match Qcompare (x - inject_Z f) (1 # 2) with
  | Lt => f
  | Gt => (f + 1)%Z
  | Eq => if Z.even f then f else (f + 1)%Z
  end.

(** [min(a, b)]: the first argument unless the second is smaller. *)
Definition min (a b : Q) : Q := if Qlt_le_dec b a then b else a.

(** [f"{x:05.2f}"] for [x >= 0]: two decimals, ties to even, zero-padded
    to five characters. *)
Definition fmt_05_2f (x : Q) : string :=
  let n := round (x * 100) in
  zfill 5 (str_nat (n / 100) +:+ "." +:+ zfill 2 (str_nat (n mod 100))).

End Py.

(** * helpers.py *)

Module Helpers.

Local Open Scope Q_scope.

(** [format_time], helpers.py:204-212. *)
Definition format_time (seconds : Q) : string :=
  let seconds := if Qlt_le_dec seconds 0 then 0 else seconds in
  let hours := Py.int (Py.floordiv seconds 3600) in
  let minutes := Py.int (Py.floordiv (Py.pymod seconds 3600) 60) in
  let secs := Py.int (Py.pymod seconds 60) in
  let millis := Py.round ((seconds - inject_Z (Py.int seconds)) * 1000) in
  Py.fmt_0d 2 hours +:+ ":" +:+ Py.fmt_0d 2 minutes +:+ ":" +:+
  Py.fmt_0d 2 secs +:+ "," +:+ Py.fmt_0d 3 millis.


(** [convert_time_srt_to_ass], helpers.py:196-202.  The result is [None]
    when a part is missing ([IndexError]) or a number does not parse. *)
Definition convert_time_srt_to_ass (time_str : string) : option string :=
  let parts := Py.split_sep ":" (Py.replace "," "." time_str) in
  hours ← parts !! 0%nat ≫= Py.parse_int;
  minutes ← parts !! 1%nat ≫= Py.parse_int;
  seconds ← parts !! 2%nat ≫= Py.parse_float;
  Some (Py.str_int hours +:+ ":" +:+ Py.fmt_0d 2 minutes +:+ ":" +:+
        Py.fmt_05_2f seconds).

(** ** Cue segmentation *)

(** A transcript segment: [seg['text']], [seg['start']], [seg['end']]. *)
Record segment := Segment {
  seg_text : string;
  seg_start : Q;
  seg_end : Q
}.

(** One cue of the caption file. *)
Record cue := Cue {
  cue_start : Q;
  cue_end : Q;
  cue_text : string
}.

Definition max_words : nat := 7.

(** [range(0, n, step)] *)
Definition range_step (n step : nat) : list nat :=
  map (λ k, (k * step)%nat) (seq 0 (Nat.div (n + step - 1) step)).

(** [l[a:b]] for [a <= b] *)
Definition slice {A} (l : list A) (a b : nat) : list A :=
  take (b - a) (drop a l).

(** [[words[i:i + max_words] for i in range(0, len(words), max_words)]] *)
Definition chunks (words : list string) : list (list string) :=
  map (λ i, slice words i (i + max_words)) (range_step (length words) max_words).

(** [enumerate(l)] *)
Definition enumerate {A} (l : list A) : list (nat * A) :=
  zip (seq 0 (length l)) l.

Definition Qnat (n : nat) : Q := inject_Z (Z.of_nat n).

(** The cues one segment gives: the body of the [for seg in segments]
    loop of [generate_srt], helpers.py:220-243, before they are written. *)
Definition segment_cues (seg : segment) : list cue :=
  let text := Py.strip (seg_text seg) in
  if bool_decide (text = EmptyString) then []
  else
    let words := Py.split text in
    if (length words <=? max_words)%nat
    then [Cue (seg_start seg) (seg_end seg) text]
    else
      let total_dur := seg_end seg - seg_start seg in
      let chunks := chunks words in
      let chunk_dur := total_dur / Qnat (length chunks) in
      map (λ '(i, chunk),
             let start := seg_start seg + Qnat i * chunk_dur in
             let end_ := Py.min (seg_start seg + Qnat (i + 1) * chunk_dur)
                                (seg_end seg) in
             Cue start end_ (Py.join " " chunk))
          (enumerate chunks).

(** The three [f.write] calls and [idx += 1] that both branches share;
    the state is the running index and the text written so far. *)
Definition write_cue (st : Z * string) (c : cue) : Z * string :=
  let '(idx, f) := st in
  let f := f +:+ Py.str_int idx +:+ Py.nl in
  let f := f +:+ format_time (cue_start c) +:+ " --> " +:+
           format_time (cue_end c) +:+ Py.nl in
  let f := f +:+ cue_text c +:+ Py.nl +:+ Py.nl in
  ((idx + 1)%Z, f).

Definition write_segment (st : Z * string) (seg : segment) : Z * string :=
  foldl write_cue st (segment_cues seg).

(** The text [generate_srt] leaves in the caption file,
    helpers.py:217-243. *)
Definition generate_srt_text (segments : list segment) : string :=
  snd (foldl write_segment (1%Z, EmptyString) segments).

Local Close Scope Q_scope.

(** ** Style tables, helpers.py:9-51 *)

Definition COLOR_MAP : gmap string string :=
  list_to_map
    [("white", "00FFFFFF"); ("yellow", "0000FFFF"); ("cyan", "00FFFF00");
     ("lime", "0000FF00"); ("orange", "0000A5FF"); ("red", "000000FF");
     ("pink", "00CBC0FF"); ("purple", "00F020A0");
     ("light-blue", "00E6D8AD"); ("light-green", "0090EE90")].

Definition BG_COLOR_MAP : gmap string string :=
  list_to_map
    [("none", "FF000000"); ("black", "00000000"); ("dark-gray", "00333333");
     ("semi-transparent", "80000000"); ("dark-blue", "00800000");
     ("dark-red", "00000080"); ("dark-green", "00008000");
     ("dark-purple", "00800080"); ("navy", "00800000");
     ("charcoal", "00363636")].

Definition FONT_MAP : gmap string string :=
  list_to_map
    [("arial", "Arial"); ("helvetica", "Helvetica");
     ("times-new-roman", "Times New Roman"); ("courier-new", "Courier New");
     ("verdana", "Verdana"); ("georgia", "Georgia"); ("impact", "Impact");
     ("comic-sans", "Comic Sans MS"); ("trebuchet", "Trebuchet MS");
     ("arial-black", "Arial Black"); ("palatino", "Palatino Linotype")].

(** ** Alignment and margins *)

(** [(alignment_code, margin_left, margin_right, margin_vertical)] *)
Abbreviation placement := (Z * string * string * string)%type.

Definition position_map : gmap string placement :=
  list_to_map
    [("top-left", (7, "40", "10", "20")); ("top", (8, "10", "10", "20"));
     ("top-right", (9, "10", "40", "20"));
     ("middle-left", (4, "40", "10", "0")); ("middle", (5, "10", "10", "0"));
     ("middle-right", (6, "10", "40", "0"));
     ("bottom-left", (1, "40", "10", "20")); ("bottom", (2, "10", "10", "20"));
     ("bottom-right", (3, "10", "40", "20"))].

(** [get_ass_alignment_and_margins], helpers.py:53-98. *)
Definition get_ass_alignment_and_margins (position text_alignment : string)
  : placement :=
  let base_position := default (2, "10", "10", "20") (position_map !! position) in
  if bool_decide (position ∈ ["top"; "middle"; "bottom"])
  then
    let '(alignment_base, _, _, base_v) := base_position in
    if bool_decide (text_alignment = "left")
    then (alignment_base - 1, "40", "10", base_v)
    else if bool_decide (text_alignment = "right")
    then (alignment_base + 1, "10", "40", base_v)
    else (alignment_base, "10", "10", base_v)
  else base_position.

(** ** Style resolution *)

(** The values that fill the [Style:] record of the markup document. *)
Record style := Style {
  font_name : string;
  font_size : string;
  primary_color : string;
  back_color : string;
  bold : Z;
  italic : Z;
  border_style : string;
  outline : string;
  shadow : string;
  alignment : Z;
  margin_l : string;
  margin_r : string;
  margin_v : string
}.

(** The settings [convert_srt_to_ass] and [overlay_subtitles] take when
    the caller passes [None], helpers.py:104-111 and 256-264; the second
    adds the [fontStyle] entry. *)
Definition default_settings : gmap string string :=
  list_to_map
    [("size", "20"); ("color", "white"); ("bgColor", "none");
     ("font", "arial"); ("position", "bottom"); ("alignment", "center")].

Definition overlay_default_settings : gmap string string :=
  <["fontStyle" := "normal"]> default_settings.

(** The style computed by [convert_srt_to_ass], helpers.py:113-142. *)
Definition resolve_style (caption_settings : gmap string string) : style :=
  let font_size := default "20" (caption_settings !! "size") in
  let color_name := default "white" (caption_settings !! "color") in
  let bg_color_name := default "none" (caption_settings !! "bgColor") in
  let font_family :=
    default "Arial" (FONT_MAP !! default "arial" (caption_settings !! "font")) in
  let font_style := default "normal" (caption_settings !! "fontStyle") in
  let position := default "bottom" (caption_settings !! "position") in
  let text_alignment := default "center" (caption_settings !! "alignment") in
  let primary_color := default "00FFFFFF" (COLOR_MAP !! color_name) in
  let back_color := default "FF000000" (BG_COLOR_MAP !! bg_color_name) in
  let bold := if Py.contains "bold" font_style then -1 else 0 in
  let italic := if Py.contains "italic" font_style then -1 else 0 in
  let has_background := negb (bool_decide (bg_color_name = "none")) in
  let '(border_style, outline, shadow) :=
    if has_background then ("4", "2", "0") else ("1", "2", "1") in
  let '(alignment, margin_l, margin_r, margin_v) :=
    get_ass_alignment_and_margins position text_alignment in
  Style font_family font_size primary_color back_color bold italic
        border_style outline shadow alignment margin_l margin_r margin_v.

(** ** The markup document *)

Definition ass_header : string :=
  "[Script Info]" +:+ Py.nl +:+
  "Title: Scrideo Subtitles" +:+ Py.nl +:+
  "ScriptType: v4.00+" +:+ Py.nl +:+
  "PlayResX: 384" +:+ Py.nl +:+
  "PlayResY: 288" +:+ Py.nl +:+
  "[V4+ Styles]" +:+ Py.nl +:+
  "Format: Name, Fontname, Fontsize, PrimaryColour, SecondaryColour, OutlineColour, BackColour, Bold, Italic, Underline, StrikeOut, ScaleX, ScaleY, Spacing, Angle, BorderStyle, Outline, Shadow, Alignment, MarginL, MarginR, MarginV, Encoding" +:+ Py.nl.

Definition style_line (st : style) : string :=
  "Style: Default," +:+ font_name st +:+ "," +:+ font_size st +:+
  ",&H" +:+ primary_color st +:+ ",&H" +:+ primary_color st +:+
  ",&H00000000,&H" +:+ back_color st +:+ "," +:+ Py.str_int (bold st) +:+
  "," +:+ Py.str_int (italic st) +:+ ",0,0,100,100,0,0," +:+
  border_style st +:+ "," +:+ outline st +:+ "," +:+ shadow st +:+ "," +:+
  Py.str_int (alignment st) +:+ "," +:+ margin_l st +:+ "," +:+
  margin_r st +:+ "," +:+ margin_v st +:+ ",1" +:+ Py.nl.

Definition events_header : string :=
  "[Events]" +:+ Py.nl +:+
  "Format: Layer, Start, End, Style, Name, MarginL, MarginR, MarginV, Effect, Text"
  +:+ Py.nl.

(** The inner [while] of helpers.py:174-176: the stripped lines from
    index [i] up to the first blank one. *)
Fixpoint text_lines (rest : list string) : list string :=
  match rest with
  | l :: rest' =>
      match Py.strip l with
      | EmptyString => []
      | t => t :: text_lines rest'
      end
  | [] => []
  end.

(** The outer [while i < len(srt_lines)] of helpers.py:162-181.  Every
    turn moves [i] forward, so [length srt_lines] turns of fuel are
    enough; [None] is a timestamp that does not convert. *)
Fixpoint events (fuel : nat) (srt_lines : list string) (i : nat) (acc : string)
  : option string :=
  match fuel with
  | O => Some acc
  | S fuel' =>
      match srt_lines !! i with
      | None => Some acc
      | Some raw =>
          let line := Py.strip raw in
          if Py.contains "-->" line
          then
            match Py.split_sep " --> " line with
            | [t0; t1] =>
                start ← convert_time_srt_to_ass (Py.strip t0);
                end_ ← convert_time_srt_to_ass (Py.strip t1);
                let i := (i + 1)%nat in
                let tl := text_lines (drop i srt_lines) in
                let i := (i + length tl)%nat in
                let text := Py.join "\N" tl in
                events fuel' srt_lines (i + 1)
                  (acc +:+ "Dialogue: 0," +:+ start +:+ "," +:+ end_ +:+
                   ",Default,,0,0,0,," +:+ text +:+ Py.nl)
            | _ => events fuel' srt_lines (i + 1) acc
            end
          else events fuel' srt_lines (i + 1) acc
      end
  end.

(** The text [convert_srt_to_ass] writes, helpers.py:145-181. *)
Definition ass_document (caption_settings : gmap string string) (srt : string)
  : option string :=
  let srt_lines := Py.readlines srt in
  events (length srt_lines) srt_lines 0
    (ass_header +:+ style_line (resolve_style caption_settings) +:+ events_header).

(** ** Files, logging and the encoder process *)

Inductive level := Debug | Info | Warning | Error.

(** What the code can observe and change: the files (path to content),
    the log records, and the command lines of the processes started. *)
Record world := World {
  files : gmap string string;
  log : list (level * string);
  spawned : list (list string)
}.

(** The exceptions that occur; [except Exception] catches each. *)
Inductive exn :=
| FileNotFoundError (msg : string)
| OSError (msg : string)
| TimeoutExpired
| CalledProcessError (returncode : Z) (stderr : string)
| Exception (msg : string).

(** [str(e)], where the text does not depend on the command line. *)
Definition exn_str (e : exn) : option string :=
  match e with
  | FileNotFoundError msg | OSError msg | Exception msg => Some msg
  | TimeoutExpired | CalledProcessError _ _ => None
  end.

(** How one run of the encoder ends; [written] is the content it left
    at the output path, if it wrote one. *)
Inductive process :=
| Exited (returncode : Z) (stderr : string) (written : option string)
| TimedOut (written : option string)
| NotStarted (msg : string).

(** The operating system as the code meets it. *)
Record host := Host {
  abspath : string → string;
  dirname : string → string;
  os_name : string;
  makedirs_error : string → option string;
  remove_error : string → option string;
  run : list string → Z → gmap string string → process
}.

(** A call ends with a value, with an exception, or outside what is
    modelled ([Beyond]: a timestamp that does not convert, a file that
    cannot be opened, an error text that is not described). *)
Inductive outcome (A : Type) :=
| Ok (a : A) (w : world)
| Raise (e : exn) (w : world)
| Beyond.
Arguments Ok {A} a w.
Arguments Raise {A} e w.
Arguments Beyond {A}.

Definition M (A : Type) : Type := world → outcome A.

Definition ret {A} (a : A) : M A := λ w, Ok a w.

Definition bind {A B} (m : M A) (k : A → M B) : M B :=
  λ w, match m w with
       | Ok a w' => k a w'
       | Raise e w' => Raise e w'
       | Beyond => Beyond
       end.

Definition raise {A} (e : exn) : M A := λ w, Raise e w.

Definition beyond {A} : M A := λ _, Beyond.

(** [try: m except Exception as e: handler e] *)
Definition try_except {A} (m : M A) (handler : exn → M A) : M A :=
  λ w, match m w with
       | Raise e w' => handler e w'
       | r => r
       end.

Notation "x <- m ;; k" := (bind m (λ x, k))
  (at level 100, m at next level, right associativity).
Notation "m ;; k" := (bind m (λ _, k))
  (at level 100, right associativity).

(** [logger.debug], [.info], [.warning], [.error]; the pictographs that
    open some messages are left out. *)
Definition logger (lv : level) (msg : string) : M unit :=
  λ w, Ok () (World (files w) (log w ++ [(lv, msg)]) (spawned w)).

(** [os.path.exists] *)
Definition path_exists (path : string) : M bool :=
  λ w, Ok (bool_decide (is_Some (files w !! path))) w.

(** [os.path.getsize] *)
Definition getsize (path : string) : M Z :=
  λ w, match files w !! path with
       | Some c => Ok (Z.of_nat (String.length c)) w
       | None => Beyond
       end.

(** [os.makedirs(path, exist_ok=True)] *)
Definition os_makedirs (h : host) (path : string) : M unit :=
  λ w, match makedirs_error h path with
       | Some msg => Raise (OSError msg) w
       | None => Ok () w
       end.

(** [os.remove] *)
Definition os_remove (h : host) (path : string) : M unit :=
  λ w, match remove_error h path with
       | Some msg => Raise (OSError msg) w
       | None => Ok () (World (delete path (files w)) (log w) (spawned w))
       end.

(** [open(path, 'w').write(text)] *)
Definition write_file (path text : string) : M unit :=
  λ w, Ok () (World (<[path := text]> (files w)) (log w) (spawned w)).

(** [subprocess.run(cmd, check=True, capture_output=True, text=True,
    timeout=...)]: the encoder writes nothing but the output file. *)
Definition subprocess_run (h : host) (cmd : list string) (timeout : Z)
    (output_path : string) : M unit :=
  λ w,
    let wrote (o : option string) :=
      World (match o with
             | Some c => <[output_path := c]> (files w)
             | None => files w
             end) (log w) (spawned w ++ [cmd]) in
    match run h cmd timeout (files w) with
    | NotStarted msg => Raise (FileNotFoundError msg) w
    | TimedOut o => Raise TimeoutExpired (wrote o)
    | Exited rc stderr o =>
        if bool_decide (rc = 0) then Ok () (wrote o)
        else Raise (CalledProcessError rc stderr) (wrote o)
    end.

(** [convert_srt_to_ass], helpers.py:100-194. *)
Definition convert_srt_to_ass (srt_path ass_path : string)
    (caption_settings : option (gmap string string)) : M bool :=
  let caption_settings := default default_settings caption_settings in
  let st := resolve_style caption_settings in
  λ w,
    match files w !! srt_path with
    | None => Beyond
    | Some srt =>
        match ass_document caption_settings srt with
        | None => Beyond
        | Some ass_content =>
            (write_file ass_path ass_content ;;
             logger Info
               ("ASS: pos=" +:+ default "bottom" (caption_settings !! "position")
                +:+ ", align=" +:+ default "center" (caption_settings !! "alignment")
                +:+ ", color=" +:+ default "white" (caption_settings !! "color")
                +:+ ", bg=" +:+ default "none" (caption_settings !! "bgColor")) ;;
             logger Debug
               ("ASS codes: alignment=" +:+ Py.str_int (alignment st)
                +:+ ", margins=" +:+ margin_l st +:+ "/" +:+ margin_r st
                +:+ "/" +:+ margin_v st
                +:+ ", BackColour=&H" +:+ back_color st) ;;
             ret true) w
        end
    end.

(** The command line of helpers.py:282-304. *)
Definition ffmpeg_cmd (h : host) (input_path ass_path output_path : string)
  : list string :=
  let '(input_path_ffmpeg, output_path_ffmpeg, ass_escaped) :=
    if bool_decide (os_name h = "nt")
    then (Py.replace "\" "/" input_path, Py.replace "\" "/" output_path,
          Py.replace ":" "\:" (Py.replace "\" "/" ass_path))
    else (input_path, output_path, Py.replace ":" "\:" ass_path) in
  let subtitles_filter := "ass='" +:+ ass_escaped +:+ "'" in
  ["ffmpeg"; "-y"; "-i"; input_path_ffmpeg; "-vf"; subtitles_filter;
   "-c:v"; "libx264"; "-c:a"; "aac"; "-b:a"; "192k"; "-crf"; "23";
   "-preset"; "fast"; "-movflags"; "+faststart"; output_path_ffmpeg].

(** The three [except] clauses of helpers.py:331-336. *)
Definition overlay_handler (e : exn) : M bool :=
  match e with
  | TimeoutExpired => raise (Exception "FFmpeg timeout")
  | CalledProcessError _ stderr => raise (Exception ("FFmpeg error: " +:+ stderr))
  | _ =>
      match exn_str e with
      | Some msg => raise (Exception ("Overlay failed: " +:+ msg))
      | None => beyond
      end
  end.

(** [overlay_subtitles], helpers.py:252-336. *)
Definition overlay_subtitles (h : host) (input_path srt_path output_path : string)
    (caption_settings : option (gmap string string)) : M bool :=
  try_except
    (let caption_settings := default overlay_default_settings caption_settings in
     let input_path := abspath h input_path in
     let srt_path := abspath h srt_path in
     let output_path := abspath h output_path in
     let ass_path := Py.replace ".srt" ".ass" srt_path in
     input_there <- path_exists input_path ;;
     if negb input_there
     then raise (FileNotFoundError ("Input not found: " +:+ input_path))
     else
     srt_there <- path_exists srt_path ;;
     if negb srt_there
     then raise (FileNotFoundError ("SRT not found: " +:+ srt_path))
     else
     os_makedirs h (dirname h output_path) ;;
     convert_srt_to_ass srt_path ass_path (Some caption_settings) ;;
     let cmd := ffmpeg_cmd h input_path ass_path output_path in
     logger Info "FFmpeg overlay starting..." ;;
     logger Debug ("CMD: " +:+ Py.join " " cmd) ;;
     subprocess_run h cmd 300 output_path ;;
     logger Info "FFmpeg complete" ;;
     output_there <- path_exists output_path ;;
     size <- (if output_there then getsize output_path else ret 0) ;;
     if negb output_there || bool_decide (size = 0)
     then raise (Exception "FFmpeg output empty")
     else
     try_except
       (ass_there <- path_exists ass_path ;;
        if ass_there then os_remove h ass_path else ret ())
       (λ e, match exn_str e with
             | Some msg => logger Warning ("Cleanup warning: " +:+ msg)
             | None => beyond
             end) ;;
     ret true)
    overlay_handler.

End Helpers.

(** * app.py *)

Module App.

Local Open Scope Q_scope.

(** [format_time], app.py:99-104: no clamp, and the milliseconds are
    cut, not rounded. *)
Definition format_time (seconds : Q) : string :=
  let hours := Py.int (Py.floordiv seconds 3600) in
  let minutes := Py.int (Py.floordiv (Py.pymod seconds 3600) 60) in
  let secs := Py.int (Py.pymod seconds 60) in
  let millis := Py.int ((seconds - inject_Z (Py.int seconds)) * 1000) in
  Py.fmt_0d 2 hours +:+ ":" +:+ Py.fmt_0d 2 minutes +:+ ":" +:+
  Py.fmt_0d 2 secs +:+ "," +:+ Py.fmt_0d 3 millis.

(** The body of the loop of [generate_srt], app.py:110-117: one cue for
    every segment with text, whatever its length. *)
Definition write_segment (st : Z * string) (seg : Helpers.segment) : Z * string :=
  let '(idx, f) := st in
  let text := Py.strip (Helpers.seg_text seg) in
  if bool_decide (text = EmptyString) then st
  else
    let f := f +:+ Py.str_int idx +:+ Py.nl in
    let f := f +:+ format_time (Helpers.seg_start seg) +:+ " --> " +:+
             format_time (Helpers.seg_end seg) +:+ Py.nl in
    let f := f +:+ text +:+ Py.nl +:+ Py.nl in
    ((idx + 1)%Z, f).

Definition generate_srt_text (segments : list Helpers.segment) : string :=
  snd (foldl write_segment (1%Z, EmptyString) segments).

Local Close Scope Q_scope.

(** The tables local to [overlay_subtitles], app.py:145-196 and 230-231. *)
Definition color_map : gmap string string :=
  list_to_map
    [("white", "00FFFFFF"); ("yellow", "0000FFFF"); ("cyan", "00FFFF00");
     ("lime", "0000FF00"); ("orange", "0000A5FF"); ("red", "000000FF");
     ("pink", "00FFC0CB"); ("purple", "00A020F0");
     ("light-blue", "00E6D8AD"); ("light-green", "0090EE90")].

(** [bg_color_map] and [font_map] hold the entries of the tables of
    helpers.py. *)
Definition bg_color_map : gmap string string := Helpers.BG_COLOR_MAP.

Definition font_map : gmap string string := Helpers.FONT_MAP.

Definition position_map : gmap string Helpers.placement :=
  list_to_map
    [("bottom", (2, "10", "10", "20")); ("top", (8, "10", "10", "20"));
     ("bottom-left", (1, "40", "10", "20"));
     ("bottom-right", (3, "10", "40", "20"));
     ("top-left", (7, "40", "10", "20")); ("top-right", (9, "10", "40", "20"));
     ("middle", (5, "10", "10", "0"))].

Definition outline_map : gmap string string :=
  list_to_map
    [("none", "0"); ("thin", "1"); ("medium", "2"); ("thick", "3");
     ("extra-thick", "4")].

Definition shadow_map : gmap string string :=
  list_to_map
    [("none", "0"); ("subtle", "1"); ("medium", "2"); ("large", "3");
     ("extra-large", "4")].

(** The style computed by [overlay_subtitles], app.py:127-231. *)
Definition resolve_style (caption_settings : option (gmap string string))
  : Helpers.style :=
  let caption_settings := default ∅ caption_settings in
  let font_size := default "20" (caption_settings !! "size") in
  let font_color := default "white" (caption_settings !! "color") in
  let font_family := default "Arial" (caption_settings !! "font") in
  let bg_color := default "none" (caption_settings !! "bgColor") in
  let position := default "bottom" (caption_settings !! "position") in
  let alignment := default "center" (caption_settings !! "alignment") in
  let outline := default "medium" (caption_settings !! "outlineThickness") in
  let shadow := default "medium" (caption_settings !! "shadowDistance") in
  let font_style := default "normal" (caption_settings !! "fontStyle") in
  let '(alignment_code, margin_l, margin_r, margin_v) :=
    default (2, "10", "10", "20") (position_map !! position) in
  let '(alignment_code, margin_l, margin_r) :=
    if bool_decide (position ∈ ["top"; "middle"; "bottom"])
    then
      if bool_decide (alignment = "left")
      then (alignment_code - 1, "40", "10")
      else if bool_decide (alignment = "right")
      then (alignment_code + 1, "10", "40")
      else (alignment_code, margin_l, margin_r)
    else (alignment_code, margin_l, margin_r) in
  let primary_color := default "00FFFFFF" (color_map !! font_color) in
  let back_color := default "FF000000" (bg_color_map !! bg_color) in
  let font_name := default font_family (font_map !! Py.lower font_family) in
  let bold := if Py.contains "bold" font_style then -1 else 0 in
  let italic := if Py.contains "italic" font_style then -1 else 0 in
  let has_background := negb (bool_decide (bg_color = "none")) in
  let '(border_style, outline_val, shadow_val) :=
    if has_background then ("4", "2", "0")
    else ("1", default "2" (outline_map !! outline),
          default "2" (shadow_map !! shadow)) in
  Helpers.Style font_name font_size primary_color back_color bold italic
    border_style outline_val shadow_val alignment_code margin_l margin_r margin_v.

(** The text of the markup file, app.py:233-283: the header and the
    [Style:] record are those of helpers.py, and the loop over the caption
    lines is the same, with the time conversion written in line. *)
Definition ass_document (caption_settings : option (gmap string string))
    (srt : string) : option string :=
  let srt_lines := Py.readlines srt in
  Helpers.events (length srt_lines) srt_lines 0
    (Helpers.ass_header +:+ Helpers.style_line (resolve_style caption_settings)
     +:+ Helpers.events_header).

(** The command line of app.py:292-305. *)
Definition ffmpeg_cmd (h : Helpers.host) (input_path ass_path output_path : string)
  : list string :=
  let ass_escaped :=
    if bool_decide (Helpers.os_name h = "nt")
    then Py.replace ":" "\:" (Py.replace "\" "/" ass_path)
    else Py.replace ":" "\:" ass_path in
  ["ffmpeg"; "-y"; "-i"; input_path; "-vf"; "ass='" +:+ ass_escaped +:+ "'";
   "-c:v"; "libx264"; "-c:a"; "copy"; "-preset"; "fast"; output_path].

(** [subprocess.run(cmd, capture_output=True, text=True, timeout=300)],
    without [check]: the exit status and stderr come back as a value. *)
Definition subprocess_run (h : Helpers.host) (cmd : list string) (timeout : Z)
    (output_path : string) : Helpers.M (Z * string) :=
  λ w,
    let wrote (o : option string) :=
      Helpers.World (match o with
                     | Some c => <[output_path := c]> (Helpers.files w)
                     | None => Helpers.files w
                     end) (Helpers.log w) (Helpers.spawned w ++ [cmd]) in
    match Helpers.run h cmd timeout (Helpers.files w) with
    | Helpers.NotStarted msg => Helpers.Raise (Helpers.FileNotFoundError msg) w
    | Helpers.TimedOut o => Helpers.Raise Helpers.TimeoutExpired (wrote o)
    | Helpers.Exited rc stderr o => Helpers.Ok (rc, stderr) (wrote o)
    end.

Local Notation "x <- m ;; k" := (Helpers.bind m (λ x, k))
  (at level 100, m at next level, right associativity).
Local Notation "m ;; k" := (Helpers.bind m (λ _, k))
  (at level 100, right associativity).

(** Reading the caption file and compiling the markup text. *)
Definition compile_markup (srt_path : string)
    (caption_settings : option (gmap string string)) : Helpers.M string :=
  λ w, match Helpers.files w !! srt_path with
       | Some srt =>
           match ass_document caption_settings srt with
           | Some ass_content => Helpers.Ok ass_content w
           | None => Helpers.Beyond
           end
       | None => Helpers.Beyond
       end.

(** The [try: os.remove(ass_path) except: pass] of app.py:318-321;
    removing a file that is not there raises as well. *)
Definition remove_quietly (h : Helpers.host) (ass_path : string) : Helpers.M unit :=
  Helpers.try_except
    (ass_there <- Helpers.path_exists ass_path ;;
     if ass_there then Helpers.os_remove h ass_path
     else Helpers.raise (Helpers.FileNotFoundError EmptyString))
    (λ _, Helpers.ret ()).

(** The [except Exception as e] of app.py:326-328. *)
Definition overlay_handler (e : Helpers.exn) : Helpers.M bool :=
  match Helpers.exn_str e with
  | Some msg =>
      Helpers.logger Helpers.Error ("Subtitle overlay failed: " +:+ msg) ;;
      Helpers.raise (Helpers.Exception ("Subtitle overlay failed: " +:+ msg))
  | None => Helpers.beyond
  end.

(** [overlay_subtitles], app.py:125-328. *)
Definition overlay_subtitles (h : Helpers.host)
    (input_path srt_path output_path : string)
    (caption_settings : option (gmap string string)) : Helpers.M bool :=
  Helpers.try_except
    (let st := resolve_style caption_settings in
     let settings := default ∅ caption_settings in
     let ass_path := Py.replace ".srt" ".ass" srt_path in
     ass_content <- compile_markup srt_path caption_settings ;;
     Helpers.write_file ass_path ass_content ;;
     Helpers.logger Helpers.Info
       ("ASS subtitle created: color=" +:+ default "white" (settings !! "color")
        +:+ ", bg=" +:+ default "none" (settings !! "bgColor")
        +:+ ", BackColour=&H" +:+ Helpers.back_color st) ;;
     let cmd := ffmpeg_cmd h input_path ass_path output_path in
     Helpers.logger Helpers.Info ("FFmpeg command: " +:+ Py.join " " cmd) ;;
     result <- subprocess_run h cmd 300 output_path ;;
     let '(returncode, stderr) := result in
     if negb (bool_decide (returncode = 0))
     then
       Helpers.logger Helpers.Error ("FFmpeg error: " +:+ stderr) ;;
       Helpers.raise (Helpers.Exception ("FFmpeg failed: " +:+ stderr))
     else
       output_there <- Helpers.path_exists output_path ;;
       if output_there
       then
         Helpers.logger Helpers.Info "Styled subtitles embedded successfully!" ;;
         remove_quietly h ass_path ;;
         Helpers.ret true
       else Helpers.raise (Helpers.Exception "Output file not created"))
    overlay_handler.

End App.

(** * Reference notions used by the statements *)

(** The caption timestamp pattern [HH:MM:SS,mmm]: twelve characters, digits
    around two colons and a comma. *)
Definition is_digit (c : ascii) : bool :=
  match Py.digit c with Some _ => true | None => false end.

Definition is_caption_time (s : string) : bool :=
  match s with
  | String h1 (String h2 (String c1 (String m1 (String m2 (String c2
      (String s1 (String s2 (String c3 (String f1 (String f2 (String f3
        EmptyString))))))))))) =>
      is_digit h1 && is_digit h2 && Ascii.eqb c1 ":" &&
      is_digit m1 && is_digit m2 && Ascii.eqb c2 ":" &&
      is_digit s1 && is_digit s2 && Ascii.eqb c3 "," &&
      is_digit f1 && is_digit f2 && is_digit f3
  | _ => false
  end.

(** Modelled from the spec: [toMarkupTime] of section 4.1, which formats
    seconds directly as [H:MM:SS.ss] (hours unpadded, minutes on two digits,
    seconds as a two-decimal zero-padded field).  The source has no such
    function: it reaches the markup format only through
    [convert_time_srt_to_ass]. *)
Definition toMarkupTime (seconds : Q) : string :=
  let hours := Py.int (Py.floordiv seconds 3600) in
  let minutes := Py.int (Py.floordiv (Py.pymod seconds 3600) 60) in
  let secs := Py.pymod seconds 60 in
  Py.str_int hours +:+ ":" +:+ Py.fmt_0d 2 minutes +:+ ":" +:+ Py.fmt_05_2f secs.

(** The instant a markup timestamp [H:MM:SS.ss] denotes, in hundredths of a
    second. *)
Definition markup_centis (t : string) : option Z :=
  let parts := Py.split_sep ":" t in
  h ← parts !! 0%nat ≫= Py.parse_int;
  m ← parts !! 1%nat ≫= Py.parse_int;
  s ← parts !! 2%nat ≫= Py.parse_float;
  Some (360000 * h + 6000 * m + Qfloor (s * 100)).

(** [sub] occurs in [s]: some text before it, some after. *)
Definition occurs_in (sub s : string) : Prop :=
  ∃ pre suf, s = pre +:+ sub +:+ suf.

(** [s] is made of exactly [k] decimal digits. *)
Fixpoint is_digits (k : nat) (s : string) : bool :=
  match k, s with
  | O, EmptyString => true
  | S k', String c s' => is_digit c && is_digits k' s'
  | _, _ => false
  end.

(** [c] does not occur in [s]. *)
Fixpoint lacks (c : ascii) (s : string) : bool :=
  match s with
  | EmptyString => true
  | String x s' => negb (Ascii.eqb c x) && lacks c s'
  end.

(** The settings keys each implementation reads. *)
Definition helpers_keys : list string :=
  ["size"; "color"; "bgColor"; "font"; "fontStyle"; "position"; "alignment"].

Definition app_keys : list string :=
  helpers_keys ++ ["outlineThickness"; "shadowDistance"].

(** The positions that are a row of the grid and not one of its cells. *)
Definition row_anchors : list string := ["top"; "middle"; "bottom"].

Definition placement_of (st : Helpers.style) : Helpers.placement :=
  (Helpers.alignment st, Helpers.margin_l st, Helpers.margin_r st,
   Helpers.margin_v st).

(** The caption file that holds exactly the given cues, numbered from 1. *)
Definition caption_text (cues : list Helpers.cue) : string :=
  snd (foldl Helpers.write_cue (1, EmptyString) cues).

(** The path of the transient markup file, and the files once the encoder
    has run on top of it. *)
Definition markup_path (h : Helpers.host) (srt_path : string) : string :=
  Py.replace ".srt" ".ass" (Helpers.abspath h srt_path).

Definition encoded (fs : gmap string string) (ass_path doc output : string)
    (written : option string) : gmap string string :=
  match written with
  | Some c => <[output := c]> (<[ass_path := doc]> fs)
  | None => <[ass_path := doc]> fs
  end.

Definition raises_file_not_found {A} (o : Helpers.outcome A) : bool :=
  match o with
  | Helpers.Raise (Helpers.FileNotFoundError _) _ => true
  | _ => false
  end.

(** ** Sample inputs *)

Definition e2e_segments : list Helpers.segment :=
  [Helpers.Segment "hello world" 0 1; Helpers.Segment "a b c d e f g h i" 1 3].


(** A POSIX host with absolute paths, whose encoder always ends as [p];
    [locked] makes [os.remove] fail. *)
Definition sample_host (p : Helpers.process) (locked : bool) : Helpers.host :=
  Helpers.Host (λ path, path) (λ _, "/") "posix" (λ _, None)
    (λ _, if locked then Some "[Errno 13] Permission denied" else None)
    (λ _ _ _, p).

Definition sample_srt : string := Helpers.generate_srt_text e2e_segments.

Definition sample_doc : string :=
  default EmptyString
    (Helpers.ass_document Helpers.overlay_default_settings sample_srt).

Definition sample_world : Helpers.world :=
  Helpers.World (list_to_map [("/in.mp4", "video"); ("/c.srt", sample_srt)]) [] [].

Definition bare_world : Helpers.world := Helpers.World ∅ [] [].

(** The caption file is there, the input video is not. *)
Definition captions_only_world : Helpers.world :=
  Helpers.World {["/c.srt" := sample_srt]} [] [].

(** * Notions used by the further properties *)

(** One cue as it stands in the caption file: the index line, the time
    line made with the formatter [fmt], the text and an empty line. *)
Definition cue_block (fmt : Q → string) (idx : Z) (c : Helpers.cue) : string :=
  Py.str_int idx +:+ Py.nl +:+
  fmt (Helpers.cue_start c) +:+ " --> " +:+ fmt (Helpers.cue_end c) +:+ Py.nl +:+
  Helpers.cue_text c +:+ Py.nl +:+ Py.nl.

(** The cues numbered from [idx] on, one block after the other. *)
Fixpoint cue_blocks (fmt : Q → string) (idx : Z) (cues : list Helpers.cue)
  : string :=
  match cues with
  | [] => EmptyString
  | c :: cues' => cue_block fmt idx c +:+ cue_blocks fmt (idx + 1) cues'
  end.

(** The cues the older [generate_srt] of app.py writes: one for every
    segment whose trimmed text is not empty. *)
Definition app_cues (segments : list Helpers.segment) : list Helpers.cue :=
  omap (λ seg,
          if bool_decide (Py.strip (Helpers.seg_text seg) = EmptyString) then None
          else Some (Helpers.Cue (Helpers.seg_start seg) (Helpers.seg_end seg)
                       (Py.strip (Helpers.seg_text seg))))
       segments.

(** A text without white space, and a word: such a text that is not empty. *)
Fixpoint no_space (s : string) : bool :=
  match s with
  | EmptyString => true
  | String c s' => negb (Py.isspace c) && no_space s'
  end.

Definition is_word (s : string) : bool :=
  match s with EmptyString => false | _ => no_space s end.

(** Every colon of [s] comes right after a backslash. *)
Fixpoint colons_escaped_go (after_backslash : bool) (s : string) : bool :=
  match s with
  | EmptyString => true
  | String c s' =>
      (if Ascii.eqb c ":" then after_backslash else true) &&
      colons_escaped_go (Ascii.eqb c "\") s'
  end.

Definition colons_escaped (s : string) : bool := colons_escaped_go false s.


(** ** Further sample inputs *)

(** The input video is there, the caption file is not. *)
Definition video_only_world : Helpers.world :=
  Helpers.World {["/in.mp4" := "video"]} [] [].

(** The caption file under a name without the [.srt] extension. *)
Definition txt_world : Helpers.world :=
  Helpers.World
    (list_to_map [("/in.mp4", "video"); ("/captions.txt", sample_srt)]) [] [].

(** A host on which no directory can be made. *)
Definition readonly_host : Helpers.host :=
  Helpers.Host (λ path, path) (λ _, "/") "posix"
    (λ _, Some "[Errno 13] Permission denied") (λ _, None)
    (λ _ _ _, Helpers.NotStarted "ffmpeg").

(** The markup text app.py compiles from the sample caption file. *)
Definition app_sample_doc : string :=
  default EmptyString (App.ass_document None sample_srt).

(** ** From the caption file to the markup document *)

(** A text that starts with a character that is not white space, and one
    that ends with such a character. *)
Definition headed (s : string) : bool :=
  match s with
  | String c _ => negb (Py.isspace c)
  | EmptyString => false
  end.

Fixpoint tailed (s : string) : bool :=
  match s with
  | EmptyString => false
  | String c EmptyString => negb (Py.isspace c)
  | String _ s' => tailed s'
  end.

(** A text on one line: neither a line feed nor a carriage return. *)
Definition one_line (s : string) : bool := lacks "010" s && lacks "013" s.

(** The lines [readlines] finds in the block of one cue. *)
Definition block_lines (fmt : Q → string) (idx : Z) (c : Helpers.cue)
  : list string :=
  [Py.str_int idx +:+ Py.nl;
   fmt (Helpers.cue_start c) +:+ " --> " +:+ fmt (Helpers.cue_end c) +:+ Py.nl;
   Helpers.cue_text c +:+ Py.nl;
   Py.nl].

Fixpoint blocks_lines (fmt : Q → string) (idx : Z) (cues : list Helpers.cue)
  : list string :=
  match cues with
  | [] => []
  | c :: cues' => block_lines fmt idx c ++ blocks_lines fmt (idx + 1) cues'
  end.

(** The [Dialogue:] line of one cue, whose times are the caption times
    made with [fmt] and converted by [convert_time_srt_to_ass]. *)
Definition dialogue (fmt : Q → string) (c : Helpers.cue) : option string :=
  start ← Helpers.convert_time_srt_to_ass (fmt (Helpers.cue_start c));
  end_ ← Helpers.convert_time_srt_to_ass (fmt (Helpers.cue_end c));
  Some ("Dialogue: 0," +:+ start +:+ "," +:+ end_ +:+ ",Default,,0,0,0,," +:+
        Helpers.cue_text c +:+ Py.nl).

Fixpoint dialogues (fmt : Q → string) (cues : list Helpers.cue) : option string :=
  match cues with
  | [] => Some EmptyString
  | c :: cues' =>
      d ← dialogue fmt c; ds ← dialogues fmt cues'; Some (d +:+ ds)
  end.

(** A cue whose two times have the caption pattern and whose text is on
    one line. *)
Definition plain_cue (fmt : Q → string) (c : Helpers.cue) : bool :=
  is_caption_time (fmt (Helpers.cue_start c)) &&
  is_caption_time (fmt (Helpers.cue_end c)) &&
  one_line (Helpers.cue_text c).

(** ** Placements *)

(** A placement that fits the numpad grid: a code from 1 to 9, the left
    margin 40 exactly in the left column, the right margin 40 exactly in
    the right column, the vertical margin 0 exactly in the middle row. *)
Definition placement_ok (v : Helpers.placement) : bool :=
  let '(code, l, r, mv) := v in
  bool_decide (1 ≤ code ≤ 9) &&
  bool_decide (l = if code mod 3 =? 1 then "40" else "10") &&
  bool_decide (r = if code mod 3 =? 0 then "40" else "10") &&
  bool_decide (mv = if (4 <=? code) && (code <=? 6) then "0" else "20").

(** The last character of a text. *)
Fixpoint last_char (s : string) : option ascii :=
  match s with
  | EmptyString => None
  | String c EmptyString => Some c
  | String _ s' => last_char s'
  end.

(** * app.py: accounts, jobs and house-keeping *)

Module Service.

(** ** The state of the server *)

(** One entry of [users]. *)
Record user := User {
  password_hash : string;
  history : list string;
  favorites : gset string
}.

(** The dict kept for one job; its values are strings. *)
Abbreviation job_info := (gmap string string).

(** The module-level state of app.py:38-41 and the disk.  [job_status]
    keeps the order of insertion, which [cleanup_old_files] depends on;
    [lock_held] is [processing_lock], a [threading.Lock], which is not
    re-entrant. *)
Record server := Server {
  users : gmap string user;
  job_status : list (string * job_info);
  user_jobs : gmap string job_info;
  lock_held : bool;
  disk : Helpers.world
}.

(** What the code takes from its libraries: [hashlib.sha256] with
    [hexdigest], [jwt.encode] of the claim [{'username': u}] and
    [jwt.decode] followed by the lookup of that claim ([None] when either
    raises). *)
Record env := Env {
  sha256 : string → string;
  jwt_encode : string → string;
  jwt_decode : string → option string
}.

Definition UPLOAD_FOLDER : string := "/app/uploads".
Definition PROCESSED_FOLDER : string := "/app/processed".

(** ** Dicts that keep their order *)

Fixpoint dict_get {V} (k : string) (d : list (string * V)) : option V :=
  match d with
  | [] => None
  | (k', v) :: d' => if bool_decide (k' = k) then Some v else dict_get k d'
  end.

(** [d[k] = v]: an existing key keeps its place, a new one goes last. *)
Definition dict_set {V} (k : string) (v : V) (d : list (string * V))
  : list (string * V) :=
  if bool_decide (k ∈ d.*1)
  then map (λ kv, if bool_decide (kv.1 = k) then (k, v) else kv) d
  else d ++ [(k, v)].

(** [d.pop(k, None)] and [del d[k]] under [if k in d] *)
Definition dict_pop {V} (k : string) (d : list (string * V)) : list (string * V) :=
  filter (λ kv, kv.1 ≠ k) d.

(** ** Calls that may wait *)

(** A call returns, or it waits for [processing_lock] at a [with]
    statement (the lock is held, and the call goes on only when another
    thread releases it), or it ends outside what is modelled ([Beyond],
    as in [Helpers.outcome]). *)
Inductive result (A : Type) :=
| Returns (a : A) (st : server)
| Waits (st : server)
| Beyond.
Arguments Returns {A} a st.
Arguments Waits {A} st.
Arguments Beyond {A}.

Definition S (A : Type) : Type := server → result A.

Definition ret {A} (a : A) : S A := λ st, Returns a st.

Definition bind {A B} (m : S A) (k : A → S B) : S B :=
  λ st, match m st with
        | Returns a st' => k a st'
        | Waits st' => Waits st'
        | Beyond => Beyond
        end.

Local Notation "x <- m ;; k" := (bind m (λ x, k))
  (at level 100, m at next level, right associativity).
Local Notation "m ;; k" := (bind m (λ _, k))
  (at level 100, right associativity).

Definition set_lock (b : bool) (st : server) : server :=
  Server (users st) (job_status st) (user_jobs st) b (disk st).

Definition acquire : S unit :=
  λ st, if lock_held st then Waits st else Returns () (set_lock true st).

Definition release : S unit := λ st, Returns () (set_lock false st).

(** [with processing_lock: body]; a [return] inside the body leaves the
    lock as well. *)
Definition with_lock {A} (body : S A) : S A :=
  acquire ;; a <- body ;; release ;; ret a.

Fixpoint for_each {A} (l : list A) (body : A → S unit) : S unit :=
  match l with
  | [] => ret ()
  | x :: l' => body x ;; for_each l' body
  end.

(** [logger.info]; the pictographs that open some messages are left out. *)
Definition log_info (msg : string) : S unit :=
  λ st, Returns ()
          (Server (users st) (job_status st) (user_jobs st) (lock_held st)
             (Helpers.World (Helpers.files (disk st))
                (Helpers.log (disk st) ++ [(Helpers.Info, msg)])
                (Helpers.spawned (disk st)))).

(** ** House-keeping, app.py:73-97 *)

(** [os.listdir(folder)] seen from a path: the name of the file when the
    path lies directly in the folder. *)
Definition listed (folder path : string) : option string :=
  if Py.startswith (folder +:+ "/") path
  then
    let name := String.substring (String.length folder + 1)
                  (String.length path - (String.length folder + 1)) path in
    if lacks "/" name then Some name else None
  else None.

(** The files [cleanup_job_files] removes: those of the two folders
    whose name starts with the job id, unless [os.remove] fails, which
    the bare [except] hides. *)
Definition doomed (h : Helpers.host) (job_id path : string) : bool :=
  existsb (λ folder,
             match listed folder path with
             | Some name =>
                 Py.startswith job_id name &&
                 bool_decide (Helpers.remove_error h path = None)
             | None => false
             end)
          [UPLOAD_FOLDER; PROCESSED_FOLDER].

Definition remove_job_files (h : Helpers.host) (job_id : string) : S unit :=
  λ st, Returns ()
          (Server (users st) (job_status st) (user_jobs st) (lock_held st)
             (Helpers.World
                (filter (λ kv, doomed h job_id kv.1 = false)
                        (Helpers.files (disk st)))
                (Helpers.log (disk st)) (Helpers.spawned (disk st)))).

(** [cleanup_job_files], app.py:86-97. *)
Definition cleanup_job_files (h : Helpers.host) (job_id : string) : S unit :=
  with_lock
    (λ st, Returns ()
             (Server (users st) (dict_pop job_id (job_status st))
                (delete job_id (user_jobs st)) (lock_held st) (disk st))) ;;
  remove_job_files h job_id.

Definition finished (info : job_info) : bool :=
  bool_decide (info !! "status" = Some "completed") ||
  bool_decide (info !! "status" = Some "failed").

(** [jobs_to_remove], app.py:78-81 *)
Definition jobs_to_remove (st : server) : list string :=
  (filter (λ kv, finished kv.2 = true) (job_status st)).*1.

(** [cleanup_old_files], app.py:73-84: the call of [cleanup_job_files]
    sits inside the [with] statement. *)
Definition cleanup_old_files (h : Helpers.host) : S unit :=
  with_lock
    (λ st, for_each (drop 5 (jobs_to_remove st)) (cleanup_job_files h) st).

(** ** Accounts, app.py:330-492 *)

Inductive jvalue :=
| JStr (s : string)
| JBool (b : bool).

(** [jsonify(body), status] *)
Abbreviation reply := (list (string * jvalue) * Z)%type.

Definition error (msg : string) (status : Z) : reply :=
  ([("error", JStr msg)], status).

(** [hash_password], app.py:330-331 *)
Definition hash_password (e : env) (password : string) : string :=
  sha256 e password.

(** [verify_token], app.py:333-338 *)
Definition verify_token (e : env) (token : string) : option string :=
  jwt_decode e token.

(** [request.headers.get('Authorization', '').replace('Bearer ', '')] *)
Definition bearer (authorization : option string) : string :=
  Py.replace "Bearer " EmptyString (default EmptyString authorization).

Definition set_users (us : gmap string user) (st : server) : server :=
  Server us (job_status st) (user_jobs st) (lock_held st) (disk st).

(** [signup], app.py:425-461.  [data] is the JSON body: [None] when
    there is none, else an object whose values are strings. *)
Definition signup (e : env) (data : option (gmap string string)) : S reply :=
  match data with
  | None => ret (error "No data provided" 400)
  | Some data =>
      if bool_decide (data = ∅) then ret (error "No data provided" 400)
      else
        let username := Py.strip (default EmptyString (data !! "username")) in
        let password := default EmptyString (data !! "password") in
        if bool_decide (username = EmptyString) ||
           bool_decide (password = EmptyString)
        then ret (error "Username and password required" 400)
        else if (String.length username <? 3)%nat
        then ret (error "Username must be at least 3 characters" 400)
        else
          let password_hash := sha256 e password in
          r <- with_lock
                 (λ st, if bool_decide (is_Some (users st !! username))
                        then Returns None st
                        else Returns (Some (jwt_encode e username))
                               (set_users
                                  (<[username := User password_hash [] ∅]>
                                     (users st)) st)) ;;
          match r with
          | None => ret (error "Username already exists" 400)
          | Some token =>
              log_info ("User signed up: " +:+ username) ;;
              ret ([("token", JStr token)], 201)
          end
  end.

(** [login], app.py:463-492 *)
Definition login (e : env) (data : option (gmap string string)) : S reply :=
  match data with
  | None => ret (error "No data provided" 400)
  | Some data =>
      if bool_decide (data = ∅) then ret (error "No data provided" 400)
      else
        let username := Py.strip (default EmptyString (data !! "username")) in
        let password := default EmptyString (data !! "password") in
        if bool_decide (username = EmptyString) ||
           bool_decide (password = EmptyString)
        then ret (error "Username and password required" 400)
        else
          let password_hash := sha256 e password in
          r <- with_lock
                 (λ st, match users st !! username with
                        | Some user =>
                            if bool_decide
                                 (Service.password_hash user = password_hash)
                            then Returns (Some (jwt_encode e username)) st
                            else Returns None st
                        | None => Returns None st
                        end) ;;
          match r with
          | None => ret (error "Invalid credentials" 401)
          | Some token =>
              log_info ("User logged in: " +:+ username) ;;
              ret ([("token", JStr token)], 200)
          end
  end.

(** [get_status], app.py:562-567; the body is the job's dict. *)
Definition get_status (job_id : string) : S (option job_info) :=
  with_lock (λ st, Returns (dict_get job_id (job_status st)) st).

(** ** History, app.py:662-714 *)

(** [l.remove(x)]: the first occurrence goes. *)
Fixpoint list_remove (x : string) (l : list string) : list string :=
  match l with
  | [] => []
  | y :: l' => if bool_decide (y = x) then l' else y :: list_remove x l'
  end.

(** The user a request is made for: [if not username] turns down [None]
    and the empty name. *)
Definition authorized (e : env) (authorization : option string) : option string :=
  match verify_token e (bearer authorization) with
  | Some username =>
      if bool_decide (username = EmptyString) then None else Some username
  | None => None
  end.

(** [toggle_favorite], app.py:662-687 *)
Definition toggle_favorite (e : env) (authorization : option string)
    (job_id : string) : S reply :=
  match authorized e authorization with
  | None => ret (error "Unauthorized" 401)
  | Some username =>
      with_lock
        (λ st, match users st !! username with
               | None => Returns (error "User not found" 404) st
               | Some user =>
                   if bool_decide (job_id ∈ history user)
                   then
                     let favorited := negb (bool_decide (job_id ∈ favorites user)) in
                     let favs := if favorited then favorites user ∪ {[job_id]}
                                 else favorites user ∖ {[job_id]} in
                     Returns ([("favorited", JBool favorited)], 200)
                       (set_users
                          (<[username := User (password_hash user) (history user)
                                           favs]> (users st)) st)
                   else Returns (error "Job not found in user history" 404) st
               end)
  end.

(** [delete_history_item], app.py:689-714 *)
Definition delete_history_item (h : Helpers.host) (e : env)
    (authorization : option string) (job_id : string) : S reply :=
  match authorized e authorization with
  | None => ret (error "Unauthorized" 401)
  | Some username =>
      r <- with_lock
             (λ st, match users st !! username with
                    | None => Returns false st
                    | Some user =>
                        let user' :=
                          User (password_hash user) (list_remove job_id (history user))
                               (favorites user ∖ {[job_id]}) in
                        Returns true
                          (Server (<[username := user']> (users st))
                             (dict_pop job_id (job_status st))
                             (delete job_id (user_jobs st))
                             (lock_held st) (disk st))
                    end) ;;
      if r : bool
      then
        cleanup_job_files h job_id ;;
        ret ([("message", JStr "History item deleted successfully")], 200)
      else ret (error "User not found" 404)
  end.

(** ** The processing task, app.py:340-422 *)

(** What [whisper_model.transcribe] gives: a result with segments, a
    result that is empty or has none, or an exception, of which [str(e)]
    is kept. *)
Inductive transcription :=
| Segments (segs : list Helpers.segment)
| NoSegments
| Failed (msg : string).

(** What the task takes from outside: the speech model, the clock
    ([datetime.now()] as the two texts [strftime] makes of it) and the
    [repr] of the settings that goes to the log. *)
Record studio := Studio {
  whisper_available : bool;
  transcribe : string → gmap string string → transcription;
  today : string;
  clock : string;
  show_settings : option (gmap string string) → string
}.

Definition log_error (msg : string) : S unit :=
  λ st, Returns ()
          (Server (users st) (job_status st) (user_jobs st) (lock_held st)
             (Helpers.World (Helpers.files (disk st))
                (Helpers.log (disk st) ++ [(Helpers.Error, msg)])
                (Helpers.spawned (disk st)))).

(** A step on the disk; an exception comes back as a value. *)
Definition on_disk {A} (m : Helpers.M A) : S (A + Helpers.exn) :=
  λ st, match m (disk st) with
        | Helpers.Ok a w =>
            Returns (inl a)
              (Server (users st) (job_status st) (user_jobs st) (lock_held st) w)
        | Helpers.Raise e w =>
            Returns (inr e)
              (Server (users st) (job_status st) (user_jobs st) (lock_held st) w)
        | Helpers.Beyond => Beyond
        end.

(** [with processing_lock: job_status[job_id] = info] *)
Definition set_status (job_id : string) (info : job_info) : S unit :=
  with_lock
    (λ st, Returns ()
             (Server (users st) (dict_set job_id info (job_status st))
                (user_jobs st) (lock_held st) (disk st))).

(** The user whose history takes the job: [if token:], then
    [if username and username in users:]. *)
Definition history_owner (e : env) (token : option string)
    (us : gmap string user) : option string :=
  match token with
  | Some t =>
      if bool_decide (t = EmptyString) then None
      else
        match verify_token e t with
        | Some username =>
            if bool_decide (username = EmptyString) then None
            else if bool_decide (is_Some (us !! username)) then Some username
            else None
        | None => None
        end
  | None => None
  end.

(** The [with] block that ends a task, app.py:381-395 and 408-422. *)
Definition record_job (e : env) (job_id : string) (token : option string)
    (info : job_info) : S unit :=
  with_lock
    (λ st,
       let us :=
         match history_owner e token (users st) with
         | Some username =>
             alter (λ u, User (password_hash u) (history u ++ [job_id])
                              (favorites u)) username (users st)
         | None => users st
         end in
       Returns ()
         (Server us (dict_set job_id info (job_status st))
            (<[job_id := info]> (user_jobs st)) (lock_held st) (disk st))).

(** [os.remove] of a path that may not be there. *)
Definition remove_existing (h : Helpers.host) (path : string) : Helpers.M unit :=
  Helpers.bind (Helpers.path_exists path)
    (λ there, if there : bool then Helpers.os_remove h path
              else Helpers.raise (Helpers.FileNotFoundError path)).

(** The clean-up after a successful run, app.py:398-403. *)
Definition remove_inputs (h : Helpers.host) (srt_path filepath output_path : string)
  : Helpers.M unit :=
  Helpers.try_except
    (Helpers.bind (remove_existing h srt_path)
       (λ _, if bool_decide (filepath ≠ output_path)
             then remove_existing h filepath else Helpers.ret ()))
    (λ _, Helpers.ret ()).

Local Open Scope Q_scope.

(** [f"{int(d // 60)}:{int(d % 60):02d}"] *)
Definition duration_label (d : Q) : string :=
  Py.str_int (Py.int (Py.floordiv d 60)) +:+ ":" +:+
  Py.fmt_0d 2 (Py.int (Py.pymod d 60)).

(** [result['segments'][-1]['end'] if result['segments'] else 0] *)
Definition video_duration (segs : list Helpers.segment) : Q :=
  match last segs with
  | Some seg => Helpers.seg_end seg
  | None => 0
  end.

Local Close Scope Q_scope.

Definition srt_path_of (job_id : string) : string :=
  PROCESSED_FOLDER +:+ "/" +:+ job_id +:+ "_captions.srt".

Definition output_filename_of (job_id : string) : string :=
  job_id +:+ "_with_subtitles.mp4".

Definition output_path_of (job_id : string) : string :=
  PROCESSED_FOLDER +:+ "/" +:+ output_filename_of job_id.

Definition completed_info (s : studio) (job_id filename : string)
    (segs : list Helpers.segment) : job_info :=
  list_to_map
    [("status", "completed"); ("filename", filename);
     ("download_url", "/download/" +:+ output_filename_of job_id);
     ("transcription",
      Py.join " " (map (λ seg, Py.strip (Helpers.seg_text seg)) segs));
     ("date", today s); ("time", clock s);
     ("duration", duration_label (video_duration segs))].

Definition failed_info (s : studio) (filename msg : string) : job_info :=
  list_to_map
    [("status", "failed"); ("filename", filename); ("error", msg);
     ("date", today s); ("time", clock s); ("duration", "N/A")].

Definition progress (status filename : string) : job_info :=
  list_to_map [("status", status); ("filename", filename)].

(** The [try] block of [process_video_task]; [Some msg] is an
    exception whose [str] is [msg], which the [except] clause takes.
    The log line of the settings is kept from its first letter on (the
    source puts a pictograph before it, and strings are ASCII here). *)
Definition process_video (h : Helpers.host) (e : env) (s : studio)
    (job_id filepath filename : string) (token : option string)
    (caption_settings : option (gmap string string)) : S (option string) :=
  log_info ("Starting processing for job " +:+ job_id) ;;
  set_status job_id (progress "transcribing" filename) ;;
  if negb (whisper_available s) then ret (Some "Whisper not available")
  else
    λ st,
      match transcribe s filepath (Helpers.files (disk st)) with
      | Failed msg => Returns (Some msg) st
      | NoSegments => Returns (Some "No speech detected") st
      | Segments segs =>
          (set_status job_id (progress "generating_captions" filename) ;;
           on_disk (Helpers.write_file (srt_path_of job_id)
                      (App.generate_srt_text segs)) ;;
           set_status job_id (progress "embedding_subtitles" filename) ;;
           log_info ("Using caption settings: " +:+ show_settings s caption_settings) ;;
           overlaid <- on_disk (App.overlay_subtitles h filepath (srt_path_of job_id)
                                  (output_path_of job_id) caption_settings) ;;
           match overlaid with
           | inr exn =>
               match Helpers.exn_str exn with
               | Some msg => ret (Some msg)
               | None => λ _, Beyond
               end
           | inl _ =>
               there <- on_disk (Helpers.path_exists (output_path_of job_id)) ;;
               match there with
               | inl true =>
                   record_job e job_id token (completed_info s job_id filename segs) ;;
                   on_disk (remove_inputs h (srt_path_of job_id) filepath
                              (output_path_of job_id)) ;;
                   log_info ("Processing completed for job " +:+ job_id) ;;
                   ret None
               | _ => ret (Some "Output video not created")
               end
           end) st
      end.

(** [process_video_task], app.py:340-422. *)
Definition process_video_task (h : Helpers.host) (e : env) (s : studio)
    (job_id filepath filename : string) (token : option string)
    (caption_settings : option (gmap string string)) : S unit :=
  raised <- process_video h e s job_id filepath filename token caption_settings ;;
  match raised with
  | None => ret ()
  | Some msg =>
      log_error ("Processing failed for job " +:+ job_id +:+ ": " +:+ msg) ;;
      record_job e job_id token (failed_info s filename msg)
  end.

End Service.

(** ** Sample servers *)

(** Stand-ins for the hash and the token functions. *)
Definition toy_env : Service.env :=
  Service.Env (λ password, "sha256:" +:+ password)
    (λ username, "jwt:" +:+ username)
    (λ token, if Py.startswith "jwt:" token
              then Some (String.substring 4 (String.length token - 4) token)
              else None).

Definition done_job (name : string) : string * Service.job_info :=
  (name, {["status" := "completed"; "filename" := name +:+ ".mp4"]}).

(** Six finished jobs and one in progress, with the output of the first
    and of the last on disk; one account, whose history holds job [a]. *)
Definition busy_server : Service.server :=
  Service.Server
    {["ann" := Service.User "sha256:secret" ["a"] ∅]}
    [done_job "a"; done_job "b"; done_job "c"; done_job "d"; done_job "e";
     ("g", {["status" := "transcribing"]}); done_job "f"]
    (list_to_map [done_job "a"; done_job "f"])
    false
    (Helpers.World
       (list_to_map
          [("/app/processed/a_with_subtitles.mp4", "video a");
           ("/app/processed/f_with_subtitles.mp4", "video f");
           ("/app/uploads/f_clip.mp4", "clip f");
           ("/app/index.html", "page")])
       [] []).

Definition empty_server : Service.server :=
  Service.Server ∅ [] ∅ false (Helpers.World ∅ [] []).

(** A studio whose speech model hears the two sample segments. *)
Definition toy_studio : Service.studio :=
  Service.Studio true (λ _ _, Service.Segments e2e_segments)
    "2024-01-01" "12:00:00" (λ _, "None").

(** * Timestamps *)

Lemma fmt_0d_digits (width : nat) (n : Z) :
  (width = 2%nat ∨ width = 3%nat) →
  0 ≤ n < 10 ^ Z.of_nat width → is_digits width (Py.fmt_0d width n) = true.
Proof.
  intros Hw Hn.
  assert (forallb (λ k, is_digits 2 (Py.fmt_0d 2 (Z.of_nat k))) (seq 0 100) = true)
    as H2 by (by vm_compute).
  assert (forallb (λ k, is_digits 3 (Py.fmt_0d 3 (Z.of_nat k))) (seq 0 1000) = true)
    as H3 by (by vm_compute).
  rewrite forallb_forall in H2, H3.
  rewrite <- (Z2Nat.id n) by lia.
  destruct Hw as [-> | ->]; [apply H2 | apply H3]; apply in_seq;
    change (10 ^ Z.of_nat 2) with 100 in *; change (10 ^ Z.of_nat 3) with 1000 in *; lia.
Qed.

Lemma is_digits_2 (s : string) :
  is_digits 2 s = true →
  ∃ a b, s = String a (String b EmptyString) ∧
         is_digit a = true ∧ is_digit b = true.
Proof.
  destruct s as [|a [|b [|]]]; cbn; rewrite ?andb_false_r; try done.
  rewrite andb_true_r, andb_true_iff. intros [? ?]. by exists a, b.
Qed.

Lemma is_digits_3 (s : string) :
  is_digits 3 s = true →
  ∃ a b c, s = String a (String b (String c EmptyString)) ∧
           is_digit a = true ∧ is_digit b = true ∧ is_digit c = true.
Proof.
  destruct s as [|a [|b [|c [|]]]]; cbn; rewrite ?andb_false_r; try done.
  rewrite andb_true_r, !andb_true_iff. intros (? & ? & ?). by exists a, b, c.
Qed.

Lemma caption_time_shape (h m s f : string) :
  is_digits 2 h = true → is_digits 2 m = true → is_digits 2 s = true →
  is_digits 3 f = true →
  is_caption_time (h +:+ ":" +:+ m +:+ ":" +:+ s +:+ "," +:+ f) = true.
Proof.
  intros (h1 & h2 & -> & Hh1 & Hh2)%is_digits_2 (m1 & m2 & -> & Hm1 & Hm2)%is_digits_2
         (s1 & s2 & -> & Hs1 & Hs2)%is_digits_2
         (f1 & f2 & f3 & -> & Hf1 & Hf2 & Hf3)%is_digits_3.
  change (is_digit h1 && is_digit h2 && true && is_digit m1 && is_digit m2 && true &&
          is_digit s1 && is_digit s2 && true && is_digit f1 && is_digit f2 &&
          is_digit f3 = true).
  by rewrite Hh1, Hh2, Hm1, Hm2, Hs1, Hs2, Hf1, Hf2, Hf3.
Qed.

Lemma append_cons (c : ascii) (a b : string) :
  String c a +:+ b = String c (a +:+ b).
Proof. reflexivity. Qed.

Lemma append_assoc (a b c : string) : (a +:+ b) +:+ c = a +:+ (b +:+ c).
Proof. induction a as [|x a IH]; [done|]. by rewrite !append_cons, IH. Qed.

Lemma append_empty_r (a : string) : a +:+ EmptyString = a.
Proof. induction a as [|x a IH]; [done|]. by rewrite append_cons, IH. Qed.

Lemma lacks_app (c : ascii) (a b : string) :
  lacks c (a +:+ b) = lacks c a && lacks c b.
Proof.
  induction a as [|x a IH]; [done|].
  rewrite append_cons. cbn [lacks]. by rewrite IH, andb_assoc.
Qed.

Lemma digits_lack (c : ascii) (k : nat) (d : string) :
  is_digit c = false → is_digits k d = true → lacks c d = true.
Proof.
  intros Hc. revert k. induction d as [|x d IH]; intros k Hd; [done|].
  destruct k as [|k]; [done|]. cbn in Hd. apply andb_prop in Hd as [Hx Hd].
  cbn [lacks]. rewrite (IH k Hd), andb_true_r.
  destruct (Ascii.eqb_spec c x) as [->|]; [congruence | done].
Qed.

Section OneChar.
Variable c : ascii.
Let sep := String c EmptyString.

Lemma replace_go_app (new a b : string) :
  Py.replace_go sep new 0 (a +:+ b) =
  Py.replace_go sep new 0 a +:+ Py.replace_go sep new 0 b.
Proof.
  induction a as [|x a IH]; [done|].
  rewrite append_cons. cbn [Py.replace_go Py.startswith sep String.length Nat.sub].
  rewrite IH. destruct (Ascii.eqb c x); cbn [andb].
  - by rewrite append_assoc.
  - by rewrite append_cons.
Qed.

Lemma replace_go_lacks (new a : string) :
  lacks c a = true → Py.replace_go sep new 0 a = a.
Proof.
  induction a as [|x a IH]; [done|]. cbn [lacks]. intros [Hx Ha]%andb_prop.
  cbn [Py.replace_go Py.startswith sep String.length Nat.sub].
  apply negb_true_iff in Hx. rewrite Hx. cbn [andb]. by rewrite IH.
Qed.

Lemma split_sep_go_cut (cur a b : string) :
  lacks c a = true →
  Py.split_sep_go sep 0 cur (a +:+ String c b) =
  (cur +:+ a) :: Py.split_sep_go sep 0 EmptyString b.
Proof.
  revert cur. induction a as [|x a IH]; intros cur Ha.
  - cbn [String.append Py.split_sep_go Py.startswith sep String.length Nat.sub].
    change (EmptyString +:+ String c b) with (String c b).
    cbn [Py.split_sep_go Py.startswith sep String.length Nat.sub].
    rewrite Ascii.eqb_refl. cbn [andb]. by rewrite append_empty_r.
  - cbn [lacks] in Ha. apply andb_prop in Ha as [Hx Ha].
    apply negb_true_iff in Hx. rewrite append_cons.
    cbn [Py.split_sep_go Py.startswith sep]. rewrite Hx. cbn [andb].
    rewrite (IH _ Ha), append_assoc. done.
Qed.

Lemma split_sep_go_end (cur a : string) :
  lacks c a = true → Py.split_sep_go sep 0 cur a = [cur +:+ a].
Proof.
  revert cur. induction a as [|x a IH]; intros cur Ha.
  - by rewrite append_empty_r.
  - cbn [lacks] in Ha. apply andb_prop in Ha as [Hx Ha].
    apply negb_true_iff in Hx.
    cbn [Py.split_sep_go Py.startswith sep]. rewrite Hx. cbn [andb].
    rewrite (IH _ Ha), append_assoc. done.
Qed.
End OneChar.

(** Reading back what [fmt_0d] prints. *)
Lemma parse_fmt_0d (width : nat) (n : Z) :
  (width = 2%nat ∨ width = 3%nat) →
  0 ≤ n < 10 ^ Z.of_nat width →
  Py.parse_int (Py.fmt_0d width n) = Some n ∧
  Py.digits_go 0 (Py.fmt_0d width n) = Some n ∧
  String.length (Py.fmt_0d width n) = width.
Proof.
  intros Hw Hn.
  pose (ok := λ (w k : nat),
          bool_decide (Py.parse_int (Py.fmt_0d w (Z.of_nat k)) = Some (Z.of_nat k)) &&
          bool_decide (Py.digits_go 0 (Py.fmt_0d w (Z.of_nat k)) = Some (Z.of_nat k)) &&
          bool_decide (String.length (Py.fmt_0d w (Z.of_nat k)) = w)).
  assert (forallb (ok 2%nat) (seq 0 100) = true) as H2 by (by vm_compute).
  assert (forallb (ok 3%nat) (seq 0 1000) = true) as H3 by (by vm_compute).
  rewrite forallb_forall in H2, H3.
  rewrite <- (Z2Nat.id n) by lia.
  assert (ok width (Z.to_nat n) = true) as Hok.
  { destruct Hw as [-> | ->]; [apply H2 | apply H3]; apply in_seq;
      change (10 ^ Z.of_nat 2) with 100 in *;
      change (10 ^ Z.of_nat 3) with 1000 in *; lia. }
  unfold ok in Hok. rewrite !andb_true_iff, !bool_decide_eq_true in Hok.
  tauto.
Qed.

Lemma convert_caption_time (h m s f : Z) :
  0 ≤ h < 100 → 0 ≤ m < 100 → 0 ≤ s < 100 → 0 ≤ f < 1000 →
  Helpers.convert_time_srt_to_ass
    (Py.fmt_0d 2 h +:+ ":" +:+ Py.fmt_0d 2 m +:+ ":" +:+ Py.fmt_0d 2 s +:+ "," +:+
     Py.fmt_0d 3 f) =
  Some (Py.str_int h +:+ ":" +:+ Py.fmt_0d 2 m +:+ ":" +:+
        Py.fmt_05_2f (inject_Z s + inject_Z f / 1000)).
Proof.
  intros Hh Hm Hs Hf.
  pose proof (fmt_0d_digits 2 h (or_introl eq_refl) Hh) as Dh.
  pose proof (fmt_0d_digits 2 m (or_introl eq_refl) Hm) as Dm.
  pose proof (fmt_0d_digits 2 s (or_introl eq_refl) Hs) as Ds.
  pose proof (fmt_0d_digits 3 f (or_intror eq_refl) Hf) as Df.
  destruct (parse_fmt_0d 2 h (or_introl eq_refl) Hh) as (Ph & _ & _).
  destruct (parse_fmt_0d 2 m (or_introl eq_refl) Hm) as (Pm & _ & _).
  destruct (parse_fmt_0d 2 s (or_introl eq_refl) Hs) as (Ps & _ & _).
  destruct (parse_fmt_0d 3 f (or_intror eq_refl) Hf) as (_ & Pf & Lf).
  set (H := Py.fmt_0d 2 h) in *. set (M := Py.fmt_0d 2 m) in *.
  set (S := Py.fmt_0d 2 s) in *. set (F := Py.fmt_0d 3 f) in *.
  unfold Helpers.convert_time_srt_to_ass, Py.replace.
  rewrite !(replace_go_app ",").
  rewrite (replace_go_lacks "," "." H), (replace_go_lacks "," "." M),
    (replace_go_lacks "," "." S), (replace_go_lacks "," "." F)
    by (eapply digits_lack; [|eassumption]; done).
  change (Py.replace_go "," "." 0 ",") with ".".
  change (Py.replace_go "," "." 0 ":") with ":".
  unfold Py.split_sep.
  change (H +:+ ":" +:+ M +:+ ":" +:+ S +:+ "." +:+ F)
    with (H +:+ String ":" (M +:+ String ":" (S +:+ String "." F))).
  rewrite (split_sep_go_cut ":") by (eapply digits_lack; [|eassumption]; done).
  rewrite (split_sep_go_cut ":") by (eapply digits_lack; [|eassumption]; done).
  rewrite (split_sep_go_end ":").
  2:{ rewrite lacks_app. cbn [lacks].
      rewrite (digits_lack ":" 2 S), (digits_lack ":" 3 F); done. }
  change (EmptyString +:+ H) with H. change (EmptyString +:+ M) with M.
  change (EmptyString +:+ S +:+ String "." F) with (S +:+ String "." F).
  cbn [lookup list_lookup mbind option_bind]. rewrite Ph. cbn [mbind option_bind].
  rewrite Pm. cbn [mbind option_bind].
  unfold Py.parse_float, Py.split_sep.
  rewrite (split_sep_go_cut "."), (split_sep_go_end ".")
    by (eapply digits_lack; [|eassumption]; done).
  change (EmptyString +:+ S) with S. change (EmptyString +:+ F) with F.
  rewrite Ps. cbn [mbind option_bind]. rewrite Pf, Lf. cbn [mbind option_bind].
  reflexivity.
Qed.

Local Open Scope Q_scope.

Lemma py_int_nonneg (x : Q) : 0 <= x → Py.int x = Qfloor x.
Proof.
  intros Hx. unfold Py.int. destruct (Qlt_le_dec x 0) as [H|H]; [lra | done].
Qed.

Lemma Qfloor_bounds (x : Q) (lo hi : Z) :
  inject_Z lo <= x → x < inject_Z hi → (lo ≤ Qfloor x < hi)%Z.
Proof.
  intros Hlo Hhi. split.
  - rewrite <- (Qfloor_Z lo). by apply Qfloor_resp_le.
  - rewrite Zlt_Qlt. eapply Qle_lt_trans; [apply Qfloor_le | done].
Qed.

Lemma pymod_bounds (x y : Q) : 0 < y → 0 <= Py.pymod x y ∧ Py.pymod x y < y.
Proof.
  intros Hy. unfold Py.pymod.
  pose proof (Qfloor_le (x / y)) as Hl. pose proof (Qlt_floor (x / y)) as Hu.
  rewrite inject_Z_plus in Hu. set (q := inject_Z (Qfloor (x / y))) in *.
  assert (x == y * (x / y)) as Hx by (field; lra).
  set (r := x / y) in *. clearbody r q.
  split.
  - assert (y * q <= y * r) by (apply Qmult_le_l; lra). nra.
  - change (inject_Z 1) with 1 in *.
    assert (y * r < y * (q + 1)) by (apply Qmult_lt_l; lra). nra.
Qed.

Lemma py_int_inject (z : Z) : (0 ≤ z)%Z → Py.int (inject_Z z) = z.
Proof.
  intros Hz. rewrite py_int_nonneg, Qfloor_Z; [done|].
  change 0 with (inject_Z 0). by rewrite <- Zle_Qle.
Qed.

Ltac qconst :=
  unfold Qdiv;
  change (/ 60) with (1 # 60); change (/ 3600) with (1 # 3600).

Lemma Qfloor_nonneg (x : Q) : 0 <= x → (0 ≤ Qfloor x)%Z.
Proof. intros Hx. rewrite <- (Qfloor_Z 0). by apply Qfloor_resp_le. Qed.

(** The fields [format_time] prints, for seconds that are not negative. *)
Lemma format_time_fields (s : Q) :
  0 <= s →
  Helpers.format_time s =
    Py.fmt_0d 2 (Qfloor (s / 3600)) +:+ ":" +:+
    Py.fmt_0d 2 (Qfloor (Py.pymod s 3600 / 60)) +:+ ":" +:+
    Py.fmt_0d 2 (Qfloor (Py.pymod s 60)) +:+ "," +:+
    Py.fmt_0d 3 (Py.round ((s - inject_Z (Qfloor s)) * 1000)).
Proof.
  intros Hs. unfold Helpers.format_time.
  destruct (Qlt_le_dec s 0) as [H|_]; [lra|].
  pose proof (pymod_bounds s 3600 ltac:(lra)) as [Hm1 Hm2].
  pose proof (pymod_bounds s 60 ltac:(lra)) as [Hs1 Hs2].
  unfold Py.floordiv.
  rewrite !py_int_inject, (py_int_nonneg s), (py_int_nonneg (Py.pymod s 60)); try done.
  - apply Qfloor_nonneg. qconst. lra.
  - apply Qfloor_nonneg. qconst. lra.
Qed.

Lemma format_time_negative (s : Q) :
  s < 0 → Helpers.format_time s = "00:00:00,000".
Proof.
  intros Hs. unfold Helpers.format_time.
  destruct (Qlt_le_dec s 0) as [_|H]; [by vm_compute | lra].
Qed.

Lemma round_bounds (x : Q) : (Qfloor x ≤ Py.round x ≤ Qfloor x + 1)%Z.
Proof.
  unfold Py.round. destruct (Qcompare _ _); [destruct (Z.even _)| |]; lia.
Qed.

(** The rounded milliseconds stay below 1000 exactly when the fraction is
    below 0.9995. *)
Lemma millis_below_1000 (f : Q) :
  0 <= f → f < 1 →
  (Py.round (f * 1000) < 1000)%Z ↔ f < 9995 # 10000.
Proof.
  intros H0 H1.
  pose proof (Qfloor_le (f * 1000)) as Hl. pose proof (Qlt_floor (f * 1000)) as Hu.
  rewrite inject_Z_plus in Hu. change (inject_Z 1) with 1 in Hu.
  assert (0 ≤ Qfloor (f * 1000) < 1000)%Z as Hfl
    by (apply Qfloor_bounds; change (inject_Z 0) with 0;
        change (inject_Z 1000) with 1000; lra).
  unfold Py.round.
  destruct (Z.eq_dec (Qfloor (f * 1000)) 999%Z) as [He|Hne].
  - rewrite He in *. change (inject_Z 999) with 999 in *.
    destruct (Qcompare_spec (f * 1000 - 999) (1 # 2)) as [Hc|Hc|Hc];
      change (Z.even 999%Z) with false; split; intros; try lia; lra.
  - assert (Qfloor (f * 1000) ≤ 998)%Z as Hle by lia.
    rewrite Zle_Qle in Hle. change (inject_Z 998) with 998 in Hle.
    split; [intros _; lra|intros _].
    destruct (Qcompare _ _); [destruct (Z.even _)| |]; lia.
Qed.

Lemma fraction_bounds (s : Q) :
  0 <= s - inject_Z (Qfloor s) ∧ s - inject_Z (Qfloor s) < 1.
Proof.
  pose proof (Qfloor_le s) as Hl. pose proof (Qlt_floor s) as Hu.
  rewrite inject_Z_plus in Hu. change (inject_Z 1) with 1 in Hu. lra.
Qed.

(** Within a day, [format_time] has the form [HH:MM:SS,mmm] exactly when
    the fraction of the second is below 0.9995. *)
Lemma format_time_pattern (s : Q) :
  0 <= s → s < 86400 →
  is_caption_time (Helpers.format_time s) = true ↔
  s - inject_Z (Qfloor s) < 9995 # 10000.
Proof.
  intros H0 H1. rewrite (format_time_fields s H0).
  pose proof (pymod_bounds s 3600 ltac:(lra)) as [Hm1 Hm2].
  pose proof (pymod_bounds s 60 ltac:(lra)) as [Hs1 Hs2].
  pose proof (fraction_bounds s) as [Hf0 Hf1].
  set (f := s - inject_Z (Qfloor s)) in *.
  assert (is_digits 2 (Py.fmt_0d 2 (Qfloor (s / 3600))) = true) as Hh.
  { apply fmt_0d_digits; [by left|].
    change (10 ^ Z.of_nat 2)%Z with 100%Z.
    apply Qfloor_bounds; change (inject_Z 0) with 0;
      change (inject_Z 100) with 100; qconst; lra. }
  assert (is_digits 2 (Py.fmt_0d 2 (Qfloor (Py.pymod s 3600 / 60))) = true) as Hm.
  { apply fmt_0d_digits; [by left|].
    change (10 ^ Z.of_nat 2)%Z with 100%Z.
    apply Qfloor_bounds; change (inject_Z 0) with 0;
      change (inject_Z 100) with 100; qconst; lra. }
  assert (is_digits 2 (Py.fmt_0d 2 (Qfloor (Py.pymod s 60))) = true) as Hsec.
  { apply fmt_0d_digits; [by left|].
    change (10 ^ Z.of_nat 2)%Z with 100%Z.
    apply Qfloor_bounds; change (inject_Z 0) with 0;
      change (inject_Z 100) with 100; lra. }
  rewrite <- (millis_below_1000 f Hf0 Hf1).
  pose proof (round_bounds (f * 1000)) as Hr.
  assert (0 ≤ Qfloor (f * 1000) < 1000)%Z as Hfl
    by (apply Qfloor_bounds; change (inject_Z 0) with 0;
        change (inject_Z 1000) with 1000; lra).
  split.
  - intros Hp. destruct (Z.eq_dec (Py.round (f * 1000)) 1000%Z) as [He|Hne]; [|lia].
    rewrite He in Hp. 
    apply is_digits_2 in Hh as (h1 & h2 & Eh & _).
    apply is_digits_2 in Hm as (m1 & m2 & Em & _).
    apply is_digits_2 in Hsec as (s1 & s2 & Es & _).
    rewrite Eh, Em, Es in Hp. discriminate Hp.
  - intros Hlt. apply caption_time_shape; try done.
    apply fmt_0d_digits; [by right|]. change (10 ^ Z.of_nat 3)%Z with 1000%Z. lia.
Qed.

Lemma Qfloor_unique (x : Q) (z : Z) :
  inject_Z z <= x → x < inject_Z (z + 1) → Qfloor x = z.
Proof. intros Hl Hu. pose proof (Qfloor_bounds x z (z + 1) Hl Hu). lia. Qed.

Lemma round_near (y : Q) : Qabs (inject_Z (Py.round y) - y) <= 1 # 2.
Proof.
  pose proof (Qfloor_le y) as Hl. pose proof (Qlt_floor y) as Hu.
  rewrite inject_Z_plus in Hu. change (inject_Z 1) with 1 in Hu.
  apply Qabs_Qle_condition. unfold Py.round.
  destruct (Qcompare_spec (y - inject_Z (Qfloor y)) (1 # 2)) as [Hc|Hc|Hc];
    [destruct (Z.even _)| |];
    rewrite ?inject_Z_plus; change (inject_Z 1) with 1; split; lra.
Qed.

Lemma round_close (x y : Q) :
  Qabs (x - y) <= 1 # 2 → (Z.abs (Py.round x - Py.round y) ≤ 1)%Z.
Proof.
  intros Hxy. apply Qabs_Qle_condition in Hxy.
  pose proof (round_near x) as Hx. pose proof (round_near y) as Hy.
  apply Qabs_Qle_condition in Hx, Hy.
  assert (inject_Z (Py.round x - Py.round y) < 2 ∧
          inject_Z (-2) < inject_Z (Py.round x - Py.round y)) as [H1 H2].
  { unfold Zminus. rewrite inject_Z_plus, inject_Z_opp.
    change (inject_Z (-2)) with (-2). split; lra. }
  change 2 with (inject_Z 2) in H1.
  rewrite <- Zlt_Qlt in H1, H2. lia.
Qed.

(** Below the carry, the caption format and back gives the hours and
    minutes of the direct markup time, and a seconds field printed from a
    number within half a millisecond of the one printed directly; the two
    seconds fields differ by one hundredth at most. *)
Lemma caption_roundtrip_below_carry (s : Q) :
  0 <= s → s < 86400 → s - inject_Z (Qfloor s) < 9995 # 10000 →
  let h := Qfloor (s / 3600) in
  let m := Qfloor (Py.pymod s 3600 / 60) in
  ∃ x,
    Helpers.convert_time_srt_to_ass (Helpers.format_time s) =
      Some (Py.str_int h +:+ ":" +:+ Py.fmt_0d 2 m +:+ ":" +:+ Py.fmt_05_2f x) ∧
    toMarkupTime s =
      Py.str_int h +:+ ":" +:+ Py.fmt_0d 2 m +:+ ":" +:+
      Py.fmt_05_2f (Py.pymod s 60) ∧
    Qabs (x - Py.pymod s 60) <= 1 # 2000 ∧
    (Z.abs (Py.round (x * 100) - Py.round (Py.pymod s 60 * 100)) ≤ 1)%Z.
Proof.
  intros H0 H1 Hf h m.
  pose proof (pymod_bounds s 3600 ltac:(lra)) as [Hm1 Hm2].
  pose proof (pymod_bounds s 60 ltac:(lra)) as [Hs1 Hs2].
  pose proof (fraction_bounds s) as [Hf0 Hf1].
  set (f := s - inject_Z (Qfloor s)) in *.
  assert (0 ≤ h < 100)%Z as Hh
    by (apply Qfloor_bounds; change (inject_Z 0) with 0;
        change (inject_Z 100) with 100; qconst; lra).
  assert (0 ≤ m < 100)%Z as Hm
    by (apply Qfloor_bounds; change (inject_Z 0) with 0;
        change (inject_Z 100) with 100; qconst; lra).
  assert (0 ≤ Qfloor (Py.pymod s 60) < 100)%Z as Hsec
    by (apply Qfloor_bounds; change (inject_Z 0) with 0;
        change (inject_Z 100) with 100; lra).
  assert (0 ≤ Py.round (f * 1000) < 1000)%Z as Hms.
  { split; [|by apply millis_below_1000].
    pose proof (round_bounds (f * 1000)).
    pose proof (Qfloor_nonneg (f * 1000) ltac:(lra)). lia. }
  exists (inject_Z (Qfloor (Py.pymod s 60)) + inject_Z (Py.round (f * 1000)) / 1000).
  assert (Py.pymod s 60 - inject_Z (Qfloor (Py.pymod s 60)) == f) as Hfrac.
  { unfold Py.pymod in *. set (k := Qfloor (s / 60)) in *.
    assert (Qfloor (s - 60 * inject_Z k) = (Qfloor s - 60 * k)%Z) as ->.
    { apply Qfloor_unique.
      - unfold Zminus. rewrite inject_Z_plus, inject_Z_opp, inject_Z_mult.
        change (inject_Z 60) with 60. subst f. lra.
      - unfold Zminus. rewrite !inject_Z_plus, inject_Z_opp, inject_Z_mult.
        change (inject_Z 60) with 60. change (inject_Z 1) with 1. subst f. lra. }
    unfold Zminus. rewrite inject_Z_plus, inject_Z_opp, inject_Z_mult.
    change (inject_Z 60) with 60. subst f. lra. }
  pose proof (round_near (f * 1000)) as Hr. apply Qabs_Qle_condition in Hr.
  assert (Qabs (inject_Z (Qfloor (Py.pymod s 60)) +
                inject_Z (Py.round (f * 1000)) / 1000 - Py.pymod s 60) <= 1 # 2000)
    as Hclose.
  { apply Qabs_Qle_condition. unfold Qdiv. change (/ 1000) with (1 # 1000).
    split; lra. }
  repeat split_and.
  - rewrite (format_time_fields s H0). fold f. by apply convert_caption_time.
  - unfold toMarkupTime, Py.floordiv. fold h.
    rewrite (py_int_inject h) by lia. by rewrite py_int_inject by (fold m; lia).
  - done.
  - apply round_close. apply Qabs_Qle_condition in Hclose.
    apply Qabs_Qle_condition. split; lra.
Qed.

Local Close Scope Q_scope.

(** C1. At 0.9996 s the fractional part rounds to 1000 milliseconds, which
    [format_time] prints on four digits without carrying into the seconds:
    the text is not of the form [HH:MM:SS,mmm], although the input lies in
    [0, 86400). The same happens at every instant of the day whose fraction
    of a second is 0.9995 or more, and at no other. *)
Theorem format_time_millis_overflow :
  Helpers.format_time (9996 # 10000) = "00:00:00,1000" ∧
  is_caption_time (Helpers.format_time (9996 # 10000)) = false ∧
  Helpers.format_time (599996 # 10000) = "00:00:59,1000" ∧
  ∀ s : Q, (0 <= s)%Q → (s < 86400)%Q →
    (is_caption_time (Helpers.format_time s) = false ↔
     (9995 # 10000 <= s - inject_Z (Qfloor s))%Q).
Proof.
  repeat split_and; [by vm_compute..|].
  intros s H0 H1. rewrite <- not_true_iff_false, (format_time_pattern s H0 H1).
  split; [apply Qnot_lt_le | apply Qle_not_lt].
Qed.

(** C2. The same input through the caption format and back: the timestamp
    [00:00:00,1000] re-reads as 0.1 s, so the markup time is 0:00:00.10, nine
    tenths of a second before the 0:00:01.00 that formatting 0.9996 s
    directly gives. *)
Theorem caption_roundtrip_loses_carry :
  Helpers.convert_time_srt_to_ass (Helpers.format_time (9996 # 10000))
    = Some "0:00:00.10" ∧
  toMarkupTime (9996 # 10000) = "0:00:01.00" ∧
  markup_centis "0:00:00.10" = Some 10 ∧
  markup_centis "0:00:01.00" = Some 100.
Proof. by vm_compute. Qed.

(** The older [format_time] kept in app.py neither clamps nor rounds: it
    cuts the milliseconds, so it never prints 1000, and a negative input
    gives negative hours. *)
Lemma app_format_time_truncates :
  App.format_time (9996 # 10000) = "00:00:00,999" ∧
  App.format_time (-1) = "-1:59:59,000" ∧
  Helpers.format_time (-1) = "00:00:00,000".
Proof. by vm_compute. Qed.

(** * Cue segmentation *)

Import Helpers.

Section Blocks.
Context {A : Type}.
Implicit Types l : list A.

(** Consecutive blocks of [m] elements, put back together. *)
Lemma concat_blocks l (m n : nat) :
  concat (map (λ k, take m (drop (k * m) l)) (seq 0 n)) = take (n * m) l.
Proof.
  induction n as [|n IH]; [reflexivity|].
  rewrite seq_S, map_app, concat_app, IH. cbn [map concat Nat.add].
  rewrite app_nil_r, take_take_drop. f_equal. lia.
Qed.



Lemma foldl_concat {B} (f : B → A → B) (b : B) (ls : list (list A)) :
  foldl f b (concat ls) = foldl (λ b l, foldl f b l) b ls.
Proof.
  revert b. induction ls as [|l ls IH]; intros b; [done|].
  by rewrite concat_cons, foldl_app, IH.
Qed.
End Blocks.

Lemma slice_block (words : list string) (k : nat) :
  slice words (k * 7) (k * 7 + 7) = take 7 (drop (k * 7) words).
Proof. unfold slice. f_equal. lia. Qed.

Lemma chunks_blocks (words : list string) :
  chunks words =
  map (λ k, take 7 (drop (k * 7) words)) (seq 0 ((length words + 6) / 7)).
Proof.
  unfold chunks, range_step, max_words.
  rewrite map_map.
  replace (length words + 7 - 1)%nat with (length words + 6)%nat by lia.
  apply map_ext. intros k. apply slice_block.
Qed.

Lemma chunks_length (words : list string) :
  length (chunks words) = ((length words + 6) / 7)%nat.
Proof. by rewrite chunks_blocks, length_map, length_seq. Qed.

Lemma chunks_concat (words : list string) : concat (chunks words) = words.
Proof.
  rewrite chunks_blocks, concat_blocks. apply take_ge.
  pose proof (Nat.div_mod_eq (length words + 6) 7).
  pose proof (Nat.mod_upper_bound (length words + 6) 7). lia.
Qed.


Lemma block_length (words : list string) (i : nat) :
  let n := ((length words + 6) / 7)%nat in
  (i < n)%nat →
  (1 ≤ length (take 7 (drop (i * 7) words)) ≤ 7)%nat ∧
  ((i + 1 < n)%nat → length (take 7 (drop (i * 7) words)) = 7%nat).
Proof.
  intros n Hi. subst n. rewrite length_take, length_drop.
  pose proof (Nat.div_mod_eq (length words + 6) 7).
  pose proof (Nat.mod_upper_bound (length words + 6) 7). lia.
Qed.



(** The caption file holds the cues of the segments, in order. *)
Lemma generate_srt_text_cues (segments : list segment) :
  generate_srt_text segments = caption_text (concat (map segment_cues segments)).
Proof.
  unfold generate_srt_text, caption_text. rewrite foldl_concat.
  f_equal. generalize (1, EmptyString).
  induction segments as [|seg segs IH]; intros st; [done|].
  simpl. apply IH.
Qed.






(** The older [generate_srt] kept in app.py writes one cue for a segment,
    however long. *)
Lemma app_generate_srt_one_cue (seg : segment) (idx : Z) (f : string) :
  Py.strip (seg_text seg) ≠ EmptyString →
  App.write_segment (idx, f) seg =
    (idx + 1,
     f +:+ Py.str_int idx +:+ Py.nl +:+
     App.format_time (seg_start seg) +:+ " --> " +:+
     App.format_time (seg_end seg) +:+ Py.nl +:+
     Py.strip (seg_text seg) +:+ Py.nl +:+ Py.nl).
Proof.
  intros Ht. unfold App.write_segment.
  rewrite bool_decide_eq_false_2 by done.
  by rewrite <- !append_assoc.
Qed.

(** * Substring search *)

Lemma startswith_occurs (a s : string) :
  Py.startswith a s = true ↔ ∃ suf, s = a +:+ suf.
Proof.
  revert s. induction a as [|c a IH]; intros s.
  - split; [intros _; by exists s | done].
  - destruct s as [|d s]; simpl.
    + split; [done | intros [suf Hs]; discriminate].
    + rewrite andb_true_iff, Ascii.eqb_eq, IH. split.
      * intros [-> [suf ->]]. by exists suf.
      * intros [suf Hs]. rewrite append_cons in Hs.
        injection Hs as -> ->. split; [done | by exists suf].
Qed.

Lemma contains_occurs (sub s : string) :
  Py.contains sub s = true ↔ occurs_in sub s.
Proof.
  unfold occurs_in. induction s as [|d s IH]; simpl.
  - rewrite orb_false_r, startswith_occurs. split.
    + intros [suf Hs]. by exists EmptyString, suf.
    + intros [[|c pre] [suf Hs]]; [by exists suf | discriminate].
  - rewrite orb_true_iff, startswith_occurs, IH. split.
    + intros [[suf Hs] | (pre & suf & Hs)].
      * by exists EmptyString, suf.
      * exists (String d pre), suf. by rewrite Hs.
    + intros [[|c pre] [suf Hs]].
      * left. by exists suf.
      * right. rewrite append_cons in Hs. injection Hs as -> Hs.
        by exists pre, suf.
Qed.

Lemma contains_flag (sub s : string) (v : Z) :
  v = (if Py.contains sub s then -1 else 0) →
  (v = -1 ↔ occurs_in sub s) ∧ (v = 0 ↔ ¬ occurs_in sub s).
Proof.
  intros ->. rewrite <- contains_occurs.
  destruct (Py.contains sub s); split; split; done.
Qed.

(** * Style resolution *)

(** The fields of the resolved style, one at a time. *)

Ltac split_tuples :=
  repeat match goal with
         | |- context [match ?e with pair _ _ => _ end] => destruct e eqn:?
         end.

Ltac style_field :=
  unfold Helpers.resolve_style, App.resolve_style, placement_of;
  cbn [default from_option id];
  repeat match goal with
         | |- context [bool_decide (?x = "none")] => destruct (bool_decide (x = "none"))
         | |- context [bool_decide (?x ∈ ?l)] => destruct (bool_decide (x ∈ l))
         | |- context [bool_decide (?x = "left")] => destruct (bool_decide (x = "left"))
         | |- context [bool_decide (?x = "right")] => destruct (bool_decide (x = "right"))
         end;
  cbn [negb]; split_tuples; simplify_eq; reflexivity.

Lemma helpers_primary_color (cs : gmap string string) :
  primary_color (Helpers.resolve_style cs) =
  default "00FFFFFF" (Helpers.COLOR_MAP !! default "white" (cs !! "color")).
Proof. style_field. Qed.

Lemma helpers_back_color (cs : gmap string string) :
  back_color (Helpers.resolve_style cs) =
  default "FF000000" (Helpers.BG_COLOR_MAP !! default "none" (cs !! "bgColor")).
Proof. style_field. Qed.

Lemma helpers_font_name (cs : gmap string string) :
  font_name (Helpers.resolve_style cs) =
  default "Arial" (Helpers.FONT_MAP !! default "arial" (cs !! "font")).
Proof. style_field. Qed.

Lemma helpers_bold (cs : gmap string string) :
  bold (Helpers.resolve_style cs) =
  if Py.contains "bold" (default "normal" (cs !! "fontStyle")) then -1 else 0.
Proof. style_field. Qed.

Lemma helpers_italic (cs : gmap string string) :
  italic (Helpers.resolve_style cs) =
  if Py.contains "italic" (default "normal" (cs !! "fontStyle")) then -1 else 0.
Proof. style_field. Qed.

Lemma helpers_placement (cs : gmap string string) :
  placement_of (Helpers.resolve_style cs) =
  get_ass_alignment_and_margins (default "bottom" (cs !! "position"))
    (default "center" (cs !! "alignment")).
Proof. style_field. Qed.

(** helpers.py fixes the outline and the shadow: the settings have no say. *)
Lemma helpers_border (cs : gmap string string) :
  (border_style (Helpers.resolve_style cs), outline (Helpers.resolve_style cs),
   shadow (Helpers.resolve_style cs)) =
  if bool_decide (default "none" (cs !! "bgColor") = "none")
  then ("1", "2", "1") else ("4", "2", "0").
Proof. style_field. Qed.

Lemma app_primary_color (cs : gmap string string) :
  primary_color (App.resolve_style (Some cs)) =
  default "00FFFFFF" (App.color_map !! default "white" (cs !! "color")).
Proof. style_field. Qed.

Lemma app_back_color (cs : gmap string string) :
  back_color (App.resolve_style (Some cs)) =
  default "FF000000" (App.bg_color_map !! default "none" (cs !! "bgColor")).
Proof. style_field. Qed.

Lemma app_font_name (cs : gmap string string) :
  font_name (App.resolve_style (Some cs)) =
  let font_family := default "Arial" (cs !! "font") in
  default font_family (App.font_map !! Py.lower font_family).
Proof. style_field. Qed.

Lemma app_bold (cs : gmap string string) :
  bold (App.resolve_style (Some cs)) =
  if Py.contains "bold" (default "normal" (cs !! "fontStyle")) then -1 else 0.
Proof. style_field. Qed.

Lemma app_italic (cs : gmap string string) :
  italic (App.resolve_style (Some cs)) =
  if Py.contains "italic" (default "normal" (cs !! "fontStyle")) then -1 else 0.
Proof. style_field. Qed.

Lemma app_border (cs : gmap string string) :
  (border_style (App.resolve_style (Some cs)), outline (App.resolve_style (Some cs)),
   shadow (App.resolve_style (Some cs))) =
  if bool_decide (default "none" (cs !! "bgColor") = "none")
  then ("1",
        default "2" (App.outline_map !! default "medium" (cs !! "outlineThickness")),
        default "2" (App.shadow_map !! default "medium" (cs !! "shadowDistance")))
  else ("4", "2", "0").
Proof. style_field. Qed.

Lemma row_anchor_cases (position : string) :
  position ∈ row_anchors →
  position = "top" ∨ position = "middle" ∨ position = "bottom".
Proof. unfold row_anchors. rewrite !elem_of_cons, elem_of_nil. tauto. Qed.

Lemma unknown_position_helpers (p : string) :
  Helpers.position_map !! p = None → bool_decide (p ∈ row_anchors) = false.
Proof.
  intros Hp. apply bool_decide_eq_false_2. intros Hin.
  apply row_anchor_cases in Hin as [-> | [-> | ->]]; by vm_compute in Hp.
Qed.

Lemma unknown_position_app (p : string) :
  App.position_map !! p = None → bool_decide (p ∈ row_anchors) = false.
Proof.
  intros Hp. apply bool_decide_eq_false_2. intros Hin.
  apply row_anchor_cases in Hin as [-> | [-> | ->]]; by vm_compute in Hp.
Qed.

Lemma helpers_placement_unknown (p a : string) :
  Helpers.position_map !! p = None →
  get_ass_alignment_and_margins p a = (2, "10", "10", "20").
Proof.
  intros Hp. unfold get_ass_alignment_and_margins. fold row_anchors.
  by rewrite Hp, (unknown_position_helpers p Hp).
Qed.

Lemma app_placement_unknown (cs : gmap string string) :
  App.position_map !! default "bottom" (cs !! "position") = None →
  placement_of (App.resolve_style (Some cs)) = (2, "10", "10", "20").
Proof.
  intros Hn. pose proof (unknown_position_app _ Hn) as Hr.
  unfold App.resolve_style, placement_of. cbn [default from_option id].
  fold row_anchors. rewrite Hn, Hr. cbn [default from_option id].
  split_tuples; simplify_eq; reflexivity.
Qed.

(** The duplicate in app.py knows seven zones only: the two middle cells
    fall back to bottom-center there. *)
Lemma app_middle_cells :
  placement_of (App.resolve_style (Some {["position" := "middle-left"]}))
    = (2, "10", "10", "20") ∧
  placement_of (App.resolve_style (Some {["position" := "middle-right"]}))
    = (2, "10", "10", "20").
Proof. by vm_compute. Qed.

(** With no setting at all helpers.py gives the style of app.py but for
    the shadow, which it fixes at 1. *)
Lemma helpers_default_style :
  Helpers.resolve_style ∅ =
    Style "Arial" "20" "00FFFFFF" "FF000000" 0 0 "1" "2" "1" 2 "10" "10" "20" ∧
  Helpers.resolve_style default_settings = Helpers.resolve_style ∅ ∧
  Helpers.resolve_style overlay_default_settings = Helpers.resolve_style ∅.
Proof. by vm_compute. Qed.




(** C7, as the code has it. An unknown colour name gives white, an unknown
    background name gives [FF000000], an unknown position gives
    bottom-center with margins 10/10/20, in both implementations. An
    unknown font name gives Arial in helpers.py; app.py looks the
    lower-cased name up and passes an unknown one through. An unknown
    outline or shadow severity gives the [medium] entry in app.py when no
    background is set; helpers.py does not read the two keys. Keys that are
    not read change nothing. *)
Theorem style_fallbacks (caption_settings : gmap string string) :
  let h := Helpers.resolve_style caption_settings in
  let a := App.resolve_style (Some caption_settings) in
  (∀ c, caption_settings !! "color" = Some c →
     (Helpers.COLOR_MAP !! c = None → primary_color h = "00FFFFFF") ∧
     (App.color_map !! c = None → primary_color a = "00FFFFFF")) ∧
  (∀ b, caption_settings !! "bgColor" = Some b →
     Helpers.BG_COLOR_MAP !! b = None →
     back_color h = "FF000000" ∧ back_color a = "FF000000") ∧
  (∀ p, caption_settings !! "position" = Some p →
     (Helpers.position_map !! p = None → placement_of h = (2, "10", "10", "20")) ∧
     (App.position_map !! p = None → placement_of a = (2, "10", "10", "20"))) ∧
  (∀ f, caption_settings !! "font" = Some f →
     (Helpers.FONT_MAP !! f = None → font_name h = "Arial") ∧
     (App.font_map !! Py.lower f = None → font_name a = f)) ∧
  (default "none" (caption_settings !! "bgColor") = "none" →
     (∀ o, caption_settings !! "outlineThickness" = Some o →
        App.outline_map !! o = None →
        Some (outline a) = App.outline_map !! "medium") ∧
     (∀ s, caption_settings !! "shadowDistance" = Some s →
        App.shadow_map !! s = None →
        Some (shadow a) = App.shadow_map !! "medium")) ∧
  (∀ k v, k ∉ helpers_keys →
     Helpers.resolve_style (<[k := v]> caption_settings) = h) ∧
  (∀ k v, k ∉ app_keys →
     App.resolve_style (Some (<[k := v]> caption_settings)) = a).
Proof.
  intros h a. subst h a. repeat split_and.
  - intros c Hc. rewrite helpers_primary_color, app_primary_color, Hc.
    cbn [default from_option id]. by split; intros ->.
  - intros b Hb Hn. rewrite helpers_back_color, app_back_color, Hb.
    unfold App.bg_color_map. cbn [default from_option id]. by rewrite Hn.
  - intros p Hp. split; intros Hn.
    + rewrite helpers_placement, Hp. by apply helpers_placement_unknown.
    + apply app_placement_unknown. by rewrite Hp.
  - intros f Hf. rewrite helpers_font_name, app_font_name, Hf.
    cbn [default from_option id]. by split; intros ->.
  - intros Hbg. pose proof (app_border caption_settings) as Hb.
    rewrite (bool_decide_eq_true_2 _ Hbg) in Hb. injection Hb as _ Ho Hs.
    split.
    + intros o Hl Hn. rewrite Ho, Hl. cbn [default from_option id]. by rewrite Hn.
    + intros s Hl Hn. rewrite Hs, Hl. cbn [default from_option id]. by rewrite Hn.
  - intros k v Hk. unfold helpers_keys in Hk.
    rewrite !not_elem_of_cons in Hk. destruct Hk as (?&?&?&?&?&?&?&_).
    unfold Helpers.resolve_style. by rewrite !lookup_insert_ne.
  - intros k v Hk. unfold app_keys, helpers_keys in Hk. cbn [app] in Hk.
    rewrite !not_elem_of_cons in Hk. destruct Hk as (?&?&?&?&?&?&?&?&?&_).
    unfold App.resolve_style. cbn [default from_option id].
    by rewrite !lookup_insert_ne.
Qed.

Lemma style_fallbacks_witness :
  primary_color (Helpers.resolve_style {["color" := "teal"]}) = "00FFFFFF" ∧
  font_name (Helpers.resolve_style {["font" := "Foo"]}) = "Arial" ∧
  font_name (App.resolve_style (Some {["font" := "Foo"]})) = "Foo" ∧
  Some (shadow (App.resolve_style (Some {["shadowDistance" := "huge"]})))
    = App.shadow_map !! "medium" ∧
  Helpers.resolve_style (<["shadowDistance" := "huge"]> ∅) = Helpers.resolve_style ∅.
Proof.
  destruct (style_fallbacks {["color" := "teal"]}) as (Hc & _).
  destruct (style_fallbacks {["font" := "Foo"]}) as (_ & _ & _ & Hf & _).
  destruct (style_fallbacks {["shadowDistance" := "huge"]}) as (_ & _ & _ & _ & Hs & _).
  destruct (style_fallbacks ∅) as (_ & _ & _ & _ & _ & Hk & _).
  split; [by apply (Hc "teal"); vm_compute|].
  split; [by apply (Hf "Foo"); vm_compute|].
  split; [by apply (Hf "Foo"); vm_compute|].
  split; [by apply (proj2 (Hs eq_refl) "huge"); vm_compute|].
  apply Hk. by apply (bool_decide_unpack _); vm_compute.
Defined.

(** C7 as stated fails in each implementation: app.py keeps the unknown
    font name [Foo] where the claim has Arial, and helpers.py, which reads
    no severity, leaves the shadow at 1 where the [medium] entry is 2. *)
Lemma style_fallbacks_counterexample :
  App.font_map !! Py.lower "Foo" = None ∧
  font_name (App.resolve_style (Some {["font" := "Foo"]})) ≠ "Arial" ∧
  App.shadow_map !! "bogus" = None ∧
  Some (shadow (Helpers.resolve_style {["shadowDistance" := "bogus"]}))
    ≠ App.shadow_map !! "medium".
Proof. by vm_compute. Qed.

(** C10. The bold flag is -1 when [bold] occurs somewhere in the
    [fontStyle] value ([normal] when the key is missing) and 0 when it does
    not; the italic flag likewise with [italic]; in helpers.py and in
    app.py alike. A value such as [semibold-italics], which has neither
    word as a token of its own, sets both. *)
Theorem font_style_flags (caption_settings : gmap string string) :
  let font_style := default "normal" (caption_settings !! "fontStyle") in
  let h := Helpers.resolve_style caption_settings in
  let a := App.resolve_style (Some caption_settings) in
  ((bold h = -1 ↔ occurs_in "bold" font_style) ∧
   (bold h = 0 ↔ ¬ occurs_in "bold" font_style)) ∧
  ((italic h = -1 ↔ occurs_in "italic" font_style) ∧
   (italic h = 0 ↔ ¬ occurs_in "italic" font_style)) ∧
  ((bold a = -1 ↔ occurs_in "bold" font_style) ∧
   (bold a = 0 ↔ ¬ occurs_in "bold" font_style)) ∧
  ((italic a = -1 ↔ occurs_in "italic" font_style) ∧
   (italic a = 0 ↔ ¬ occurs_in "italic" font_style)) ∧
  (bold (Helpers.resolve_style {["fontStyle" := "semibold-italics"]}),
   italic (Helpers.resolve_style {["fontStyle" := "semibold-italics"]}),
   bold (Helpers.resolve_style ∅), italic (Helpers.resolve_style ∅))
  = (-1, -1, 0, 0).
Proof.
  intros font_style h a. subst font_style h a.
  repeat split_and; try apply contains_flag;
    auto using helpers_bold, helpers_italic, app_bold, app_italic.
Qed.

Lemma font_style_flags_witness :
  bold (App.resolve_style (Some {["fontStyle" := "bolder"]})) = -1 ∧
  italic (App.resolve_style (Some {["fontStyle" := "bolder"]})) = 0.
Proof.
  destruct (font_style_flags {["fontStyle" := "bolder"]})
    as (_ & _ & [Hb _] & [_ Hi] & _).
  split.
  - apply Hb. exists EmptyString, "er". reflexivity.
  - apply Hi. rewrite <- contains_occurs. by vm_compute.
Defined.

(** * Muxing *)

Ltac run_overlay :=
  cbv beta iota zeta delta
    [overlay_subtitles try_except bind raise ret path_exists os_makedirs
     logger subprocess_run getsize os_remove overlay_handler exn_str beyond
     negb];
  cbn [files log spawned].

(** The conversion writes the markup file and touches no other file. *)
Lemma convert_srt_to_ass_written (srt_path ass_path : string)
    (settings : gmap string string) (w : world) (srt doc : string) :
  files w !! srt_path = Some srt →
  ass_document settings srt = Some doc →
  ∃ l, convert_srt_to_ass srt_path ass_path (Some settings) w =
         Ok true (World (<[ass_path := doc]> (files w)) (log w ++ l) (spawned w)).
Proof.
  intros Hsrt Hdoc. unfold convert_srt_to_ass. cbn [default from_option id].
  rewrite Hsrt, Hdoc.
  cbv beta iota zeta delta [bind write_file logger ret]. cbn [files log spawned].
  eexists. by rewrite <- !app_assoc.
Qed.

Lemma nonempty_size (c : string) :
  c ≠ EmptyString → bool_decide (Z.of_nat (String.length c) = 0) = false.
Proof.
  intros Hc. apply bool_decide_eq_false_2. destruct c; [done | simpl; lia].
Qed.

(** C8, as the code has it. When the input video does not exist the call
    fails before anything else happens: no process is started, no file is
    written, nothing is logged. The [FileNotFoundError] of the check does
    not leave the function: the last [except] clause turns it into a plain
    [Exception] whose text is [Overlay failed: Input not found: <path>]. *)
Theorem overlay_missing_input (h : host) (input_path srt_path output_path : string)
    (caption_settings : option (gmap string string)) (w : world) :
  files w !! abspath h input_path = None →
  overlay_subtitles h input_path srt_path output_path caption_settings w =
    Raise (Exception ("Overlay failed: Input not found: " +:+ abspath h input_path)) w.
Proof.
  intros Hin. run_overlay. rewrite Hin.
  by rewrite bool_decide_eq_false_2 by (by intros [? ?]).
Qed.

Lemma overlay_missing_input_witness :
  overlay_subtitles (sample_host (Exited 0 "" (Some "mp4")) false)
    "/in.mp4" "/c.srt" "/out.mp4" None bare_world =
  Raise (Exception "Overlay failed: Input not found: /in.mp4") bare_world.
Proof.
  apply (overlay_missing_input (sample_host (Exited 0 "" (Some "mp4")) false)
           "/in.mp4" "/c.srt" "/out.mp4" None bare_world).
  reflexivity.
Defined.

(** C8 as stated fails: what the caller gets is not the typed
    [FileNotFoundError] but a plain [Exception], the class of every other
    failure of the call. *)
Lemma overlay_missing_input_counterexample :
  raises_file_not_found
    (overlay_subtitles (sample_host (Exited 0 "" (Some "mp4")) false)
       "/in.mp4" "/c.srt" "/out.mp4" None bare_world) = false ∧
  overlay_subtitles (sample_host (Exited 0 "" (Some "mp4")) false)
    "/in.mp4" "/c.srt" "/out.mp4" None bare_world =
  Raise (Exception "Overlay failed: Input not found: /in.mp4") bare_world.
Proof. by vm_compute. Qed.

Section Encoder.
Variable h : host.
Variables input_path srt_path output_path : string.
Variable caption_settings : option (gmap string string).
Variable w : world.
Variables srt doc : string.

Let input := abspath h input_path.
Let captions := abspath h srt_path.
Let output := abspath h output_path.
Let ass_path := markup_path h srt_path.
Let cmd := ffmpeg_cmd h input ass_path output.
Let settings := default overlay_default_settings caption_settings.

Hypothesis input_there : is_Some (files w !! input).
Hypothesis captions_there : files w !! captions = Some srt.
Hypothesis makedirs_ok : makedirs_error h (dirname h output) = None.
Hypothesis converts : ass_document settings srt = Some doc.

Lemma markup_survives_encoder (written : option string) :
  is_Some (encoded (files w) ass_path doc output written !! ass_path).
Proof.
  destruct written as [c|]; unfold encoded; [|by rewrite lookup_insert_eq].
  rewrite lookup_insert. case_decide; eauto. rewrite lookup_insert_eq. eauto.
Qed.

(** The call up to the end of the encoder. *)
Lemma overlay_reaches_encoder :
  ∃ l,
    convert_srt_to_ass captions ass_path (Some settings) w =
      Ok true (World (<[ass_path := doc]> (files w)) (log w ++ l) (spawned w)) ∧
    bool_decide (is_Some (files w !! input)) = true ∧
    bool_decide (is_Some (files w !! captions)) = true.
Proof.
  destruct (convert_srt_to_ass_written captions ass_path settings w srt doc
              captions_there converts) as [l Hconv].
  exists l. repeat split_and; [done | by apply bool_decide_eq_true_2 |].
  apply bool_decide_eq_true_2. rewrite captions_there. eauto.
Qed.

End Encoder.



(** The older [overlay_subtitles] kept in app.py does not look for the
    input video: with the caption file in place it writes the markup file
    and starts the encoder, whose failure is what it reports; the markup
    file stays there as well. *)
Lemma app_overlay_starts_encoder :
  ∃ w',
    App.overlay_subtitles (sample_host (Exited 1 "boom" None) false)
      "/in.mp4" "/c.srt" "/out.mp4" None captions_only_world =
      Raise (Exception "Subtitle overlay failed: FFmpeg failed: boom") w' ∧
    length (spawned w') = 1%nat ∧
    is_Some (files w' !! "/c.ass") ∧
    files captions_only_world !! "/in.mp4" = None.
Proof. eexists. vm_compute. repeat split_and; eauto. Qed.

(** * Caption files: numbering, timing and words *)

Lemma write_cue_block (st : Z * string) (c : cue) :
  write_cue st c = (st.1 + 1, st.2 +:+ cue_block format_time st.1 c).
Proof.
  destruct st as [idx f]. unfold write_cue, cue_block. cbn [fst snd].
  f_equal. by rewrite !append_assoc.
Qed.

Lemma write_cues_blocks (cues : list cue) (idx : Z) (f : string) :
  foldl write_cue (idx, f) cues =
    (idx + Z.of_nat (length cues), f +:+ cue_blocks format_time idx cues).
Proof.
  revert idx f. induction cues as [|c cues IH]; intros idx f.
  - cbn. by rewrite Z.add_0_r, append_empty_r.
  - cbn [foldl cue_blocks length]. rewrite write_cue_block. cbn [fst snd].
    rewrite IH, append_assoc. f_equal. lia.
Qed.

Lemma app_write_segment_block (st : Z * string) (seg : segment) :
  App.write_segment st seg =
    foldl (λ st c, (st.1 + 1, st.2 +:+ cue_block App.format_time st.1 c))
          st (app_cues [seg]).
Proof.
  destruct st as [idx f]. unfold App.write_segment, app_cues. cbn [omap list_omap].
  destruct (bool_decide _); [done|]. cbn [foldl fst snd]. unfold cue_block.
  cbn [cue_start cue_end cue_text]. f_equal. by rewrite !append_assoc.
Qed.

Lemma app_write_blocks (cues : list cue) (idx : Z) (f : string) :
  foldl (λ st c, (st.1 + 1, st.2 +:+ cue_block App.format_time st.1 c))
        (idx, f) cues =
    (idx + Z.of_nat (length cues), f +:+ cue_blocks App.format_time idx cues).
Proof.
  revert idx f. induction cues as [|c cues IH]; intros idx f.
  - cbn. by rewrite Z.add_0_r, append_empty_r.
  - cbn [foldl cue_blocks length fst snd].
    rewrite IH, append_assoc. f_equal. lia.
Qed.

Lemma app_write_segments (segments : list segment) (st : Z * string) :
  foldl App.write_segment st segments =
    foldl (λ st c, (st.1 + 1, st.2 +:+ cue_block App.format_time st.1 c))
          st (app_cues segments).
Proof.
  revert st. induction segments as [|seg segs IH]; intros st; [done|].
  cbn [foldl]. rewrite IH, app_write_segment_block.
  change (seg :: segs) with ([seg] ++ segs).
  unfold app_cues. by rewrite omap_app, foldl_app.
Qed.

(** X1. The caption file is the blocks of its cues and nothing else: the cues
    are numbered 1, 2, 3, ... without a gap across the segments, a segment
    without text takes no number, and each block is the index line, the time
    line, the text and an empty line. This holds for [generate_srt] of
    helpers.py over the chunked cues and for the one of app.py over one cue per
    segment with text. *)
Theorem caption_numbering (segments : list segment) :
  generate_srt_text segments
    = cue_blocks format_time 1 (concat (map segment_cues segments)) ∧
  App.generate_srt_text segments
    = cue_blocks App.format_time 1 (app_cues segments).
Proof.
  split.
  - rewrite generate_srt_text_cues. unfold caption_text.
    by rewrite write_cues_blocks.
  - unfold App.generate_srt_text. by rewrite app_write_segments, app_write_blocks.
Qed.

Lemma segment_cues_long (seg : segment) :
  let words := Py.split (Py.strip (seg_text seg)) in
  let n := ((length words + 6) / 7)%nat in
  let dur := (seg_end seg - seg_start seg)%Q in
  (7 < length words)%nat →
  segment_cues seg =
    map (λ i, Cue (seg_start seg + Qnat i * (dur / Qnat n))
                  (Py.min (seg_start seg + Qnat (i + 1) * (dur / Qnat n))
                          (seg_end seg))
                  (Py.join " " (take 7 (drop (i * 7) words))))
        (seq 0 n).
Proof.
  intros words n dur Hw. unfold segment_cues. fold words.
  assert (Py.strip (seg_text seg) ≠ EmptyString) as Ht.
  { intros Ht. subst words. rewrite Ht in Hw. simpl in Hw. lia. }
  rewrite bool_decide_eq_false_2 by done.
  rewrite (proj2 (Nat.leb_gt _ _)) by (unfold max_words; lia).
  rewrite chunks_length. fold n. fold dur.
  unfold enumerate. rewrite chunks_length. fold n.
  rewrite chunks_blocks. fold n.
  rewrite zip_with_fmap_r, zip_with_diag, map_map. reflexivity.
Qed.




Lemma segment_cues_cases (seg : segment) :
  let words := Py.split (Py.strip (seg_text seg)) in
  segment_cues seg = [] ∧ Py.strip (seg_text seg) = EmptyString ∨
  segment_cues seg = [Cue (seg_start seg) (seg_end seg) (Py.strip (seg_text seg))]
    ∧ Py.strip (seg_text seg) ≠ EmptyString ∧ (length words ≤ 7)%nat ∨
  (7 < length words)%nat.
Proof.
  intros words. unfold segment_cues. fold words.
  case_bool_decide as Ht; [by left|]. right.
  destruct (Nat.leb_spec (length words) max_words) as [H|H]; unfold max_words in H.
  - left. done.
  - right. done.
Qed.





(** ** Words *)

Lemma append_nonempty (a : string) (c : ascii) :
  a +:+ String c EmptyString ≠ EmptyString.
Proof. destruct a; discriminate. Qed.

Lemma no_space_snoc (a : string) (c : ascii) :
  no_space a = true → Py.isspace c = false →
  no_space (a +:+ String c EmptyString) = true.
Proof.
  intros Ha Hc. induction a as [|x a IH]; cbn [no_space] in *.
  - change (EmptyString +:+ String c EmptyString) with (String c EmptyString).
    cbn [no_space]. by rewrite Hc.
  - rewrite append_cons. cbn [no_space].
    apply andb_true_iff in Ha as [Hx Ha]. by rewrite Hx, IH.
Qed.

Lemma split_go_word (cur w s : string) :
  no_space w = true → Py.split_go cur (w +:+ s) = Py.split_go (cur +:+ w) s.
Proof.
  revert cur. induction w as [|c w IH]; intros cur Hw.
  - by rewrite append_empty_r.
  - cbn [no_space] in Hw. apply andb_true_iff in Hw as [Hc Hw].
    apply negb_true_iff in Hc.
    rewrite append_cons. cbn [Py.split_go]. rewrite Hc, IH by done.
    by rewrite append_assoc.
Qed.

Lemma split_go_words (cur s : string) :
  no_space cur = true →
  Forall (λ w, is_word w = true) (Py.split_go cur s).
Proof.
  revert cur. induction s as [|c s IH]; intros cur Hcur; cbn [Py.split_go].
  - destruct cur; [constructor|]. by repeat constructor.
  - destruct (Py.isspace c) eqn:Hc.
    + destruct cur; [by apply IH|]. constructor; [done | by apply IH].
    + apply IH. by apply no_space_snoc.
Qed.

Lemma split_join (l : list string) :
  Forall (λ w, is_word w = true) l → Py.split (Py.join " " l) = l.
Proof.
  unfold Py.split. induction 1 as [|x l Hx Hl IH]; [done|].
  assert (no_space x = true ∧ x ≠ EmptyString) as [Hn Hne]
    by (destruct x; [done | split; [done | discriminate]]).
  destruct l as [|y l].
  - cbn [Py.join]. rewrite <- (append_empty_r x) at 1.
    rewrite split_go_word by done. cbn [Py.split_go].
    change (EmptyString +:+ x) with x. by destruct x.
  - change (Py.join " " (x :: y :: l)) with (x +:+ " " +:+ Py.join " " (y :: l)).
    rewrite split_go_word by done. change (EmptyString +:+ x) with x.
    change (" " +:+ Py.join " " (y :: l)) with (String " " (Py.join " " (y :: l))).
    cbn [Py.split_go]. change (Py.isspace " ") with true. cbv iota.
    rewrite IH. by destruct x.
Qed.

Lemma split_go_nil (cur s : string) :
  Py.split_go cur s = [] → cur = EmptyString ∧ Py.lstrip s = EmptyString.
Proof.
  revert cur. induction s as [|c s IH]; intros cur; cbn [Py.split_go Py.lstrip].
  - by destruct cur.
  - destruct (Py.isspace c).
    + destruct cur; [|done]. intros H. by apply IH in H as [_ ?].
    + intros H. apply IH in H as [H _]. by apply append_nonempty in H.
Qed.

Lemma split_lstrip (s : string) : Py.split (Py.lstrip s) = Py.split s.
Proof.
  unfold Py.split. induction s as [|c s IH]; [done|].
  cbn [Py.lstrip]. destruct (Py.isspace c) eqn:Hc; [|done].
  cbn [Py.split_go]. by rewrite Hc.
Qed.

Lemma split_go_rstrip (cur s : string) :
  Py.split_go cur (Py.rstrip s) = Py.split_go cur s.
Proof.
  revert cur. induction s as [|c s IH]; intros cur; [done|].
  cbn [Py.rstrip]. destruct (Py.rstrip s) as [|r0 r] eqn:Hr.
  - destruct (Py.isspace c) eqn:Hc; cbn [Py.split_go]; rewrite Hc.
    + rewrite <- IH. cbn [Py.split_go]. by destruct cur.
    + by rewrite <- IH.
  - cbn [Py.split_go]. destruct (Py.isspace c); by rewrite <- !IH.
Qed.

Lemma split_strip (s : string) : Py.split (Py.strip s) = Py.split s.
Proof.
  rewrite <- (split_lstrip s). unfold Py.strip, Py.split. apply split_go_rstrip.
Qed.

Lemma split_nonblank (s : string) :
  Py.strip s ≠ EmptyString → Py.split s ≠ [].
Proof.
  intros Hs Hn. apply Hs. apply split_go_nil in Hn as [_ Hn].
  unfold Py.strip. by rewrite Hn.
Qed.

(** X4. Chunking loses no word and invents none: the words of the cues of a
    segment, read in order, are the words of the segment's text. Every cue has
    between one and seven words, and every cue but the last has seven. *)
Theorem cue_words (seg : segment) :
  let cues := segment_cues seg in
  concat (map (λ c, Py.split (cue_text c)) cues) = Py.split (seg_text seg) ∧
  ∀ i c, cues !! i = Some c →
    (1 ≤ length (Py.split (cue_text c)) ≤ 7)%nat ∧
    ((i + 1 < length cues)%nat → length (Py.split (cue_text c)) = 7%nat).
Proof.
  intros cues. subst cues.
  set (words := Py.split (Py.strip (seg_text seg))).
  assert (Forall (λ w, is_word w = true) words) as Hwords
    by (by apply split_go_words).
  destruct (segment_cues_cases seg) as [[He Ht] | [(He & Ht & Hle) | Hlong]].
  - rewrite He. split; [|done]. cbn [map concat].
    by rewrite <- split_strip, Ht.
  - rewrite He. cbn [map concat cue_text]. rewrite app_nil_r. fold words.
    split; [apply split_strip|].
    intros [|i] c Hc; [|done]. injection Hc as <-. cbn [cue_text length].
    rewrite split_strip. fold words in Hle. rewrite <- split_strip. fold words.
    apply split_nonblank in Ht. rewrite <- split_strip in Ht. fold words in Ht.
    destruct words; [done|]. cbn [length] in *. lia.
  - pose proof (segment_cues_long seg Hlong) as He. cbv zeta in He. fold words in He, Hlong.
    set (n := ((length words + 6) / 7)%nat) in *.
    assert (∀ i, Py.split (Py.join " " (take 7 (drop (i * 7) words)))
                 = take 7 (drop (i * 7) words)) as Hsj.
    { intros i. apply split_join. by apply Forall_take, Forall_drop. }
    rewrite He. split.
    + rewrite map_map. cbn [cue_text].
      rewrite (map_ext _ (λ i, take 7 (drop (i * 7) words))) by (intros; apply Hsj).
      fold n. rewrite <- chunks_blocks, chunks_concat. unfold words. apply split_strip.
    + intros i c Hc. rewrite length_map, length_seq.
      assert (i < n)%nat as Hi.
      { apply lookup_lt_Some in Hc. by rewrite length_map, length_seq in Hc. }
      rewrite list_lookup_fmap, lookup_seq_lt in Hc by done.
      injection Hc as <-. cbn [cue_text]. rewrite Hsj.
      apply (block_length words i Hi).
Qed.

(** * Timestamps: the instant a caption time names *)

Local Open Scope Q_scope.

(** The hour, minute and second fields add up to the whole seconds. *)
Lemma clock_fields (s : Q) :
  0 <= s →
  let h := Qfloor (s / 3600) in
  let m := Qfloor (Py.pymod s 3600 / 60) in
  let sec := Qfloor (Py.pymod s 60) in
  (3600 * h + 60 * m + sec = Qfloor s)%Z ∧
  (0 ≤ h)%Z ∧ (0 ≤ m < 60)%Z ∧ (0 ≤ sec < 60)%Z.
Proof.
  intros Hs h m sec.
  pose proof (pymod_bounds s 3600 ltac:(lra)) as [Hm1 Hm2].
  pose proof (pymod_bounds s 60 ltac:(lra)) as [Hs1 Hs2].
  assert (0 ≤ h)%Z as Hh by (apply Qfloor_nonneg; qconst; lra).
  assert (0 ≤ m < 60)%Z as Hm.
  { apply Qfloor_bounds; change (inject_Z 0) with 0;
      change (inject_Z 60) with 60; qconst; lra. }
  assert (0 ≤ sec < 60)%Z as Hsec.
  { apply Qfloor_bounds; change (inject_Z 0) with 0;
      change (inject_Z 60) with 60; lra. }
  repeat split_and; try lia.
  assert (Py.pymod s 3600 == s - 3600 * inject_Z h) as E1 by reflexivity.
  pose proof (Qfloor_le (Py.pymod s 3600 / 60)) as Hl.
  pose proof (Qlt_floor (Py.pymod s 3600 / 60)) as Hu.
  fold m in Hl, Hu. rewrite inject_Z_plus in Hu. change (inject_Z 1) with 1 in Hu.
  unfold Qdiv in Hl, Hu. change (/ 60) with (1 # 60) in Hl, Hu.
  assert (Qfloor (s / 60) = 60 * h + m)%Z as E60.
  { apply Qfloor_unique; rewrite !inject_Z_plus, ?inject_Z_mult;
      change (inject_Z 60) with 60; change (inject_Z 1) with 1; qconst; lra. }
  assert (Py.pymod s 60 == s - 60 * inject_Z (60 * h + m)) as E2.
  { unfold Py.pymod. by rewrite E60. }
  rewrite inject_Z_plus, inject_Z_mult in E2. change (inject_Z 60) with 60 in E2.
  pose proof (Qfloor_le s) as Fl. pose proof (Qlt_floor s) as Fu.
  rewrite inject_Z_plus in Fu. change (inject_Z 1) with 1 in Fu.
  symmetry. apply Qfloor_unique.
  - pose proof (Qfloor_le (Py.pymod s 60)) as Sl. fold sec in Sl.
    rewrite !inject_Z_plus, !inject_Z_mult.
    change (inject_Z 3600) with 3600. change (inject_Z 60) with 60. lra.
  - pose proof (Qlt_floor (Py.pymod s 60)) as Su. fold sec in Su.
    rewrite !inject_Z_plus, !inject_Z_mult in *.
    change (inject_Z 3600) with 3600. change (inject_Z 60) with 60.
    change (inject_Z 1) with 1 in *. lra.
Qed.

Lemma app_format_time_fields (s : Q) :
  0 <= s →
  App.format_time s =
    Py.fmt_0d 2 (Qfloor (s / 3600)) +:+ ":" +:+
    Py.fmt_0d 2 (Qfloor (Py.pymod s 3600 / 60)) +:+ ":" +:+
    Py.fmt_0d 2 (Qfloor (Py.pymod s 60)) +:+ "," +:+
    Py.fmt_0d 3 (Qfloor ((s - inject_Z (Qfloor s)) * 1000)).
Proof.
  intros Hs. unfold App.format_time.
  pose proof (pymod_bounds s 3600 ltac:(lra)) as [Hm1 Hm2].
  pose proof (pymod_bounds s 60 ltac:(lra)) as [Hs1 Hs2].
  pose proof (fraction_bounds s) as [Hf0 Hf1].
  unfold Py.floordiv.
  rewrite !py_int_inject, (py_int_nonneg s), (py_int_nonneg (Py.pymod s 60)); try done.
  - rewrite py_int_nonneg; [done | nra].
  - apply Qfloor_nonneg. qconst. lra.
  - apply Qfloor_nonneg. qconst. lra.
Qed.

(** Below 100 hours the older [format_time] keeps to the caption pattern. *)
Lemma app_format_time_pattern (s : Q) :
  0 <= s → s < 360000 → is_caption_time (App.format_time s) = true.
Proof.
  intros H0 H1. rewrite (app_format_time_fields s H0).
  destruct (clock_fields s H0) as (_ & Hh & Hm & Hsec).
  pose proof (fraction_bounds s) as [Hf0 Hf1].
  assert (0 ≤ Qfloor ((s - inject_Z (Qfloor s)) * 1000) < 1000)%Z as Hms
    by (apply Qfloor_bounds; change (inject_Z 0) with 0;
        change (inject_Z 1000) with 1000; lra).
  assert (Qfloor (s / 3600) < 100)%Z as Hh'.
  { apply (Qfloor_bounds (s / 3600) 0 100); change (inject_Z 0) with 0;
      change (inject_Z 100) with 100; qconst; lra. }
  apply caption_time_shape; apply fmt_0d_digits; try (by left); try (by right);
    change (10 ^ Z.of_nat 2)%Z with 100%Z; change (10 ^ Z.of_nat 3)%Z with 1000%Z; lia.
Qed.





Local Close Scope Q_scope.

(** X7. [convert_time_srt_to_ass] rounds the seconds to hundredths without a
    carry into the minutes: a caption time whose milliseconds are 996 to 999
    gets the next whole second with [.00], so second 59 is printed as [60.00]. *)
Theorem markup_seconds_not_carried (h m s f : Z) :
  0 ≤ h < 100 → 0 ≤ m < 100 → 0 ≤ s < 60 → 995 < f < 1000 →
  Helpers.convert_time_srt_to_ass
    (Py.fmt_0d 2 h +:+ ":" +:+ Py.fmt_0d 2 m +:+ ":" +:+ Py.fmt_0d 2 s +:+ "," +:+
     Py.fmt_0d 3 f) =
  Some (Py.str_int h +:+ ":" +:+ Py.fmt_0d 2 m +:+ ":" +:+
        Py.fmt_0d 2 (s + 1) +:+ ".00").
Proof.
  intros Hh Hm Hs Hf.
  rewrite convert_caption_time by lia.
  pose (ok := λ (s f : nat),
          bool_decide (Py.fmt_05_2f (inject_Z (Z.of_nat s) +
                                     inject_Z (Z.of_nat f) / 1000)
                       = Py.fmt_0d 2 (Z.of_nat s + 1) +:+ ".00")).
  assert (forallb (λ s, forallb (ok s) (seq 996 4)) (seq 0 60) = true) as Hall
    by (by vm_compute).
  rewrite forallb_forall in Hall.
  specialize (Hall (Z.to_nat s)). rewrite forallb_forall in Hall.
  specialize (Hall ltac:(apply in_seq; lia) (Z.to_nat f) ltac:(apply in_seq; lia)).
  unfold ok in Hall. rewrite !Z2Nat.id in Hall by lia.
  apply bool_decide_eq_true in Hall. by rewrite Hall.
Qed.

Lemma markup_seconds_not_carried_witness :
  Helpers.convert_time_srt_to_ass "00:00:59,996" = Some "0:00:60.00".
Proof.
  apply (markup_seconds_not_carried 0 0 59 996); lia.
Defined.

(** * The command line of the encoder *)

Lemma startswith_cons (a b : ascii) (pre s : string) :
  Py.startswith (String a pre) (String b s) = Ascii.eqb a b && Py.startswith pre s.
Proof. reflexivity. Qed.

Lemma escape_head (p : string) :
  Py.startswith ":" (Py.replace_go ":" "\:" 0 p) = false.
Proof.
  destruct p as [|c p]; [done|].
  cbn [Py.replace_go Py.startswith String.length Nat.sub].
  destruct (Ascii.eqb_spec ":" c) as [<-|Hc]; cbn [andb]; [done|].
  cbn [Py.startswith]. by rewrite (proj2 (Ascii.eqb_neq _ _) Hc).
Qed.

Lemma unescape_escape (p : string) :
  Py.replace "\:" ":" (Py.replace ":" "\:" p) = p.
Proof.
  unfold Py.replace. induction p as [|c p IH]; [done|].
  cbn [Py.replace_go Py.startswith String.length Nat.sub].
  destruct (Ascii.eqb_spec ":" c) as [<-|Hc]; cbn [andb].
  - change ("\:" +:+ Py.replace_go ":" "\:" 0 p)
      with (String "\" (String ":" (Py.replace_go ":" "\:" 0 p))).
    cbn [Py.replace_go Py.startswith String.length Nat.sub Ascii.eqb Bool.eqb andb].
    change (":" +:+ Py.replace_go "\:" ":" 0 (Py.replace_go ":" "\:" 0 p))
      with (String ":" (Py.replace_go "\:" ":" 0 (Py.replace_go ":" "\:" 0 p))).
    by rewrite IH.
  - cbn [Py.replace_go]. 
    assert (Py.startswith "\:" (String c (Py.replace_go ":" "\:" 0 p)) = false) as ->.
    { change "\:" with (String "\" ":").
      rewrite startswith_cons, escape_head. apply andb_false_r. }
    by rewrite IH.
Qed.

Lemma escape_colons (p : string) (b : bool) :
  colons_escaped_go b (Py.replace ":" "\:" p) = true.
Proof.
  unfold Py.replace. revert b. induction p as [|c p IH]; intros b; [done|].
  cbn [Py.replace_go Py.startswith String.length Nat.sub].
  destruct (Ascii.eqb_spec ":" c) as [<-|Hc]; cbn [andb].
  - change ("\:" +:+ Py.replace_go ":" "\:" 0 p)
      with (String "\" (String ":" (Py.replace_go ":" "\:" 0 p))).
    cbn [colons_escaped_go Ascii.eqb Bool.eqb andb]. apply IH.
  - cbn [colons_escaped_go]. rewrite IH, andb_true_r.
    rewrite Ascii.eqb_sym. by rewrite (proj2 (Ascii.eqb_neq _ _) Hc).
Qed.

Lemma slashes_lack_backslash (p : string) :
  lacks "\" (Py.replace "\" "/" p) = true.
Proof.
  unfold Py.replace. induction p as [|c p IH]; [done|].
  cbn [Py.replace_go Py.startswith String.length Nat.sub].
  destruct (Ascii.eqb_spec "\" c) as [<-|Hc]; cbn [andb].
  - change ("/" +:+ Py.replace_go "\" "/" 0 p)
      with (String "/" (Py.replace_go "\" "/" 0 p)).
    cbn [lacks]. by rewrite IH.
  - cbn [lacks]. by rewrite IH, (proj2 (Ascii.eqb_neq _ _) Hc).
Qed.

(** X8. In the command line of the encoder the markup path sits in the filter
    argument [ass='...'] with every colon escaped by a backslash, and
    un-escaping gives the path back; the input is the fourth argument and the
    output the last. On [nt] the three paths have their backslashes turned into
    slashes first, so that no backslash of a path remains. *)
Theorem ffmpeg_filter_escaping (h : host) (input_path ass_path output_path : string) :
  let cmd := ffmpeg_cmd h input_path ass_path output_path in
  let nt := bool_decide (os_name h = "nt") in
  let shown p := if nt then Py.replace "\" "/" p else p in
  ∃ escaped,
    cmd !! 5%nat = Some ("ass='" +:+ escaped +:+ "'") ∧
    colons_escaped escaped = true ∧
    Py.replace "\:" ":" escaped = shown ass_path ∧
    cmd !! 3%nat = Some (shown input_path) ∧
    last cmd = Some (shown output_path) ∧
    (nt = true →
       lacks "\" (shown input_path) = true ∧
       lacks "\" (shown output_path) = true ∧
       lacks "\" (shown ass_path) = true).
Proof.
  intros cmd nt shown. subst cmd shown. unfold ffmpeg_cmd. fold nt.
  destruct nt; cbv beta iota; eexists;
    (split; [reflexivity|]); (split; [apply escape_colons|]);
    (split; [apply unescape_escape|]); (split; [reflexivity|]);
    (split; [reflexivity|]); [|done].
  intros _. repeat split_and; apply slashes_lack_backslash.
Qed.

(** * Muxing: the other ways a call ends *)

(** X10. When the input video exists and the caption file does not, the call
    fails with the plain [Exception] [Overlay failed: SRT not found: <path>] and
    leaves everything as it was: no file, no log record, no process. *)
Theorem overlay_missing_captions (h : host) (input_path srt_path output_path : string)
    (caption_settings : option (gmap string string)) (w : world) :
  is_Some (files w !! abspath h input_path) →
  files w !! abspath h srt_path = None →
  overlay_subtitles h input_path srt_path output_path caption_settings w =
    Raise (Exception ("Overlay failed: SRT not found: " +:+ abspath h srt_path)) w.
Proof.
  intros Hin Hsrt. run_overlay.
  rewrite (bool_decide_eq_true_2 _ Hin), Hsrt.
  by rewrite bool_decide_eq_false_2 by (by intros [? ?]).
Qed.

Lemma overlay_missing_captions_witness :
  overlay_subtitles (sample_host (Exited 0 "" (Some "mp4")) false)
    "/in.mp4" "/c.srt" "/out.mp4" None video_only_world =
  Raise (Exception "Overlay failed: SRT not found: /c.srt") video_only_world.
Proof.
  apply (overlay_missing_captions (sample_host (Exited 0 "" (Some "mp4")) false)
           "/in.mp4" "/c.srt" "/out.mp4" None video_only_world).
  - vm_compute. eauto.
  - reflexivity.
Defined.




(** X11. When the directory of the output cannot be made, the [OSError] is
    reported as the plain [Exception] [Overlay failed: <text>], before the
    markup file is written and before the encoder is started. *)
Theorem overlay_makedirs_fails (h : host) (input_path srt_path output_path : string)
    (caption_settings : option (gmap string string)) (w : world) (msg : string) :
  is_Some (files w !! abspath h input_path) →
  is_Some (files w !! abspath h srt_path) →
  makedirs_error h (dirname h (abspath h output_path)) = Some msg →
  overlay_subtitles h input_path srt_path output_path caption_settings w =
    Raise (Exception ("Overlay failed: " +:+ msg)) w.
Proof.
  intros Hin Hsrt Hmk. run_overlay.
  by rewrite (bool_decide_eq_true_2 _ Hin), (bool_decide_eq_true_2 _ Hsrt), Hmk.
Qed.

Lemma overlay_makedirs_fails_witness :
  overlay_subtitles readonly_host "/in.mp4" "/c.srt" "/out.mp4" None sample_world =
    Raise (Exception "Overlay failed: [Errno 13] Permission denied") sample_world.
Proof.
  apply (overlay_makedirs_fails readonly_host "/in.mp4" "/c.srt" "/out.mp4" None
           sample_world "[Errno 13] Permission denied").
  - vm_compute. eauto.
  - vm_compute. eauto.
  - reflexivity.
Defined.

Lemma replace_absent (old new s : string) :
  Py.contains old s = false → Py.replace old new s = s.
Proof.
  unfold Py.replace. induction s as [|c s IH]; [done|].
  cbn [Py.contains Py.replace_go]. intros [Hs Hc]%orb_false_iff.
  rewrite Hs. f_equal. by apply IH.
Qed.

Section Failures.
Variable h : host.
Variables input_path srt_path output_path : string.
Variable caption_settings : option (gmap string string).
Variable w : world.
Variables srt doc : string.

Let input := abspath h input_path.
Let captions := abspath h srt_path.
Let output := abspath h output_path.
Let ass_path := markup_path h srt_path.
Let cmd := ffmpeg_cmd h input ass_path output.
Let settings := default overlay_default_settings caption_settings.

Hypothesis input_there : is_Some (files w !! input).
Hypothesis captions_there : files w !! captions = Some srt.
Hypothesis makedirs_ok : makedirs_error h (dirname h output) = None.
Hypothesis converts : ass_document settings srt = Some doc.

Ltac to_encoder Hconv Hin Hsrt :=
  let Hmk := fresh in
  pose proof makedirs_ok as Hmk; unfold output in Hmk;
  run_overlay;
  change (Py.replace ".srt" ".ass" (abspath h srt_path)) with (markup_path h srt_path);
  rewrite Hin, Hsrt, Hmk, Hconv; cbn [files log spawned];
  fold input captions output; fold ass_path; fold cmd.

(** X12. When the encoder runs into the timeout of 300 s, the call fails with
    the plain [Exception] [FFmpeg timeout], without the [Overlay failed: ]
    prefix; one process has been started and the markup file is left in place. *)
Theorem overlay_timeout (written : option string) :
  run h cmd 300 (<[ass_path := doc]> (files w)) = TimedOut written →
  ∃ w',
    overlay_subtitles h input_path srt_path output_path caption_settings w =
      Raise (Exception "FFmpeg timeout") w' ∧
    files w' = encoded (files w) ass_path doc output written ∧
    is_Some (files w' !! ass_path) ∧
    spawned w' = spawned w ++ [cmd].
Proof.
  intros Hrun.
  destruct (overlay_reaches_encoder h input_path srt_path caption_settings w srt doc
              input_there captions_there converts) as (l & Hconv & Hin & Hsrt).
  pose proof (markup_survives_encoder h srt_path output_path w doc written) as Hass.
  to_encoder Hconv Hin Hsrt. rewrite Hrun.
  eexists. split; [reflexivity|]. cbn [files spawned]. done.
Qed.

(** X13. When the encoder exits with status 0 and the output file is missing or
    empty, the call fails with [Overlay failed: FFmpeg output empty], and the
    markup file is left in place. *)
Theorem overlay_output_empty (stderr : string) (written : option string) :
  run h cmd 300 (<[ass_path := doc]> (files w)) = Exited 0 stderr written →
  let after := encoded (files w) ass_path doc output written in
  after !! output = None ∨ after !! output = Some EmptyString →
  ∃ w',
    overlay_subtitles h input_path srt_path output_path caption_settings w =
      Raise (Exception "Overlay failed: FFmpeg output empty") w' ∧
    files w' = after ∧
    is_Some (files w' !! ass_path) ∧
    spawned w' = spawned w ++ [cmd].
Proof.
  intros Hrun after Hout.
  destruct (overlay_reaches_encoder h input_path srt_path caption_settings w srt doc
              input_there captions_there converts) as (l & Hconv & Hin & Hsrt).
  pose proof (markup_survives_encoder h srt_path output_path w doc written) as Hass.
  to_encoder Hconv Hin Hsrt. rewrite Hrun.
  rewrite (bool_decide_eq_true_2 (0 = 0)) by done. cbn [files log spawned].
  change (match written with
          | Some c0 => <[output:=c0]> (<[ass_path:=doc]> (files w))
          | None => <[ass_path:=doc]> (files w)
          end) with after.
  destruct Hout as [Hout | Hout]; rewrite Hout.
  - rewrite bool_decide_eq_false_2 by (by intros [? ?]). cbn [orb].
    eexists. split; [reflexivity|]. cbn [files spawned]. done.
  - rewrite bool_decide_eq_true_2 by eauto. cbv beta iota. cbn [files log spawned].
    rewrite Hout. cbn [String.length Z.of_nat].
    rewrite (bool_decide_eq_true_2 (0 = 0)) by done. cbn [orb].
    eexists. split; [reflexivity|]. cbn [files spawned]. done.
Qed.

(** X14. When the encoder cannot be started at all, the error of
    [subprocess.run] is reported as [Overlay failed: <text>]; by then the markup
    file has been written, and it stays. *)
Theorem overlay_encoder_missing (msg : string) :
  run h cmd 300 (<[ass_path := doc]> (files w)) = NotStarted msg →
  ∃ w',
    overlay_subtitles h input_path srt_path output_path caption_settings w =
      Raise (Exception ("Overlay failed: " +:+ msg)) w' ∧
    files w' = <[ass_path := doc]> (files w) ∧
    spawned w' = spawned w.
Proof.
  intros Hrun.
  destruct (overlay_reaches_encoder h input_path srt_path caption_settings w srt doc
              input_there captions_there converts) as (l & Hconv & Hin & Hsrt).
  to_encoder Hconv Hin Hsrt. rewrite Hrun.
  eexists. split; [reflexivity|]. cbn [files spawned]. done.
Qed.

(** X15. The markup path is the caption path with [.srt] replaced; for a caption
    path without [.srt] the two are the same file. The caption file is then
    overwritten with the markup text, and a successful call removes it. *)
Theorem markup_path_clash (rc : Z) (stderr : string) (written : option string) :
  Py.contains ".srt" captions = false →
  output ≠ captions →
  run h cmd 300 (<[captions := doc]> (files w)) = Exited rc stderr written →
  ass_path = captions ∧
  (rc ≠ 0 →
     ∃ w',
       overlay_subtitles h input_path srt_path output_path caption_settings w =
         Raise (Exception ("FFmpeg error: " +:+ stderr)) w' ∧
       files w' !! captions = Some doc) ∧
  (rc = 0 → ∀ c, written = Some c → c ≠ EmptyString →
     remove_error h captions = None →
     ∃ w',
       overlay_subtitles h input_path srt_path output_path caption_settings w =
         Ok true w' ∧
       files w' !! captions = None).
Proof.
  intros Hno Hne Hrun.
  assert (ass_path = captions) as Hsame by (by apply replace_absent).
  destruct (overlay_reaches_encoder h input_path srt_path caption_settings w srt doc
              input_there captions_there converts) as (l & Hconv & Hin & Hsrt).
  split; [done|]. split.
  - intros Hrc. to_encoder Hconv Hin Hsrt. rewrite Hsame, Hrun.
    rewrite (bool_decide_eq_false_2 _ Hrc).
    eexists. split; [reflexivity|]. cbn [files].
    destruct written; rewrite ?lookup_insert_ne by done; apply lookup_insert_eq.
  - intros -> c -> Hc Hrm. to_encoder Hconv Hin Hsrt. rewrite Hsame, Hrun.
    rewrite (bool_decide_eq_true_2 (0 = 0)) by done. cbn [files log spawned].
    rewrite lookup_insert_eq, bool_decide_eq_true_2 by eauto.
    cbv beta iota. cbn [files log spawned].
    rewrite lookup_insert_eq, (nonempty_size _ Hc). cbn [orb].
    cbv beta iota. cbn [files log spawned].
    rewrite lookup_insert_ne, lookup_insert_eq by done.
    rewrite bool_decide_eq_true_2 by eauto. rewrite Hrm.
    eexists. split; [reflexivity|]. cbn [files]. apply lookup_delete_eq.
Qed.
End Failures.

Lemma overlay_timeout_witness :
  ∃ w',
    overlay_subtitles (sample_host (TimedOut None) false)
      "/in.mp4" "/c.srt" "/out.mp4" None sample_world =
      Raise (Exception "FFmpeg timeout") w' ∧
    is_Some (files w' !! "/c.ass").
Proof.
  destruct (overlay_timeout (sample_host (TimedOut None) false)
              "/in.mp4" "/c.srt" "/out.mp4" None sample_world
              sample_srt sample_doc) with (written := @None string)
    as (w' & Hr & _ & Hass & _).
  - vm_compute. eauto.
  - vm_compute. reflexivity.
  - reflexivity.
  - vm_compute. reflexivity.
  - reflexivity.
  - exists w'. split; [exact Hr | exact Hass].
Defined.

Lemma overlay_output_empty_witness :
  ∃ w',
    overlay_subtitles (sample_host (Exited 0 "" (Some "")) false)
      "/in.mp4" "/c.srt" "/out.mp4" None sample_world =
      Raise (Exception "Overlay failed: FFmpeg output empty") w' ∧
    is_Some (files w' !! "/c.ass").
Proof.
  destruct (overlay_output_empty (sample_host (Exited 0 "" (Some "")) false)
              "/in.mp4" "/c.srt" "/out.mp4" None sample_world
              sample_srt sample_doc) with (stderr := EmptyString)
              (written := Some EmptyString)
    as (w' & Hr & _ & Hass & _).
  - vm_compute. eauto.
  - vm_compute. reflexivity.
  - reflexivity.
  - vm_compute. reflexivity.
  - reflexivity.
  - right. vm_compute. reflexivity.
  - exists w'. split; [exact Hr | exact Hass].
Defined.

Lemma overlay_encoder_missing_witness :
  ∃ w',
    overlay_subtitles
      (sample_host (NotStarted "[Errno 2] No such file or directory: 'ffmpeg'") false)
      "/in.mp4" "/c.srt" "/out.mp4" None sample_world =
      Raise (Exception
               "Overlay failed: [Errno 2] No such file or directory: 'ffmpeg'") w' ∧
    files w' !! "/c.ass" = Some sample_doc ∧
    spawned w' = [].
Proof.
  destruct (overlay_encoder_missing
              (sample_host (NotStarted "[Errno 2] No such file or directory: 'ffmpeg'")
                 false)
              "/in.mp4" "/c.srt" "/out.mp4" None sample_world
              sample_srt sample_doc)
    with (msg := "[Errno 2] No such file or directory: 'ffmpeg'")
    as (w' & Hr & Hf & Hs).
  - vm_compute. eauto.
  - vm_compute. reflexivity.
  - reflexivity.
  - vm_compute. reflexivity.
  - reflexivity.
  - exists w'. split; [exact Hr|]. rewrite Hf, Hs. split; [|reflexivity].
    apply lookup_insert_eq.
Defined.

Lemma markup_path_clash_witness :
  (∃ w',
     overlay_subtitles (sample_host (Exited 1 "boom" None) false)
       "/in.mp4" "/captions.txt" "/out.mp4" None txt_world =
       Raise (Exception "FFmpeg error: boom") w' ∧
     files w' !! "/captions.txt" = Some sample_doc) ∧
  (∃ w',
     overlay_subtitles (sample_host (Exited 0 "" (Some "mp4")) false)
       "/in.mp4" "/captions.txt" "/out.mp4" None txt_world = Ok true w' ∧
     files w' !! "/captions.txt" = None).
Proof.
  split.
  - destruct (markup_path_clash (sample_host (Exited 1 "boom" None) false)
                "/in.mp4" "/captions.txt" "/out.mp4" None txt_world
                sample_srt sample_doc) with (rc := 1) (stderr := "boom")
                (written := @None string)
      as (_ & Hfail & _).
    + vm_compute. eauto.
    + vm_compute. reflexivity.
    + reflexivity.
    + vm_compute. reflexivity.
    + reflexivity.
    + discriminate.
    + reflexivity.
    + apply Hfail. lia.
  - destruct (markup_path_clash (sample_host (Exited 0 "" (Some "mp4")) false)
                "/in.mp4" "/captions.txt" "/out.mp4" None txt_world
                sample_srt sample_doc) with (rc := 0) (stderr := EmptyString)
                (written := Some "mp4")
      as (_ & _ & Hok).
    + vm_compute. eauto.
    + vm_compute. reflexivity.
    + reflexivity.
    + vm_compute. reflexivity.
    + reflexivity.
    + discriminate.
    + reflexivity.
    + apply (Hok eq_refl "mp4"); [reflexivity | discriminate | reflexivity].
Defined.

(** * The muxer kept in app.py *)

Ltac run_app_overlay :=
  cbv beta iota zeta delta
    [App.overlay_subtitles App.compile_markup App.subprocess_run
     App.remove_quietly App.overlay_handler
     try_except bind raise ret path_exists write_file
     logger os_remove exn_str beyond negb];
  cbn [files log spawned].

Section AppEncoder.
Variable h : host.
Variables input_path srt_path output_path : string.
Variable caption_settings : option (gmap string string).
Variable w : world.
Variables srt doc : string.

Let ass_path := Py.replace ".srt" ".ass" srt_path.
Let cmd := App.ffmpeg_cmd h input_path ass_path output_path.

Hypothesis captions_there : files w !! srt_path = Some srt.
Hypothesis converts : App.ass_document caption_settings srt = Some doc.

(** X16. The older [overlay_subtitles] of app.py, once the encoder has exited: a
    status other than 0 gives [Subtitle overlay failed: FFmpeg failed:
    <stderr>]; status 0 without an output file gives [Subtitle overlay failed:
    Output file not created]; status 0 with an output file, empty or not,
    returns [True], and the markup file is removed when it can be, silently kept
    when it cannot. *)
Theorem app_overlay_exit (rc : Z) (stderr : string) (written : option string) :
  run h cmd 300 (<[ass_path := doc]> (files w)) = Exited rc stderr written →
  let after := encoded (files w) ass_path doc output_path written in
  (rc ≠ 0 →
     ∃ w',
       App.overlay_subtitles h input_path srt_path output_path caption_settings w =
         Raise (Exception ("Subtitle overlay failed: FFmpeg failed: " +:+ stderr)) w' ∧
       files w' = after ∧ spawned w' = spawned w ++ [cmd]) ∧
  (rc = 0 → after !! output_path = None →
     ∃ w',
       App.overlay_subtitles h input_path srt_path output_path caption_settings w =
         Raise (Exception "Subtitle overlay failed: Output file not created") w' ∧
       files w' = after) ∧
  (rc = 0 → is_Some (after !! output_path) →
     ∃ w',
       App.overlay_subtitles h input_path srt_path output_path caption_settings w =
         Ok true w' ∧
       files w' = match remove_error h ass_path with
                  | None => delete ass_path after
                  | Some _ => after
                  end ∧
       last (log w') = Some (Info, "Styled subtitles embedded successfully!")).
Proof.
  intros Hrun after. repeat split_and.
  - intros Hrc. run_app_overlay. rewrite captions_there, converts.
    cbn [files log spawned]. fold ass_path. fold cmd. rewrite Hrun.
    rewrite (bool_decide_eq_false_2 _ Hrc). cbv beta iota. cbn [files log spawned].
    eexists. split; [reflexivity|]. done.
  - intros -> Hout. run_app_overlay. rewrite captions_there, converts.
    cbn [files log spawned]. fold ass_path. fold cmd. rewrite Hrun.
    rewrite (bool_decide_eq_true_2 (0 = 0)) by done. cbv beta iota.
    cbn [files log spawned].
    change (match written with
            | Some c0 => <[output_path:=c0]> (<[ass_path:=doc]> (files w))
            | None => <[ass_path:=doc]> (files w)
            end) with after.
    rewrite Hout. rewrite bool_decide_eq_false_2 by (by intros [? ?]).
    cbv beta iota. cbn [files log spawned].
    eexists. split; [reflexivity|]. done.
  - intros -> Hout. run_app_overlay. rewrite captions_there, converts.
    cbn [files log spawned]. fold ass_path. fold cmd. rewrite Hrun.
    rewrite (bool_decide_eq_true_2 (0 = 0)) by done. cbv beta iota.
    cbn [files log spawned].
    change (match written with
            | Some c0 => <[output_path:=c0]> (<[ass_path:=doc]> (files w))
            | None => <[ass_path:=doc]> (files w)
            end) with after.
    rewrite (bool_decide_eq_true_2 _ Hout). cbv beta iota. cbn [files log spawned].
    assert (is_Some (after !! ass_path)) as Hass.
    { subst after. unfold encoded. destruct written as [c|];
        [|by rewrite lookup_insert_eq].
      rewrite lookup_insert. case_decide; eauto. rewrite lookup_insert_eq. eauto. }
    rewrite (bool_decide_eq_true_2 _ Hass).
    destruct (remove_error h ass_path) as [msg|] eqn:Hrm;
      (eexists; split; [reflexivity|]; cbn [files log]; split; [done|];
       by rewrite last_snoc).
Qed.
End AppEncoder.

Lemma app_overlay_exit_witness :
  (∃ w',
     App.overlay_subtitles (sample_host (Exited 1 "boom" None) false)
       "/in.mp4" "/c.srt" "/out.mp4" None captions_only_world =
       Raise (Exception "Subtitle overlay failed: FFmpeg failed: boom") w') ∧
  (∃ w',
     App.overlay_subtitles (sample_host (Exited 0 "" None) false)
       "/in.mp4" "/c.srt" "/out.mp4" None captions_only_world =
       Raise (Exception "Subtitle overlay failed: Output file not created") w') ∧
  (∃ w',
     App.overlay_subtitles (sample_host (Exited 0 "" (Some "")) true)
       "/in.mp4" "/c.srt" "/out.mp4" None captions_only_world = Ok true w' ∧
     files w' !! "/out.mp4" = Some EmptyString ∧
     files w' !! "/c.ass" = Some app_sample_doc).
Proof.
  repeat split_and.
  - destruct (app_overlay_exit (sample_host (Exited 1 "boom" None) false)
                "/in.mp4" "/c.srt" "/out.mp4" None captions_only_world
                sample_srt app_sample_doc) with (rc := 1) (stderr := "boom")
                (written := @None string)
      as (Hfail & _ & _).
    + reflexivity.
    + vm_compute. reflexivity.
    + reflexivity.
    + destruct Hfail as (w' & Hr & _); [lia|]. by exists w'.
  - destruct (app_overlay_exit (sample_host (Exited 0 "" None) false)
                "/in.mp4" "/c.srt" "/out.mp4" None captions_only_world
                sample_srt app_sample_doc) with (rc := 0) (stderr := EmptyString)
                (written := @None string)
      as (_ & Hnone & _).
    + reflexivity.
    + vm_compute. reflexivity.
    + reflexivity.
    + destruct Hnone as (w' & Hr & _); [lia | reflexivity |]. by exists w'.
  - destruct (app_overlay_exit (sample_host (Exited 0 "" (Some "")) true)
                "/in.mp4" "/c.srt" "/out.mp4" None captions_only_world
                sample_srt app_sample_doc) with (rc := 0) (stderr := EmptyString)
                (written := Some EmptyString)
      as (_ & _ & Hok).
    + reflexivity.
    + vm_compute. reflexivity.
    + reflexivity.
    + destruct Hok as (w' & Hr & Hf & _); [lia | vm_compute; eauto |].
      exists w'. split; [exact Hr|]. rewrite Hf. split; reflexivity.
Defined.

(** * From the caption file to the markup document *)

(** ** Trimming *)

Lemma headed_app (a b : string) : headed a = true → headed (a +:+ b) = true.
Proof. by destruct a. Qed.

Lemma headed_lstrip (a : string) : headed a = true → Py.lstrip a = a.
Proof.
  destruct a as [|c a]; [done|]. cbn [headed Py.lstrip].
  intros Hc%negb_true_iff. by rewrite Hc.
Qed.

Lemma tailed_nonempty (a : string) : tailed a = true → a ≠ EmptyString.
Proof. by destruct a. Qed.

Lemma tailed_app (a b : string) : tailed b = true → tailed (a +:+ b) = true.
Proof.
  intros Hb. induction a as [|c a IH]; [done|].
  rewrite append_cons. cbn [tailed]. rewrite IH.
  destruct (a +:+ b) eqn:E; [|done].
  destruct a; [|discriminate]. simpl in E. by subst.
Qed.

Lemma tailed_rstrip (a : string) : tailed a = true → Py.rstrip a = a.
Proof.
  induction a as [|c a IH]; [done|]. cbn [tailed Py.rstrip].
  destruct a as [|d a].
  - intros Hc%negb_true_iff. cbn [Py.rstrip]. by rewrite Hc.
  - intros Ha. by rewrite (IH Ha).
Qed.

Lemma rstrip_newline (a : string) : Py.rstrip (a +:+ Py.nl) = Py.rstrip a.
Proof.
  induction a as [|c a IH]; [done|].
  rewrite append_cons. cbn [Py.rstrip]. by rewrite IH.
Qed.

(** A line of the caption file, stripped, is the text before its line
    feed, when that text is trimmed. *)
Lemma strip_line (a : string) :
  headed a = true → tailed a = true → Py.strip (a +:+ Py.nl) = a.
Proof.
  intros Hh Ht. unfold Py.strip.
  rewrite (headed_lstrip (a +:+ Py.nl)) by (by apply headed_app).
  rewrite rstrip_newline. by apply tailed_rstrip.
Qed.

Lemma word_headed (w : string) : is_word w = true → headed w = true.
Proof. destruct w as [|c w]; [done|]. cbn. by intros [? _]%andb_true_iff. Qed.

Lemma word_tailed (w : string) : is_word w = true → tailed w = true.
Proof.
  destruct w as [|c w]; [done|]. cbn [is_word]. revert c.
  induction w as [|d w IH]; intros c; cbn [no_space tailed].
  - by rewrite andb_true_r.
  - intros [_ H]%andb_true_iff. by apply IH.
Qed.

Lemma join_headed (w : string) (l : list string) :
  is_word w = true → headed (Py.join " " (w :: l)) = true.
Proof.
  intros Hw. destruct l; [by apply word_headed|].
  cbn [Py.join]. by apply headed_app, word_headed.
Qed.

Lemma join_tailed (l : list string) :
  Forall (λ w, is_word w = true) l → l ≠ [] → tailed (Py.join " " l) = true.
Proof.
  induction 1 as [|w l Hw Hl IH]; [done|]. intros _.
  destruct l as [|v l]; [by apply word_tailed|].
  change (Py.join " " (w :: v :: l)) with (w +:+ " " +:+ Py.join " " (v :: l)).
  rewrite <- append_assoc. apply tailed_app. by apply IH.
Qed.

Lemma lstrip_headed (s : string) :
  Py.lstrip s ≠ EmptyString → headed (Py.lstrip s) = true.
Proof.
  induction s as [|c s IH]; [done|]. cbn [Py.lstrip].
  destruct (Py.isspace c) eqn:Hc; [done|]. intros _. cbn. by rewrite Hc.
Qed.

Lemma rstrip_headed (s : string) :
  headed s = true → headed (Py.rstrip s) = true.
Proof.
  destruct s as [|c s]; [done|]. cbn [headed Py.rstrip].
  intros Hc. destruct (Py.rstrip s); [|done].
  apply negb_true_iff in Hc. rewrite Hc. cbn. by rewrite Hc.
Qed.

Lemma rstrip_tailed (s : string) :
  Py.rstrip s ≠ EmptyString → tailed (Py.rstrip s) = true.
Proof.
  induction s as [|c s IH]; [done|]. cbn [Py.rstrip].
  destruct (Py.rstrip s) as [|d r] eqn:Hr.
  - destruct (Py.isspace c) eqn:Hc; [done|]. intros _. cbn. by rewrite Hc.
  - intros _. cbn [tailed]. by apply IH.
Qed.

Lemma strip_trimmed (s : string) :
  Py.strip s ≠ EmptyString →
  headed (Py.strip s) = true ∧ tailed (Py.strip s) = true.
Proof.
  unfold Py.strip. intros Hs. split; [|by apply rstrip_tailed].
  apply rstrip_headed, lstrip_headed. intros Hl. by rewrite Hl in Hs.
Qed.

(** The text of every cue is trimmed. *)
Lemma cue_text_trimmed (seg : segment) (c : cue) :
  c ∈ segment_cues seg →
  headed (cue_text c) = true ∧ tailed (cue_text c) = true.
Proof.
  intros Hc.
  set (words := Py.split (Py.strip (seg_text seg))).
  assert (Forall (λ w, is_word w = true) words) as Hwords
    by (by apply split_go_words).
  destruct (segment_cues_cases seg) as [[He _] | [(He & Ht & _) | Hlong]].
  - rewrite He in Hc. by apply elem_of_nil in Hc.
  - rewrite He in Hc. apply list_elem_of_singleton in Hc as ->.
    by apply strip_trimmed.
  - rewrite (segment_cues_long seg Hlong) in Hc. fold words in Hc, Hlong.
    apply list_elem_of_fmap in Hc as (i & -> & Hi).
    apply elem_of_seq in Hi. cbn [cue_text].
    pose proof (block_length words i ltac:(lia)) as [Hlen _].
    assert (Forall (λ w, is_word w = true) (take 7 (drop (i * 7) words))) as Hch
      by (by apply Forall_take, Forall_drop).
    destruct (take 7 (drop (i * 7) words)) as [|w l] eqn:E;
      [cbn in Hlen; lia|].
    split; [apply join_headed; by inversion Hch | by apply join_tailed].
Qed.

(** ** The characters of numbers and caption times *)

Lemma not_digit_neq (c x : ascii) :
  is_digit c = false → is_digit x = true → Ascii.eqb c x = false.
Proof. intros Hc Hx. destruct (Ascii.eqb_spec c x) as [->|]; congruence. Qed.

Lemma digit_not_space (x : ascii) : is_digit x = true → Py.isspace x = false.
Proof.
  unfold is_digit, Py.digit, Py.isspace.
  destruct (_ && _) eqn:E; [|done]. intros _.
  apply andb_true_iff in E as [H1 H2].
  apply Nat.leb_le in H1, H2.
  apply orb_false_iff. split; apply andb_false_iff.
  - right. apply Nat.leb_gt. lia.
  - right. apply Nat.leb_gt. lia.
Qed.

Lemma uint_lacks (c : ascii) (d : Decimal.uint) :
  is_digit c = false → lacks c (NilEmpty.string_of_uint d) = true.
Proof.
  intros Hc. induction d; cbn [NilEmpty.string_of_uint lacks]; [done|..];
    rewrite IHd, andb_true_r; apply negb_true_iff, not_digit_neq; done.
Qed.

Lemma uint_no_space (d : Decimal.uint) :
  no_space (NilEmpty.string_of_uint d) = true.
Proof. induction d; cbn [NilEmpty.string_of_uint no_space]; done. Qed.

Lemma str_int_lacks (c : ascii) (n : Z) :
  0 ≤ n → is_digit c = false → lacks c (Py.str_int n) = true.
Proof.
  intros Hn Hc. unfold Py.str_int. rewrite (proj2 (Z.ltb_ge n 0)) by done.
  unfold Py.str_nat, NilZero.string_of_uint.
  destruct (N.to_uint _) eqn:E; try (rewrite <- E; by apply uint_lacks).
  cbn. rewrite andb_true_r. by apply negb_true_iff, not_digit_neq.
Qed.

Lemma str_int_word (n : Z) : 0 ≤ n → is_word (Py.str_int n) = true.
Proof.
  intros Hn. unfold Py.str_int. rewrite (proj2 (Z.ltb_ge n 0)) by done.
  unfold Py.str_nat, NilZero.string_of_uint.
  destruct (N.to_uint _) eqn:E; [done|..];
    rewrite <- E; pose proof (uint_no_space (N.to_uint (Z.to_N n))) as H;
    rewrite E in *; by cbn in *.
Qed.

Lemma caption_time_parts (t : string) :
  is_caption_time t = true →
  ∃ h m s f,
    t = h +:+ ":" +:+ m +:+ ":" +:+ s +:+ "," +:+ f ∧
    is_digits 2 h = true ∧ is_digits 2 m = true ∧ is_digits 2 s = true ∧
    is_digits 3 f = true.
Proof.
  destruct t as [|h1 [|h2 [|c1 [|m1 [|m2 [|c2 [|s1 [|s2 [|c3 [|f1 [|f2 [|f3 [|]]]]]]]]]]]]];
    try discriminate.
  cbn [is_caption_time]. rewrite !andb_true_iff, !Ascii.eqb_eq.
  intros (((((((((((Hh1 & Hh2) & ->) & Hm1) & Hm2) & ->) & Hs1) & Hs2) & ->) & Hf1)
            & Hf2) & Hf3).
  exists (String h1 (String h2 EmptyString)), (String m1 (String m2 EmptyString)),
    (String s1 (String s2 EmptyString)),
    (String f1 (String f2 (String f3 EmptyString))).
  split; [reflexivity|]. cbn [is_digits].
  by rewrite Hh1, Hh2, Hm1, Hm2, Hs1, Hs2, Hf1, Hf2, Hf3.
Qed.

Lemma digits_headed (k : nat) (d : string) :
  is_digits (S k) d = true → headed d = true.
Proof.
  destruct d as [|x d]; [done|]. cbn. intros [Hx _]%andb_true_iff.
  by rewrite (digit_not_space x Hx).
Qed.

Lemma digits_tailed (k : nat) (d : string) :
  is_digits (S k) d = true → tailed d = true.
Proof.
  revert d. induction k as [|k IH]; intros [|x d]; try done.
  - cbn. intros [Hx Hd]%andb_true_iff. destruct d; [|done].
    by rewrite (digit_not_space x Hx).
  - intros [Hx Hd]%andb_true_iff. cbn [tailed].
    destruct d as [|y d]; [done|]. by apply IH.
Qed.

Lemma caption_time_lacks (c : ascii) (t : string) :
  is_digit c = false → c ≠ ":"%char → c ≠ ","%char →
  is_caption_time t = true → lacks c t = true.
Proof.
  intros Hc Hcolon Hcomma (h & m & s & f & -> & Hh & Hm & Hs & Hf)%caption_time_parts.
  rewrite !lacks_app. cbn [lacks].
  rewrite (digits_lack c 2 h), (digits_lack c 2 m), (digits_lack c 2 s),
    (digits_lack c 3 f) by done.
  rewrite (proj2 (Ascii.eqb_neq _ _) Hcolon), (proj2 (Ascii.eqb_neq _ _) Hcomma).
  done.
Qed.

Lemma caption_time_trimmed (t : string) :
  is_caption_time t = true → headed t = true ∧ tailed t = true.
Proof.
  intros (h & m & s & f & -> & Hh & Hm & Hs & Hf)%caption_time_parts. split.
  - by apply headed_app, (digits_headed 1).
  - rewrite <- !append_assoc. by apply tailed_app, (digits_tailed 2).
Qed.

(** ** Caption times convert *)

Lemma digits_go_some (k : nat) (d : string) (acc : Z) :
  is_digits k d = true → is_Some (Py.digits_go acc d).
Proof.
  revert d acc. induction k as [|k IH]; intros [|x d] acc; try done.
  cbn [is_digits Py.digits_go]. intros [Hx Hd]%andb_true_iff.
  unfold is_digit in Hx. destruct (Py.digit x); [|done]. by apply IH.
Qed.

Lemma parse_int_some (k : nat) (d : string) :
  is_digits (S k) d = true → is_Some (Py.parse_int d).
Proof.
  intros Hd. pose proof (digits_go_some (S k) d 0 Hd) as H.
  by destruct d.
Qed.

Lemma caption_time_converts (t : string) :
  is_caption_time t = true → is_Some (convert_time_srt_to_ass t).
Proof.
  intros (H & M & S & F & -> & Dh & Dm & Ds & Df)%caption_time_parts.
  destruct (parse_int_some 1 H Dh) as [h Ph].
  destruct (parse_int_some 1 M Dm) as [m Pm].
  destruct (parse_int_some 1 S Ds) as [s Ps].
  destruct (digits_go_some 3 F 0 Df) as [f Pf].
  unfold convert_time_srt_to_ass, Py.replace.
  rewrite !(replace_go_app ",").
  rewrite (replace_go_lacks "," "." H), (replace_go_lacks "," "." M),
    (replace_go_lacks "," "." S), (replace_go_lacks "," "." F)
    by (eapply digits_lack; [|eassumption]; done).
  change (Py.replace_go "," "." 0 ",") with ".".
  change (Py.replace_go "," "." 0 ":") with ":".
  unfold Py.split_sep.
  change (H +:+ ":" +:+ M +:+ ":" +:+ S +:+ "." +:+ F)
    with (H +:+ String ":" (M +:+ String ":" (S +:+ String "." F))).
  rewrite (split_sep_go_cut ":") by (eapply digits_lack; [|eassumption]; done).
  rewrite (split_sep_go_cut ":") by (eapply digits_lack; [|eassumption]; done).
  rewrite (split_sep_go_end ":").
  2:{ rewrite lacks_app. cbn [lacks].
      rewrite (digits_lack ":" 2 S), (digits_lack ":" 3 F); done. }
  change (EmptyString +:+ H) with H. change (EmptyString +:+ M) with M.
  change (EmptyString +:+ S +:+ String "." F) with (S +:+ String "." F).
  cbn [lookup list_lookup mbind option_bind]. rewrite Ph. cbn [mbind option_bind].
  rewrite Pm. cbn [mbind option_bind].
  unfold Py.parse_float, Py.split_sep.
  rewrite (split_sep_go_cut "."), (split_sep_go_end ".")
    by (eapply digits_lack; [|eassumption]; done).
  change (EmptyString +:+ S) with S. change (EmptyString +:+ F) with F.
  rewrite Ps. cbn [mbind option_bind]. rewrite Pf. cbn [mbind option_bind].
  by eexists.
Qed.

(** ** Reading the caption file back *)

Lemma one_line_app (a b : string) :
  one_line (a +:+ b) = one_line a && one_line b.
Proof.
  unfold one_line. rewrite !lacks_app.
  destruct (lacks "010" a), (lacks "013" a), (lacks "010" b); done.
Qed.

Lemma readlines_go_line (cur a rest : string) :
  one_line a = true →
  Py.readlines_go cur (a +:+ Py.nl +:+ rest) =
    (cur +:+ a +:+ Py.nl) :: Py.readlines_go EmptyString rest.
Proof.
  revert cur. induction a as [|x a IH]; intros cur Ha.
  - change (EmptyString +:+ Py.nl +:+ rest) with (String "010" rest).
    cbn [Py.readlines_go Ascii.eqb Bool.eqb]. by cbv iota.
  - unfold one_line in Ha. cbn [lacks] in Ha.
    apply andb_true_iff in Ha as [[Hx1 Ha1]%andb_true_iff [Hx2 Ha2]%andb_true_iff].
    apply negb_true_iff in Hx1, Hx2. rewrite Ascii.eqb_sym in Hx1, Hx2.
    rewrite append_cons. cbn [Py.readlines_go]. rewrite Hx1, Hx2.
    rewrite IH by (unfold one_line; by rewrite Ha1, Ha2).
    by rewrite append_assoc.
Qed.

Lemma readlines_go_blank (rest : string) :
  Py.readlines_go EmptyString (Py.nl +:+ rest) =
    Py.nl :: Py.readlines_go EmptyString rest.
Proof. apply (readlines_go_line EmptyString EmptyString rest). reflexivity. Qed.

Lemma caption_time_one_line (t : string) :
  is_caption_time t = true → one_line t = true.
Proof.
  intros Ht. unfold one_line.
  by rewrite !(caption_time_lacks _ t) by done.
Qed.

Lemma time_line_one_line (t0 t1 : string) :
  is_caption_time t0 = true → is_caption_time t1 = true →
  one_line (t0 +:+ " --> " +:+ t1) = true.
Proof.
  intros H0 H1. rewrite !one_line_app.
  by rewrite (caption_time_one_line t0 H0), (caption_time_one_line t1 H1).
Qed.

Lemma index_one_line (idx : Z) : 0 ≤ idx → one_line (Py.str_int idx) = true.
Proof. intros H. unfold one_line. by rewrite !str_int_lacks by done. Qed.

Lemma readlines_blocks (fmt : Q → string) (cues : list cue) (idx : Z) :
  0 ≤ idx →
  Forall (λ c, plain_cue fmt c = true) cues →
  Py.readlines (cue_blocks fmt idx cues) = blocks_lines fmt idx cues.
Proof.
  unfold Py.readlines. intros Hidx Hcues. revert idx Hidx.
  induction Hcues as [|c cues Hc Hcues IH]; intros idx Hidx; [done|].
  unfold plain_cue in Hc.
  apply andb_true_iff in Hc as [[Hs He]%andb_true_iff Ht].
  cbn [cue_blocks blocks_lines]. unfold cue_block, block_lines.
  rewrite !append_assoc.
  rewrite readlines_go_line by (by apply index_one_line).
  change (EmptyString +:+ Py.str_int idx +:+ Py.nl) with (Py.str_int idx +:+ Py.nl).
  rewrite <- (append_assoc (fmt (cue_start c)) " --> ").
  rewrite <- (append_assoc (fmt (cue_start c) +:+ " --> ") (fmt (cue_end c))).
  rewrite readlines_go_line
    by (rewrite append_assoc; by apply time_line_one_line).
  rewrite readlines_go_line by done.
  rewrite readlines_go_blank.
  rewrite IH by lia.
  change (EmptyString +:+ ?x) with x.
  by rewrite !append_assoc.
Qed.

(** ** The lines of one block *)

Section Separator.
Variable c : ascii.
Variable tail : string.
Let sep := String c tail.

Lemma split_sep_go_skip (r cur b : string) :
  Py.split_sep_go sep (String.length r) cur (r +:+ b) = Py.split_sep_go sep 0 cur b.
Proof.
  induction r as [|x r IH]; [done|].
  rewrite append_cons. cbn [String.length Py.split_sep_go]. apply IH.
Qed.

Lemma startswith_self (a b : string) : Py.startswith a (a +:+ b) = true.
Proof. apply startswith_occurs. by exists b. Qed.

Lemma split_sep_go_at (cur a b : string) :
  lacks c a = true →
  Py.split_sep_go sep 0 cur (a +:+ sep +:+ b) =
    (cur +:+ a) :: Py.split_sep_go sep 0 EmptyString b.
Proof.
  revert cur. induction a as [|x a IH]; intros cur Ha.
  - change (EmptyString +:+ sep +:+ b) with (String c (tail +:+ b)).
    cbn [Py.split_sep_go]. unfold sep at 1.
    rewrite startswith_cons, Ascii.eqb_refl, startswith_self. cbn [andb].
    fold sep.
    change (String.length sep - 1)%nat with (String.length tail - 0)%nat.
    by rewrite Nat.sub_0_r, split_sep_go_skip, append_empty_r.
  - cbn [lacks] in Ha. apply andb_true_iff in Ha as [Hx Ha].
    apply negb_true_iff in Hx. rewrite append_cons. cbn [Py.split_sep_go].
    unfold sep at 1. rewrite startswith_cons, Hx. cbn [andb].
    rewrite IH by done. by rewrite append_assoc.
Qed.

Lemma split_sep_go_last (cur a : string) :
  lacks c a = true → Py.split_sep_go sep 0 cur a = [cur +:+ a].
Proof.
  revert cur. induction a as [|x a IH]; intros cur Ha.
  - by rewrite append_empty_r.
  - cbn [lacks] in Ha. apply andb_true_iff in Ha as [Hx Ha].
    apply negb_true_iff in Hx. cbn [Py.split_sep_go].
    unfold sep at 1. rewrite startswith_cons, Hx. cbn [andb].
    rewrite IH by done. by rewrite append_assoc.
Qed.

Lemma contains_lacks (s : string) :
  lacks c s = true → Py.contains sep s = false.
Proof.
  induction s as [|x s IH]; [done|]. cbn [lacks Py.contains].
  intros [Hx Hs]%andb_true_iff. apply negb_true_iff in Hx.
  unfold sep at 1. by rewrite startswith_cons, Hx, IH.
Qed.
End Separator.

Lemma strip_trimmed_id (a : string) :
  headed a = true → tailed a = true → Py.strip a = a.
Proof.
  intros Hh Ht. unfold Py.strip. by rewrite headed_lstrip, tailed_rstrip.
Qed.

Lemma split_time_line (t0 t1 : string) :
  is_caption_time t0 = true → is_caption_time t1 = true →
  Py.split_sep " --> " (t0 +:+ " --> " +:+ t1) = [t0; t1].
Proof.
  intros H0 H1. unfold Py.split_sep.
  rewrite (split_sep_go_at " " "--> ") by (by apply caption_time_lacks).
  rewrite (split_sep_go_last " " "--> ") by (by apply caption_time_lacks).
  done.
Qed.

Lemma text_lines_block (text : string) (rest : list string) :
  headed text = true → tailed text = true →
  text_lines ((text +:+ Py.nl) :: Py.nl :: rest) = [text].
Proof.
  intros Hh Ht. cbn [text_lines]. rewrite (strip_line text Hh Ht).
  change (Py.strip Py.nl) with EmptyString. by destruct text.
Qed.

(** ** The loop over the lines *)

Lemma events_skip (fuel : nat) (lines : list string) (i : nat) (acc raw : string) :
  lines !! i = Some raw →
  Py.contains "-->" (Py.strip raw) = false →
  events (S fuel) lines i acc = events fuel lines (i + 1) acc.
Proof. intros Hl Hc. cbn [events]. by rewrite Hl, Hc. Qed.

Lemma events_cue (fuel : nat) (lines : list string) (i : nat)
    (acc raw t0 t1 a0 a1 : string) :
  lines !! i = Some raw →
  Py.contains "-->" (Py.strip raw) = true →
  Py.split_sep " --> " (Py.strip raw) = [t0; t1] →
  convert_time_srt_to_ass (Py.strip t0) = Some a0 →
  convert_time_srt_to_ass (Py.strip t1) = Some a1 →
  events (S fuel) lines i acc =
    let tl := text_lines (drop (i + 1) lines) in
    events fuel lines (i + 1 + length tl + 1)
      (acc +:+ "Dialogue: 0," +:+ a0 +:+ "," +:+ a1 +:+ ",Default,,0,0,0,," +:+
       Py.join "\N" tl +:+ Py.nl).
Proof.
  intros Hl Hc Hs H0 H1. cbn [events]. rewrite Hl, Hc, Hs, H0.
  cbn [mbind option_bind]. rewrite H1. cbn [mbind option_bind]. reflexivity.
Qed.

Lemma events_end (fuel : nat) (lines : list string) (acc : string) :
  events fuel lines (length lines) acc = Some acc.
Proof.
  destruct fuel; [done|]. cbn [events].
  by rewrite lookup_ge_None_2.
Qed.

Lemma events_blocks (fmt : Q → string) (cues : list cue) :
  ∀ (pre : list string) (idx : Z) (acc : string) (fuel : nat),
    0 ≤ idx →
    Forall (λ c, plain_cue fmt c = true ∧ headed (cue_text c) = true ∧
                 tailed (cue_text c) = true) cues →
    (2 * length cues ≤ fuel)%nat →
    events fuel (pre ++ blocks_lines fmt idx cues) (length pre) acc =
      (ds ← dialogues fmt cues; Some (acc +:+ ds)).
Proof.
  induction cues as [|c cues IH]; intros pre idx acc fuel Hidx Hcues Hfuel.
  - cbn [blocks_lines dialogues mbind option_bind].
    rewrite app_nil_r, append_empty_r. apply events_end.
  - apply Forall_cons in Hcues as [(Hc & Hh & Ht) Hcues].
    unfold plain_cue in Hc.
    apply andb_true_iff in Hc as [[Hs He]%andb_true_iff Hline].
    destruct (caption_time_converts _ Hs) as [a0 Ha0].
    destruct (caption_time_converts _ He) as [a1 Ha1].
    destruct (caption_time_trimmed _ Hs) as [Hsh Hst].
    destruct (caption_time_trimmed _ He) as [Heh Het].
    cbn [length] in Hfuel. destruct fuel as [|[|fuel]]; [lia | lia |].
    cbn [blocks_lines]. unfold block_lines.
    set (I := Py.str_int idx +:+ Py.nl).
    set (T := fmt (cue_start c) +:+ " --> " +:+ fmt (cue_end c) +:+ Py.nl).
    set (X := cue_text c +:+ Py.nl).
    set (rest := blocks_lines fmt (idx + 1) cues).
    assert (Py.strip I = Py.str_int idx) as HI.
    { apply strip_line; [apply word_headed | apply word_tailed];
        by apply str_int_word. }
    assert (Py.strip T = fmt (cue_start c) +:+ " --> " +:+ fmt (cue_end c)) as HT.
    { unfold T. rewrite <- (append_assoc (fmt (cue_start c)) " --> ").
      rewrite <- (append_assoc (fmt (cue_start c) +:+ " --> ") (fmt (cue_end c))).
      rewrite strip_line; [by rewrite append_assoc | |].
      - by apply headed_app, headed_app.
      - by apply tailed_app. }
    rewrite (events_skip _ _ _ _ I).
    2:{ by rewrite lookup_app_r, Nat.sub_diag by lia. }
    2:{ rewrite HI. apply (contains_lacks "-" "->"). by apply str_int_lacks. }
    rewrite (events_cue _ _ _ _ T (fmt (cue_start c)) (fmt (cue_end c)) a0 a1).
    2:{ rewrite lookup_app_r by lia.
        by replace (length pre + 1 - length pre)%nat with 1%nat by lia. }
    2:{ rewrite HT. apply contains_occurs.
        exists (fmt (cue_start c) +:+ " "), (" " +:+ fmt (cue_end c)).
        by rewrite !append_assoc. }
    2:{ rewrite HT. by apply split_time_line. }
    2:{ by rewrite strip_trimmed_id. }
    2:{ by rewrite strip_trimmed_id. }
    assert (drop (length pre + 1 + 1) (pre ++ [I; T; X; Py.nl] ++ rest)
            = X :: Py.nl :: rest) as Hdrop.
    { rewrite drop_app_ge by lia.
      by replace (length pre + 1 + 1 - length pre)%nat with 2%nat by lia. }
    assert (text_lines (X :: Py.nl :: rest) = [cue_text c]) as Htl
      by (by apply text_lines_block).
    cbv zeta. rewrite Hdrop, Htl. cbn [length Py.join].
    replace (pre ++ [I; T; X; Py.nl] ++ rest)
      with ((pre ++ [I; T; X; Py.nl]) ++ rest) by (by rewrite <- app_assoc).
    replace (length pre + 1 + 1 + 1 + 1)%nat
      with (length (pre ++ [I; T; X; Py.nl])) by (rewrite length_app; simpl; lia).
    unfold rest. rewrite IH by (done || lia).
    cbn [dialogues]. unfold dialogue at 1. rewrite Ha0, Ha1.
    cbn [mbind option_bind].
    destruct (dialogues fmt cues) as [ds|]; [|done].
    cbn [mbind option_bind]. f_equal. by rewrite !append_assoc.
Qed.

Lemma blocks_lines_length (fmt : Q → string) (cues : list cue) (idx : Z) :
  length (blocks_lines fmt idx cues) = (4 * length cues)%nat.
Proof.
  revert idx. induction cues as [|c cues IH]; intros idx; [done|].
  cbn [blocks_lines length]. rewrite length_app, IH. simpl. lia.
Qed.

Lemma dialogues_some (fmt : Q → string) (cues : list cue) :
  Forall (λ c, plain_cue fmt c = true) cues → is_Some (dialogues fmt cues).
Proof.
  induction 1 as [|c cues Hc Hcues IH]; [by eexists|].
  unfold plain_cue in Hc. apply andb_true_iff in Hc as [[Hs He]%andb_true_iff _].
  destruct (caption_time_converts _ Hs) as [a0 Ha0].
  destruct (caption_time_converts _ He) as [a1 Ha1].
  destruct IH as [ds Hds].
  cbn [dialogues]. unfold dialogue. rewrite Ha0, Ha1, Hds. by eexists.
Qed.

(** The document compiled from the blocks of trimmed, plain cues. *)
Lemma blocks_to_markup (fmt : Q → string) (cues : list cue) (head : string) :
  Forall (λ c, plain_cue fmt c = true) cues →
  Forall (λ c, headed (cue_text c) = true ∧ tailed (cue_text c) = true) cues →
  ∃ ds,
    dialogues fmt cues = Some ds ∧
    events (length (Py.readlines (cue_blocks fmt 1 cues)))
      (Py.readlines (cue_blocks fmt 1 cues)) 0 head = Some (head +:+ ds).
Proof.
  intros Hplain Htrim.
  destruct (dialogues_some fmt cues Hplain) as [ds Hds]. exists ds.
  split; [done|].
  rewrite readlines_blocks by done. rewrite blocks_lines_length.
  pose proof (events_blocks fmt cues [] 1 head (4 * length cues)) as H.
  cbn [app length] in H. rewrite H; [by rewrite Hds | done | | lia].
  apply Forall_forall. intros c Hc.
  rewrite Forall_forall in Hplain, Htrim.
  split; [by apply Hplain | by apply Htrim].
Qed.

(** X17. The caption file of [generate_srt], read back by [convert_srt_to_ass],
    gives the header, the style record and one [Dialogue:] line for every cue,
    in the order of the cues, with the two times converted and the text of the
    cue: provided every time printed has the caption pattern and every cue text
    is on one line. The loop over the lines ends within its fuel. *)
Theorem captions_to_markup (settings : gmap string string)
    (segments : list segment) :
  let cues := concat (map segment_cues segments) in
  Forall (λ c, plain_cue format_time c = true) cues →
  ∃ ds,
    dialogues format_time cues = Some ds ∧
    ass_document settings (generate_srt_text segments) =
      Some (ass_header +:+ style_line (resolve_style settings) +:+
            events_header +:+ ds).
Proof.
  intros cues Hplain.
  assert (Forall (λ c, headed (cue_text c) = true ∧ tailed (cue_text c) = true)
            cues) as Htrim.
  { apply Forall_concat, Forall_fmap, Forall_forall. intros seg _.
    apply Forall_forall. intros c Hc. by apply (cue_text_trimmed seg). }
  destruct (blocks_to_markup format_time cues
              (ass_header +:+ style_line (resolve_style settings) +:+ events_header)
              Hplain Htrim) as (ds & Hds & Hev).
  exists ds. split; [done|].
  unfold ass_document. rewrite generate_srt_text_cues. unfold caption_text.
  rewrite write_cues_blocks. cbn [snd].
  change (EmptyString +:+ ?x) with x. fold cues.
  rewrite Hev. by rewrite !append_assoc.
Qed.

Lemma captions_to_markup_witness :
  ∃ ds,
    dialogues format_time (concat (map segment_cues e2e_segments)) = Some ds ∧
    ass_document overlay_default_settings sample_srt =
      Some (ass_header +:+ style_line (resolve_style overlay_default_settings) +:+
            events_header +:+ ds).
Proof.
  apply (captions_to_markup overlay_default_settings e2e_segments).
  repeat (apply Forall_cons; split; [vm_compute; reflexivity|]).
  apply Forall_nil_2.
Defined.

Lemma lacks_lstrip (c : ascii) (s : string) :
  lacks c s = true → lacks c (Py.lstrip s) = true.
Proof.
  induction s as [|x s IH]; [done|]. cbn [Py.lstrip].
  destruct (Py.isspace x); [|done]. cbn [lacks].
  intros [_ Hs]%andb_true_iff. by apply IH.
Qed.

Lemma lacks_rstrip (c : ascii) (s : string) :
  lacks c s = true → lacks c (Py.rstrip s) = true.
Proof.
  induction s as [|x s IH]; [done|]. cbn [Py.rstrip lacks].
  intros [Hx Hs]%andb_true_iff. specialize (IH Hs).
  destruct (Py.rstrip s).
  - destruct (Py.isspace x); [done|]. cbn [lacks]. by rewrite Hx.
  - cbn [lacks] in *. by rewrite Hx, IH.
Qed.

Lemma one_line_strip (s : string) :
  one_line s = true → one_line (Py.strip s) = true.
Proof.
  unfold one_line, Py.strip. intros [H1 H2]%andb_true_iff.
  by rewrite !lacks_rstrip by (by apply lacks_lstrip).
Qed.

Local Open Scope Q_scope.

(** X18. The same for the pair kept in app.py, which is what the processing task
    runs: for segments whose times lie between 0 and 100 hours and whose texts
    are on one line, the markup document is the header, the style record and one
    [Dialogue:] line for every segment with text. *)
Theorem app_captions_to_markup (caption_settings : option (gmap string string))
    (segments : list segment) :
  Forall (λ seg, (0 <= seg_start seg ∧ seg_start seg < 360000) ∧
                 (0 <= seg_end seg ∧ seg_end seg < 360000) ∧
                 one_line (seg_text seg) = true) segments →
  ∃ ds,
    dialogues App.format_time (app_cues segments) = Some ds ∧
    App.ass_document caption_settings (App.generate_srt_text segments) =
      Some (ass_header +:+ style_line (App.resolve_style caption_settings) +:+
            events_header +:+ ds).
Proof.
  intros Hsegs.
  assert (Forall (λ c, plain_cue App.format_time c = true ∧
                       headed (cue_text c) = true ∧ tailed (cue_text c) = true)
            (app_cues segments)) as Hcues.
  { unfold app_cues. induction Hsegs as [|seg segs Hseg Hsegs IH]; [constructor|].
    cbn [omap list_omap]. case_bool_decide as Ht; [exact IH|].
    constructor; [|exact IH].
    destruct Hseg as ((Hs0 & Hs1) & (He0 & He1) & Hline).
    split; [|by apply strip_trimmed].
    unfold plain_cue. cbn [cue_start cue_end cue_text].
    by rewrite !app_format_time_pattern, one_line_strip. }
  destruct (blocks_to_markup App.format_time (app_cues segments)
              (ass_header +:+ style_line (App.resolve_style caption_settings) +:+
               events_header)) as (ds & Hds & Hev).
  { eapply Forall_impl; [exact Hcues|]. by intros c [? _]. }
  { eapply Forall_impl; [exact Hcues|]. by intros c [_ ?]. }
  exists ds. split; [done|].
  unfold App.ass_document, App.generate_srt_text.
  rewrite app_write_segments, app_write_blocks. cbn [snd].
  change (EmptyString +:+ ?x) with x.
  rewrite Hev. by rewrite !append_assoc.
Qed.

Local Close Scope Q_scope.

Lemma app_captions_to_markup_witness :
  ∃ ds,
    dialogues App.format_time (app_cues e2e_segments) = Some ds ∧
    App.ass_document None (App.generate_srt_text e2e_segments) =
      Some (ass_header +:+ style_line (App.resolve_style None) +:+
            events_header +:+ ds).
Proof.
  apply (app_captions_to_markup None e2e_segments).
  repeat constructor; vm_compute; congruence.
Defined.

(** * Styles: what every configuration resolves to *)

Lemma position_map_entries (p : string) (v : placement) :
  Helpers.position_map !! p = Some v →
  (p, v) ∈ [("top-left", (7, "40", "10", "20")); ("top", (8, "10", "10", "20"));
            ("top-right", (9, "10", "40", "20"));
            ("middle-left", (4, "40", "10", "0")); ("middle", (5, "10", "10", "0"));
            ("middle-right", (6, "10", "40", "0"));
            ("bottom-left", (1, "40", "10", "20"));
            ("bottom", (2, "10", "10", "20"));
            ("bottom-right", (3, "10", "40", "20"))].
Proof. unfold Helpers.position_map. apply elem_of_list_to_map_2. Qed.

Lemma app_position_map_entries (p : string) (v : placement) :
  App.position_map !! p = Some v →
  (p, v) ∈ [("bottom", (2, "10", "10", "20")); ("top", (8, "10", "10", "20"));
            ("bottom-left", (1, "40", "10", "20"));
            ("bottom-right", (3, "10", "40", "20"));
            ("top-left", (7, "40", "10", "20")); ("top-right", (9, "10", "40", "20"));
            ("middle", (5, "10", "10", "0"))].
Proof. unfold App.position_map. apply elem_of_list_to_map_2. Qed.

Lemma helpers_placement_ok (p a : string) :
  placement_ok (get_ass_alignment_and_margins p a) = true.
Proof.
  unfold get_ass_alignment_and_margins. fold row_anchors.
  case_bool_decide as Hrow.
  - apply row_anchor_cases in Hrow as [-> | [-> | ->]];
      repeat case_bool_decide; reflexivity.
  - destruct (Helpers.position_map !! p) as [v|] eqn:Hp; [|reflexivity].
    apply position_map_entries in Hp.
    rewrite !elem_of_cons, elem_of_nil in Hp.
    destruct Hp as [Hp|[Hp|[Hp|[Hp|[Hp|[Hp|[Hp|[Hp|[Hp|[]]]]]]]]]];
      injection Hp as -> ->; reflexivity.
Qed.

Lemma app_placement_ok (cs : option (gmap string string)) :
  placement_ok (placement_of (App.resolve_style cs)) = true.
Proof.
  unfold App.resolve_style, placement_of. fold row_anchors.
  set (p := default "bottom" (default ∅ cs !! "position")).
  set (a := default "center" (default ∅ cs !! "alignment")).
  destruct (App.position_map !! p) as [v|] eqn:Hp.
  - apply app_position_map_entries in Hp.
    rewrite !elem_of_cons, elem_of_nil in Hp.
    destruct Hp as [Hp|[Hp|[Hp|[Hp|[Hp|[Hp|[Hp|[]]]]]]]];
      injection Hp as -> ->; cbn [default from_option id];
      match goal with
      | |- context [bool_decide (?x ∈ row_anchors)] =>
          let b := eval vm_compute in (bool_decide (x ∈ row_anchors)) in
          change (bool_decide (x ∈ row_anchors)) with b
      end;
      repeat case_bool_decide; split_tuples; simplify_eq; reflexivity.
  - rewrite (unknown_position_app p Hp). cbn [default from_option id].
    split_tuples; simplify_eq; reflexivity.
Qed.

(** X19. Whatever the position and the alignment are, known or not, the
    placement fits the numpad grid: the code is between 1 and 9, the left margin
    is 40 exactly in the left column and 10 elsewhere, the right margin 40
    exactly in the right column, and the vertical margin 0 exactly in the middle
    row and 20 elsewhere. This holds for [get_ass_alignment_and_margins], for
    the style of helpers.py and for the one of app.py. *)
Theorem placements_fit_grid (cs : gmap string string) (p a : string) :
  placement_ok (get_ass_alignment_and_margins p a) = true ∧
  placement_ok (placement_of (Helpers.resolve_style cs)) = true ∧
  placement_ok (placement_of (App.resolve_style (Some cs))) = true ∧
  placement_ok (placement_of (App.resolve_style None)) = true.
Proof.
  repeat split_and.
  - apply helpers_placement_ok.
  - rewrite helpers_placement. apply helpers_placement_ok.
  - apply app_placement_ok.
  - apply app_placement_ok.
Qed.

Lemma color_tables (name : string) :
  Helpers.COLOR_MAP !! name = App.color_map !! name ∨
  name = "pink" ∨ name = "purple".
Proof.
  destruct (decide (name = "pink")) as [->|Hpink]; [by right; left|].
  destruct (decide (name = "purple")) as [->|Hpurple]; [by right; right|].
  left. unfold Helpers.COLOR_MAP, App.color_map.
  cbn [list_to_map foldr uncurry fst snd]. rewrite !lookup_insert.
  repeat (case_decide; [by simplify_eq|]). done.
Qed.

(** X20. The two implementations give the same text colour for every colour
    name, known or unknown, except [pink] and [purple]: there helpers.py has
    [00CBC0FF] and [00F020A0], and app.py has the red and blue bytes the other
    way round, [00FFC0CB] and [00A020F0]. *)
Theorem text_colour_tables (cs : gmap string string) :
  let color := default "white" (cs !! "color") in
  let helpers := primary_color (Helpers.resolve_style cs) in
  let app := primary_color (App.resolve_style (Some cs)) in
  (color = "pink" ∧ helpers = "00CBC0FF" ∧ app = "00FFC0CB") ∨
  (color = "purple" ∧ helpers = "00F020A0" ∧ app = "00A020F0") ∨
  (color ≠ "pink" ∧ color ≠ "purple" ∧ helpers = app).
Proof.
  intros color helpers app. subst helpers app.
  rewrite helpers_primary_color, app_primary_color. fold color.
  destruct (decide (color = "pink")) as [->|Hpink]; [by left|].
  destruct (decide (color = "purple")) as [->|Hpurple]; [by right; left|].
  right; right. repeat split_and; try done.
  destruct (color_tables color) as [-> | [? | ?]]; done.
Qed.

(** * app.py: house-keeping *)

Lemma server_eta (st : Service.server) :
  Service.Server (Service.users st) (Service.job_status st) (Service.user_jobs st)
    (Service.lock_held st) (Service.disk st) = st.
Proof. by destruct st. Qed.

Lemma with_lock_free {A} (body : Service.S A) (st : Service.server) :
  Service.lock_held st = false →
  Service.with_lock body st =
    match body (Service.set_lock true st) with
    | Service.Returns a st' => Service.Returns a (Service.set_lock false st')
    | Service.Waits st' => Service.Waits st'
    | Service.Beyond => Service.Beyond
    end.
Proof.
  intros Hfree. unfold Service.with_lock, Service.bind, Service.acquire.
  rewrite Hfree. by destruct (body _).
Qed.

Lemma with_lock_held {A} (body : Service.S A) (st : Service.server) :
  Service.lock_held st = true → Service.with_lock body st = Service.Waits st.
Proof.
  intros Hheld. unfold Service.with_lock, Service.bind, Service.acquire.
  by rewrite Hheld.
Qed.

(** X21. [cleanup_old_files] never removes anything. With five finished jobs or
    fewer it returns and the server is as before. With more than five it calls
    [cleanup_job_files] while it holds [processing_lock]; that call waits for
    the same lock, which is not re-entrant, so the call never returns and the
    lock stays held, with every job and file still there. *)
Theorem cleanup_old_files_never_cleans (h : host) (st : Service.server) :
  Service.lock_held st = false →
  (length (Service.jobs_to_remove st) ≤ 5)%nat ∧
    Service.cleanup_old_files h st = Service.Returns () st ∨
  (5 < length (Service.jobs_to_remove st))%nat ∧
    Service.cleanup_old_files h st = Service.Waits (Service.set_lock true st).
Proof.
  intros Hfree. unfold Service.cleanup_old_files.
  rewrite with_lock_free by done.
  change (Service.jobs_to_remove (Service.set_lock true st))
    with (Service.jobs_to_remove st).
  destruct (drop 5 (Service.jobs_to_remove st)) as [|job rest] eqn:Hdrop.
  - left. split.
    + apply (f_equal length) in Hdrop. rewrite length_drop in Hdrop.
      simpl in Hdrop. lia.
    + cbn [Service.for_each Service.ret]. destruct st. simpl in *. by subst.
  - right. split.
    + apply (f_equal length) in Hdrop. rewrite length_drop in Hdrop.
      simpl in Hdrop. lia.
    + cbn [Service.for_each]. unfold Service.bind at 1.
      unfold Service.cleanup_job_files, Service.bind at 1.
      by rewrite with_lock_held.
Qed.

Lemma cleanup_old_files_never_cleans_witness :
  Service.cleanup_old_files (sample_host (NotStarted "") false) busy_server =
    Service.Waits (Service.set_lock true busy_server).
Proof.
  destruct (cleanup_old_files_never_cleans (sample_host (NotStarted "") false)
              busy_server) as [[Hle _] | [_ Hw]].
  - reflexivity.
  - vm_compute in Hle. lia.
  - exact Hw.
Defined.

Lemma dict_get_pop {V} (k : string) (d : list (string * V)) :
  Service.dict_get k (Service.dict_pop k d) = None.
Proof.
  unfold Service.dict_pop. induction d as [|[k' v] d IH]; [done|].
  rewrite filter_cons. cbn [fst]. case_decide as Hk; [|done].
  cbn [Service.dict_get]. by rewrite bool_decide_eq_false_2.
Qed.

Lemma dict_get_pop_ne {V} (k j : string) (d : list (string * V)) :
  j ≠ k → Service.dict_get j (Service.dict_pop k d) = Service.dict_get j d.
Proof.
  intros Hne. unfold Service.dict_pop. induction d as [|[k' v] d IH]; [done|].
  rewrite filter_cons. cbn [fst Service.dict_get]. case_decide as Hk.
  - cbn [Service.dict_get]. by rewrite IH.
  - rewrite IH. subst k'.
    by rewrite bool_decide_eq_false_2.
Qed.

Lemma lookup_filter_key (P : string → bool) (m : gmap string string) (path : string) :
  filter (λ kv, P kv.1 = false) m !! path = if P path then None else m !! path.
Proof.
  destruct (P path) eqn:HP.
  - apply map_lookup_filter_None. right. intros x _. cbn. congruence.
  - destruct (m !! path) as [x|] eqn:Hm.
    + by apply map_lookup_filter_Some.
    + apply map_lookup_filter_None. by left.
Qed.

Lemma substring_app (a b : string) :
  String.substring (String.length a) (String.length b) (a +:+ b) = b.
Proof.
  induction a as [|c a IH]; [|by rewrite append_cons].
  cbn [String.length]. change (EmptyString +:+ b) with b.
  induction b as [|c b IH]; [done|]. cbn. by rewrite IH.
Qed.

Lemma length_app_string (a b : string) :
  String.length (a +:+ b) = (String.length a + String.length b)%nat.
Proof. induction a as [|c a IH]; [done|]. rewrite append_cons. cbn. by rewrite IH. Qed.

Lemma listed_join (folder name : string) :
  lacks "/" name = true →
  Service.listed folder (folder +:+ "/" +:+ name) = Some name.
Proof.
  intros Hname. unfold Service.listed.
  rewrite <- append_assoc, startswith_self.
  replace (String.length folder + 1)%nat with (String.length (folder +:+ "/"))
    by (rewrite length_app_string; simpl; lia).
  replace (String.length ((folder +:+ "/") +:+ name) - String.length (folder +:+ "/"))%nat
    with (String.length name) by (rewrite (length_app_string (folder +:+ "/")); lia).
  by rewrite substring_app, Hname.
Qed.

Lemma doomed_join (h : host) (job_id folder name : string) :
  folder ∈ [Service.UPLOAD_FOLDER; Service.PROCESSED_FOLDER] →
  lacks "/" name = true →
  Service.doomed h job_id (folder +:+ "/" +:+ name) =
    Py.startswith job_id name &&
    bool_decide (remove_error h (folder +:+ "/" +:+ name) = None).
Proof.
  intros Hfolder Hname. unfold Service.doomed. cbn [existsb].
  rewrite !elem_of_cons, elem_of_nil in Hfolder.
  destruct Hfolder as [-> | [-> | []]].
  - rewrite listed_join by done.
    assert (Service.listed Service.PROCESSED_FOLDER
              (Service.UPLOAD_FOLDER +:+ "/" +:+ name) = None) as ->
      by (by vm_compute).
    by rewrite !orb_false_r.
  - rewrite listed_join by done.
    assert (Service.listed Service.UPLOAD_FOLDER
              (Service.PROCESSED_FOLDER +:+ "/" +:+ name) = None) as ->
      by (by vm_compute).
    by rewrite orb_false_r.
Qed.

Lemma doomed_elsewhere (h : host) (job_id path : string) :
  Service.listed Service.UPLOAD_FOLDER path = None →
  Service.listed Service.PROCESSED_FOLDER path = None →
  Service.doomed h job_id path = false.
Proof. intros H1 H2. unfold Service.doomed. cbn [existsb]. by rewrite H1, H2. Qed.

(** X22. Called with the lock free, [cleanup_job_files] returns with the job
    gone from [job_status] and [user_jobs] and every other job kept, the
    accounts untouched and the lock free again. In the two folders a file goes
    exactly when its name starts with the job id and [os.remove] succeeds, so
    the files of a job whose id merely starts with this one go as well; files
    elsewhere stay. *)
Theorem cleanup_job_files_removes (h : host) (job_id : string) (st : Service.server) :
  Service.lock_held st = false →
  ∃ st',
    Service.cleanup_job_files h job_id st = Service.Returns () st' ∧
    Service.dict_get job_id (Service.job_status st') = None ∧
    Service.user_jobs st' !! job_id = None ∧
    (∀ j, j ≠ job_id →
       Service.dict_get j (Service.job_status st') =
         Service.dict_get j (Service.job_status st) ∧
       Service.user_jobs st' !! j = Service.user_jobs st !! j) ∧
    Service.users st' = Service.users st ∧
    Service.lock_held st' = false ∧
    (∀ folder name,
       folder ∈ [Service.UPLOAD_FOLDER; Service.PROCESSED_FOLDER] →
       lacks "/" name = true →
       files (Service.disk st') !! (folder +:+ "/" +:+ name) =
         if Py.startswith job_id name &&
            bool_decide (remove_error h (folder +:+ "/" +:+ name) = None)
         then None
         else files (Service.disk st) !! (folder +:+ "/" +:+ name)) ∧
    (∀ path,
       Service.listed Service.UPLOAD_FOLDER path = None →
       Service.listed Service.PROCESSED_FOLDER path = None →
       files (Service.disk st') !! path = files (Service.disk st) !! path).
Proof.
  intros Hfree. unfold Service.cleanup_job_files, Service.bind.
  rewrite with_lock_free by done.
  cbn [Service.set_lock Service.users Service.job_status Service.user_jobs
       Service.lock_held Service.disk Service.remove_job_files].
  eexists. split; [reflexivity|].
  cbn [Service.users Service.job_status Service.user_jobs Service.lock_held
       Service.disk files].
  repeat split_and; try done.
  - apply dict_get_pop.
  - apply lookup_delete_eq.
  - intros j Hj. split; [by apply dict_get_pop_ne | by apply lookup_delete_ne].
  - intros folder name Hfolder Hname.
    rewrite (lookup_filter_key (Service.doomed h job_id)).
    by rewrite doomed_join.
  - intros path H1 H2.
    rewrite (lookup_filter_key (Service.doomed h job_id)).
    by rewrite doomed_elsewhere.
Qed.

Lemma cleanup_job_files_removes_witness :
  ∃ st',
    Service.cleanup_job_files (sample_host (NotStarted "") false) "f" busy_server =
      Service.Returns () st' ∧
    Service.dict_get "f" (Service.job_status st') = None ∧
    files (Service.disk st') !! "/app/uploads/f_clip.mp4" = None ∧
    files (Service.disk st') !! "/app/index.html" = Some "page".
Proof.
  destruct (cleanup_job_files_removes (sample_host (NotStarted "") false) "f"
              busy_server eq_refl)
    as (st' & Hr & Hs & _ & _ & _ & _ & Hin & Hout).
  exists st'. repeat split_and; [exact Hr | exact Hs | |].
  - apply (Hin "/app/uploads" "f_clip.mp4"); [set_solver | reflexivity].
  - rewrite (Hout "/app/index.html"); reflexivity.
Defined.

(** * app.py: accounts and history *)

Lemma set_lock_twice (b : bool) (st : Service.server) :
  Service.lock_held st = b → Service.set_lock b (Service.set_lock (negb b) st) = st.
Proof. intros <-. by destruct st. Qed.

(** X23. [delete_history_item] does not check whose job it deletes: for every
    user with an account and a valid token, and every job id, in the user's
    history or not, the reply is 200, the job is gone from [job_status] and
    [user_jobs], and its files are removed; the histories of the other users,
    the owner's among them, are not updated. *)
Theorem delete_history_item_any_job (h : host) (e : Service.env)
    (authorization : option string) (job_id username : string)
    (account : Service.user) (st : Service.server) :
  Service.lock_held st = false →
  Service.authorized e authorization = Some username →
  Service.users st !! username = Some account →
  ∃ st',
    Service.delete_history_item h e authorization job_id st =
      Service.Returns
        ([("message", Service.JStr "History item deleted successfully")], 200) st' ∧
    Service.dict_get job_id (Service.job_status st') = None ∧
    Service.user_jobs st' !! job_id = None ∧
    (∀ folder name,
       folder ∈ [Service.UPLOAD_FOLDER; Service.PROCESSED_FOLDER] →
       lacks "/" name = true → Py.startswith job_id name = true →
       remove_error h (folder +:+ "/" +:+ name) = None →
       files (Service.disk st') !! (folder +:+ "/" +:+ name) = None) ∧
    (∀ other, other ≠ username →
       Service.users st' !! other = Service.users st !! other).
Proof.
  intros Hfree Hauth Huser. unfold Service.delete_history_item.
  rewrite Hauth. unfold Service.bind at 1.
  rewrite with_lock_free by done.
  cbn [Service.set_lock Service.users]. rewrite Huser.
  cbn [Service.set_lock Service.users Service.job_status Service.user_jobs
       Service.lock_held Service.disk].
  set (st1 := Service.set_lock false _).
  destruct (cleanup_job_files_removes h job_id st1 eq_refl)
    as (st' & Hr & Hs & Hj & _ & Hu & _ & Hin & _).
  unfold Service.bind. rewrite Hr. unfold Service.ret.
  exists st'. repeat split_and; try done.
  - intros folder name Hfolder Hname Hpre Hrm.
    rewrite (Hin folder name Hfolder Hname), Hpre.
    by rewrite bool_decide_eq_true_2.
  - intros other Hother. rewrite Hu. subst st1. cbn [Service.users].
    by apply lookup_insert_ne.
Qed.

Lemma delete_history_item_any_job_witness :
  ∃ st',
    Service.delete_history_item (sample_host (NotStarted "") false) toy_env
      (Some "Bearer jwt:ann") "f" busy_server =
      Service.Returns
        ([("message", Service.JStr "History item deleted successfully")], 200) st' ∧
    Service.dict_get "f" (Service.job_status st') = None ∧
    files (Service.disk st') !! "/app/processed/f_with_subtitles.mp4" = None.
Proof.
  destruct (delete_history_item_any_job (sample_host (NotStarted "") false) toy_env
              (Some "Bearer jwt:ann") "f" "ann"
              (Service.User "sha256:secret" ["a"] ∅) busy_server)
    as (st' & Hr & Hs & _ & Hin & _); try reflexivity.
  exists st'. repeat split_and; [exact Hr | exact Hs |].
  apply (Hin "/app/processed" "f_with_subtitles.mp4");
    [set_solver | reflexivity | reflexivity | reflexivity].
Defined.

Ltac run_service :=
  unfold Service.bind, Service.ret, Service.log_info, Service.error;
  cbn [Service.set_lock Service.set_users Service.users Service.job_status
       Service.user_jobs Service.lock_held Service.disk].

(** X24. A signup that replies 201 had a JSON object with a trimmed username of
    at least three characters that was not taken and a password that is not
    empty; it stores the hash of the password with an empty history, and replies
    with the token of the username. A login with the same body then replies 200
    with the same token and changes no account. *)
Theorem signup_then_login (e : Service.env) (data : option (gmap string string))
    (st st' : Service.server) (body : list (string * Service.jvalue)) :
  Service.lock_held st = false →
  Service.signup e data st = Service.Returns (body, 201) st' →
  ∃ fields,
    data = Some fields ∧
    let username := Py.strip (default EmptyString (fields !! "username")) in
    let password := default EmptyString (fields !! "password") in
    (3 ≤ String.length username)%nat ∧ password ≠ EmptyString ∧
    Service.users st !! username = None ∧
    body = [("token", Service.JStr (Service.jwt_encode e username))] ∧
    Service.users st' =
      <[username := Service.User (Service.sha256 e password) [] ∅]>
        (Service.users st) ∧
    Service.lock_held st' = false ∧
    ∃ st'',
      Service.login e data st' = Service.Returns (body, 200) st'' ∧
      Service.users st'' = Service.users st'.
Proof.
  intros Hfree Hsign. unfold Service.signup in Hsign.
  destruct data as [fields|]; [|by inversion Hsign].
  exists fields. split; [done|]. intros username password.
  fold username password in Hsign.
  destruct (bool_decide (fields = ∅)) eqn:Hempty; [by inversion Hsign|].
  destruct (bool_decide (username = EmptyString)) eqn:Hname;
    [by inversion Hsign|].
  destruct (bool_decide (password = EmptyString)) eqn:Hpass;
    [by inversion Hsign|].
  cbn [orb] in Hsign.
  destruct (String.length username <? 3)%nat eqn:Hlen; [by inversion Hsign|].
  unfold Service.bind in Hsign. rewrite with_lock_free in Hsign by done.
  cbn [Service.set_lock Service.users] in Hsign.
  destruct (Service.users st !! username) as [u|] eqn:Huser.
  { rewrite bool_decide_eq_true_2 in Hsign by eauto. by inversion Hsign. }
  rewrite bool_decide_eq_false_2 in Hsign by (by intros [? ?]).
  revert Hsign. run_service. intros Hsign. inversion Hsign; subst body st'; clear Hsign.
  cbn [Service.users Service.lock_held].
  apply Nat.ltb_ge in Hlen. pose proof (bool_decide_eq_false_1 _ Hpass) as Hpw.
  repeat split_and; try done.
  unfold Service.login. fold username password.
  rewrite Hempty, Hname, Hpass. cbn [orb].
  unfold Service.bind. rewrite with_lock_free by done.
  cbn [Service.set_lock Service.users]. rewrite lookup_insert_eq.
  cbn [Service.password_hash]. rewrite bool_decide_eq_true_2 by done.
  run_service. eexists. split; [reflexivity|]. done.
Qed.

Lemma signup_then_login_witness :
  ∃ st' st'',
    Service.signup toy_env (Some {["username" := " bob "; "password" := "pw"]})
      empty_server =
      Service.Returns ([("token", Service.JStr "jwt:bob")], 201) st' ∧
    Service.login toy_env (Some {["username" := " bob "; "password" := "pw"]}) st' =
      Service.Returns ([("token", Service.JStr "jwt:bob")], 200) st''.
Proof.
  destruct (Service.signup toy_env
              (Some {["username" := " bob "; "password" := "pw"]}) empty_server)
    as [[body code] st'| |] eqn:Hs; [|vm_compute in Hs; discriminate..].
  assert (body = [("token", Service.JStr "jwt:bob")] ∧ code = 201) as [-> ->]
    by (vm_compute in Hs; by inversion Hs).
  destruct (signup_then_login toy_env _ empty_server st' _ eq_refl Hs)
    as (fields & Hf & _ & _ & _ & _ & _ & _ & st'' & Hl & _).
  by exists st', st''.
Defined.

(** X25. Whatever the request is, a signup leaves every existing account as it
    was: a taken username is turned down with 400 and its password hash, history
    and favorites are not overwritten. *)
Theorem signup_keeps_accounts (e : Service.env) (data : option (gmap string string))
    (st : Service.server) (name : string) (account : Service.user) :
  Service.users st !! name = Some account →
  match Service.signup e data st with
  | Service.Returns _ st' | Service.Waits st' =>
      Service.users st' !! name = Some account
  | Service.Beyond => False
  end.
Proof.
  intros Hacc. unfold Service.signup.
  destruct data as [fields|]; [|done].
  set (username := Py.strip (default EmptyString (fields !! "username"))).
  set (password := default EmptyString (fields !! "password")).
  destruct (bool_decide (fields = ∅)); [done|].
  destruct (_ || _); [done|].
  destruct (String.length username <? 3)%nat; [done|].
  unfold Service.bind. destruct (Service.lock_held st) eqn:Hlock.
  - by rewrite with_lock_held.
  - rewrite with_lock_free by done. cbn [Service.set_lock Service.users].
    case_bool_decide as Huser; run_service; [done|].
    rewrite lookup_insert_ne; [done|]. intros ->. apply Huser. eauto.
Qed.

Lemma signup_keeps_accounts_witness :
  ∃ reply st',
    Service.signup toy_env (Some {["username" := "ann"; "password" := "other"]})
      busy_server = Service.Returns reply st' ∧
    reply = Service.error "Username already exists" 400 ∧
    Service.users st' !! "ann" = Some (Service.User "sha256:secret" ["a"] ∅).
Proof.
  pose proof (signup_keeps_accounts toy_env
                (Some {["username" := "ann"; "password" := "other"]})
                busy_server "ann" (Service.User "sha256:secret" ["a"] ∅) eq_refl) as H.
  destruct (Service.signup toy_env _ busy_server) as [reply st'| |] eqn:Hs;
    [|vm_compute in Hs; discriminate..].
  exists reply, st'. repeat split_and; [done | | done].
  vm_compute in Hs. by inversion Hs.
Defined.

(** X26. A login that replies 200 found an account under the trimmed username
    whose stored hash is the hash of the password sent, which is not empty; the
    reply is the token of that username, and accounts, jobs and the lock are as
    before. *)
Theorem login_checks_hash (e : Service.env) (data : option (gmap string string))
    (st st' : Service.server) (body : list (string * Service.jvalue)) :
  Service.lock_held st = false →
  Service.login e data st = Service.Returns (body, 200) st' →
  ∃ fields account,
    data = Some fields ∧
    let username := Py.strip (default EmptyString (fields !! "username")) in
    let password := default EmptyString (fields !! "password") in
    password ≠ EmptyString ∧
    Service.users st !! username = Some account ∧
    Service.password_hash account = Service.sha256 e password ∧
    body = [("token", Service.JStr (Service.jwt_encode e username))] ∧
    Service.users st' = Service.users st ∧
    Service.job_status st' = Service.job_status st ∧
    Service.lock_held st' = false.
Proof.
  intros Hfree Hlog. unfold Service.login in Hlog.
  destruct data as [fields|]; [|by inversion Hlog].
  set (username := Py.strip (default EmptyString (fields !! "username"))) in *.
  set (password := default EmptyString (fields !! "password")) in *.
  destruct (bool_decide (fields = ∅)); [by inversion Hlog|].
  destruct (bool_decide (username = EmptyString)); [by inversion Hlog|].
  destruct (bool_decide (password = EmptyString)) eqn:Hpass; [by inversion Hlog|].
  cbn [orb] in Hlog. apply bool_decide_eq_false in Hpass.
  unfold Service.bind in Hlog. rewrite with_lock_free in Hlog by done.
  cbn [Service.set_lock Service.users] in Hlog.
  destruct (Service.users st !! username) as [account|] eqn:Huser;
    [|by inversion Hlog].
  case_bool_decide as Hhash; [|by inversion Hlog].
  revert Hlog. run_service. intros Hlog. inversion Hlog; subst body st'; clear Hlog.
  exists fields, account. cbn [Service.users Service.job_status Service.lock_held].
  repeat split_and; done.
Qed.

Lemma login_checks_hash_witness :
  ∃ st',
    Service.login toy_env (Some {["username" := "ann"; "password" := "secret"]})
      busy_server =
      Service.Returns ([("token", Service.JStr "jwt:ann")], 200) st' ∧
    Service.users st' = Service.users busy_server.
Proof.
  destruct (Service.login toy_env
              (Some {["username" := "ann"; "password" := "secret"]}) busy_server)
    as [[body code] st'| |] eqn:Hs; [|vm_compute in Hs; discriminate..].
  assert (body = [("token", Service.JStr "jwt:ann")] ∧ code = 200) as [-> ->]
    by (vm_compute in Hs; by inversion Hs).
  destruct (login_checks_hash toy_env _ busy_server st' _ eq_refl Hs)
    as (fields & account & _ & _ & _ & _ & _ & Hu & _).
  by exists st'.
Defined.

(** X27. For a user with an account and a job of the user's history,
    [toggle_favorite] replies with the new state, which is the opposite of the
    old one, and the job is among the favorites afterwards exactly when the
    reply says so; a second call replies with the opposite and brings the server
    back to the state before the first. *)
Theorem toggle_favorite_twice (e : Service.env) (authorization : option string)
    (job_id username : string) (account : Service.user) (st : Service.server) :
  Service.lock_held st = false →
  Service.authorized e authorization = Some username →
  Service.users st !! username = Some account →
  job_id ∈ Service.history account →
  let favorited := negb (bool_decide (job_id ∈ Service.favorites account)) in
  ∃ st1 st2,
    Service.toggle_favorite e authorization job_id st =
      Service.Returns ([("favorited", Service.JBool favorited)], 200) st1 ∧
    (∀ account1, Service.users st1 !! username = Some account1 →
       (job_id ∈ Service.favorites account1 ↔ favorited = true) ∧
       Service.history account1 = Service.history account) ∧
    Service.toggle_favorite e authorization job_id st1 =
      Service.Returns ([("favorited", Service.JBool (negb favorited))], 200) st2 ∧
    st2 = st.
Proof.
  intros Hfree Hauth Huser Hjob favorited.
  assert (∀ favs,
            Service.toggle_favorite e authorization job_id
              (Service.set_users
                 (<[username := Service.User (Service.password_hash account)
                                  (Service.history account) favs]>
                    (Service.users st)) st) =
            Service.Returns
              ([("favorited", Service.JBool (negb (bool_decide (job_id ∈ favs))))], 200)
              (Service.set_users
                 (<[username := Service.User (Service.password_hash account)
                                  (Service.history account)
                                  (if negb (bool_decide (job_id ∈ favs))
                                   then favs ∪ {[job_id]} else favs ∖ {[job_id]})]>
                    (Service.users st)) st)) as Hstep.
  { intros favs. unfold Service.toggle_favorite. rewrite Hauth.
    rewrite with_lock_free by done.
    cbn [Service.set_lock Service.set_users Service.users Service.job_status
         Service.user_jobs Service.lock_held Service.disk].
    rewrite lookup_insert_eq.
    cbn [Service.history Service.favorites Service.password_hash].
    rewrite (bool_decide_eq_true_2 _ Hjob).
    cbn [Service.set_lock Service.set_users Service.users Service.job_status
         Service.user_jobs Service.lock_held Service.disk].
    rewrite insert_insert_eq. by rewrite <- Hfree. }
  assert (Service.set_users
            (<[username := Service.User (Service.password_hash account)
                             (Service.history account) (Service.favorites account)]>
               (Service.users st)) st = st) as Hsame.
  { unfold Service.set_users. destruct account. cbn [Service.password_hash
      Service.history Service.favorites]. rewrite insert_id by done. by destruct st. }
  pose proof (Hstep (Service.favorites account)) as H1.
  rewrite Hsame in H1. fold favorited in H1.
  eexists. exists st. split; [exact H1|].
  cbn [Service.set_users Service.users]. split.
  { intros account1. rewrite lookup_insert_eq. intros [= <-].
    cbn [Service.favorites Service.history]. split; [|done].
    subst favorited. destruct (decide (job_id ∈ Service.favorites account)) as [Hin|Hout].
    - rewrite (bool_decide_eq_true_2 _ Hin). cbn [negb].
      split; [intros [_ Hn]%elem_of_difference | done].
      exfalso. apply Hn. by apply elem_of_singleton.
    - rewrite (bool_decide_eq_false_2 _ Hout). cbn [negb].
      split; [done | intros _]. apply elem_of_union. right.
      by apply elem_of_singleton. }
  fold (Service.set_users
          (<[username := Service.User (Service.password_hash account)
                           (Service.history account)
                           (if favorited
                            then Service.favorites account ∪ {[job_id]}
                            else Service.favorites account ∖ {[job_id]})]>
             (Service.users st)) st).
  rewrite Hstep.
  subst favorited. destruct (decide (job_id ∈ Service.favorites account)) as [Hin|Hout].
  - rewrite (bool_decide_eq_true_2 _ Hin). cbn [negb].
    assert (bool_decide (job_id ∈ Service.favorites account ∖ {[job_id]}) = false) as ->.
    { apply bool_decide_eq_false_2. intros [_ Hn]%elem_of_difference.
      apply Hn. by apply elem_of_singleton. }
    cbn [negb]. split; [|done]. do 2 f_equal.
    assert (Service.favorites account ∖ {[job_id]} ∪ {[job_id]}
            = Service.favorites account) as ->; [|exact Hsame].
    apply leibniz_equiv. intros x.
    rewrite elem_of_union, elem_of_difference, elem_of_singleton.
    split.
    + intros [[Hx _] | ->]; [exact Hx | exact Hin].
    + intros Hx. destruct (decide (x = job_id)) as [->|]; [by right | by left].
  - rewrite (bool_decide_eq_false_2 _ Hout). cbn [negb].
    assert (bool_decide (job_id ∈ Service.favorites account ∪ {[job_id]}) = true) as ->.
    { apply bool_decide_eq_true_2, elem_of_union. right. by apply elem_of_singleton. }
    cbn [negb]. split; [|done]. do 2 f_equal.
    assert ((Service.favorites account ∪ {[job_id]}) ∖ {[job_id]}
            = Service.favorites account) as ->; [|exact Hsame].
    apply leibniz_equiv. intros x.
    rewrite elem_of_difference, elem_of_union, elem_of_singleton.
    split.
    + intros [[Hx | Hx] Hne]; [exact Hx | by destruct Hne].
    + intros Hx. split; [by left|]. intros ->. by apply Hout.
Qed.

Lemma toggle_favorite_twice_witness :
  ∃ st1,
    Service.toggle_favorite toy_env (Some "Bearer jwt:ann") "a" busy_server =
      Service.Returns ([("favorited", Service.JBool true)], 200) st1 ∧
    Service.toggle_favorite toy_env (Some "Bearer jwt:ann") "a" st1 =
      Service.Returns ([("favorited", Service.JBool false)], 200) busy_server.
Proof.
  destruct (toggle_favorite_twice toy_env (Some "Bearer jwt:ann") "a" "ann"
              (Service.User "sha256:secret" ["a"] ∅) busy_server)
    as (st1 & st2 & H1 & _ & H2 & ->).
  - reflexivity.
  - reflexivity.
  - reflexivity.
  - apply list_elem_of_singleton. reflexivity.
  - exists st1. split; [exact H1 | exact H2].
Defined.

(** * app.py: the processing task *)

Lemma dict_get_set {V} (k : string) (v : V) (d : list (string * V)) :
  Service.dict_get k (Service.dict_set k v d) = Some v.
Proof.
  unfold Service.dict_set. case_bool_decide as Hin.
  - induction d as [|[k' v'] d IH]; [by apply elem_of_nil in Hin|].
    cbn [map fst Service.dict_get]. case_bool_decide as Hk.
    + cbn [Service.dict_get]. by rewrite bool_decide_eq_true_2.
    + cbn [Service.dict_get]. rewrite bool_decide_eq_false_2 by done.
      apply IH. cbn [fmap list_fmap fst] in Hin.
      apply elem_of_cons in Hin as [->|Hin]; done.
  - induction d as [|[k' v'] d IH].
    + cbn. by rewrite bool_decide_eq_true_2.
    + cbn [app Service.dict_get]. cbn [fmap list_fmap fst] in Hin.
      apply not_elem_of_cons in Hin as [Hne Hin].
      rewrite bool_decide_eq_false_2 by done. by apply IH.
Qed.

Lemma set_status_free (job_id : string) (info : Service.job_info)
    (st : Service.server) :
  Service.lock_held st = false →
  Service.set_status job_id info st =
    Service.Returns ()
      (Service.Server (Service.users st)
         (Service.dict_set job_id info (Service.job_status st))
         (Service.user_jobs st) false (Service.disk st)).
Proof.
  intros Hfree. unfold Service.set_status. by rewrite with_lock_free.
Qed.

Lemma record_job_free (e : Service.env) (job_id : string) (token : option string)
    (info : Service.job_info) (st : Service.server) :
  Service.lock_held st = false →
  ∃ us,
    Service.record_job e job_id token info st =
      Service.Returns ()
        (Service.Server us
           (Service.dict_set job_id info (Service.job_status st))
           (<[job_id := info]> (Service.user_jobs st)) false (Service.disk st)).
Proof.
  intros Hfree. unfold Service.record_job. rewrite with_lock_free by done.
  by eexists.
Qed.

Lemma append_inj_l (a x y : string) : a +:+ x = a +:+ y → x = y.
Proof.
  induction a as [|c a IH]; [done|]. rewrite !append_cons. intros [= H]. by apply IH.
Qed.

Lemma task_paths_differ (job_id : string) :
  Service.srt_path_of job_id ≠ Service.output_path_of job_id.
Proof.
  unfold Service.srt_path_of, Service.output_path_of, Service.output_filename_of.
  intros H. do 3 apply append_inj_l in H. discriminate.
Qed.

(** The clean-up always returns; it touches the caption file and the
    upload at most, and the log not at all.  A caption file that is there
    and can be removed goes, and then the upload goes as well when it can
    be removed and is not the output. *)
Lemma remove_inputs_total (h : host) (srt_path filepath output_path : string)
    (w : world) :
  ∃ w',
    Service.remove_inputs h srt_path filepath output_path w = Ok () w' ∧
    log w' = log w ∧ spawned w' = spawned w ∧
    (∀ p, p ≠ srt_path → p ≠ filepath ∨ filepath = output_path →
          files w' !! p = files w !! p) ∧
    (is_Some (files w !! srt_path) → remove_error h srt_path = None →
       files w' !! srt_path = None ∧
       (remove_error h filepath = None → filepath ≠ output_path →
          files w' !! filepath = None)).
Proof.
  unfold Service.remove_inputs, try_except, bind at 1.
  unfold Service.remove_existing at 1, bind at 1, path_exists, os_remove, raise.
  case_bool_decide as Hsrt.
  2:{ exists w. by repeat split_and. }
  destruct (remove_error h srt_path) as [msg|] eqn:Hrm.
  { exists w. by repeat split_and. }
  cbn [files log spawned]. case_bool_decide as Hne.
  - unfold Service.remove_existing, bind, path_exists, os_remove, raise.
    cbn [files log spawned]. case_bool_decide as Hfp.
    + destruct (remove_error h filepath) as [msg|] eqn:Hrf.
      * eexists. split; [reflexivity|]. cbn [files log spawned].
        repeat split_and; try done.
        -- intros p Hp _. by rewrite lookup_delete_ne.
        -- intros _ _. split; [apply lookup_delete_eq | done].
      * eexists. split; [reflexivity|]. cbn [files log spawned].
        repeat split_and; try done.
        -- intros p Hp [Hq | Hq]; [|done]. by rewrite !lookup_delete_ne.
        -- intros _ _. split; [|intros _ _; apply lookup_delete_eq].
           destruct (decide (filepath = srt_path)) as [->|Hd];
             [apply lookup_delete_eq|].
           rewrite lookup_delete_ne by done. apply lookup_delete_eq.
    + eexists. split; [reflexivity|]. cbn [files log spawned].
      repeat split_and; try done.
      * intros p Hp _. by rewrite lookup_delete_ne.
      * intros _ _. split; [apply lookup_delete_eq|]. intros _ _.
        destruct (delete srt_path (files w) !! filepath) eqn:E; [|done].
        exfalso. apply Hfp. eauto.
  - eexists. split; [reflexivity|]. cbn [files log spawned].
    repeat split_and; try done.
    + intros p Hp _. by rewrite lookup_delete_ne.
    + intros _ _. split; [apply lookup_delete_eq|]. intros _ Hd. done.
Qed.

(** The clean-up creates no file. *)
Lemma remove_inputs_shrinks (h : host) (srt_path filepath output_path p : string)
    (w w' : world) :
  Service.remove_inputs h srt_path filepath output_path w = Ok () w' →
  files w !! p = None → files w' !! p = None.
Proof.
  unfold Service.remove_inputs, try_except, bind at 1.
  unfold Service.remove_existing at 1, bind at 1, path_exists, os_remove, raise.
  intros Hrun Hp. revert Hrun.
  case_bool_decide as Hsrt; [|by intros [= <-]].
  destruct (remove_error h srt_path) as [msg|]; [by intros [= <-]|].
  cbn [files log spawned]. case_bool_decide as Hne.
  - unfold Service.remove_existing, bind, path_exists, os_remove, raise.
    cbn [files log spawned]. case_bool_decide as Hfp.
    + destruct (remove_error h filepath) as [msg|]; intros [= <-];
        cbn [files]; rewrite !lookup_delete_None; tauto.
    + intros [= <-]. cbn [files]. rewrite lookup_delete_None. tauto.
  - intros [= <-]. cbn [files]. rewrite lookup_delete_None. tauto.
Qed.

Ltac svc :=
  cbv beta;
  cbn [Service.set_lock Service.set_users Service.users Service.job_status
       Service.user_jobs Service.lock_held Service.disk files log spawned].




Ltac run_app_task :=
  cbv beta iota zeta delta
    [App.overlay_subtitles App.compile_markup App.subprocess_run
     App.remove_quietly App.overlay_handler
     try_except bind raise ret path_exists write_file
     logger os_remove exn_str beyond negb];
  cbn [files log spawned].

(** What the muxer of app.py does once the encoder has exited. *)
Lemma app_overlay_after_run (h : host) (input_path srt_path output_path : string)
    (caption_settings : option (gmap string string)) (w : world)
    (srt doc : string) (rc : Z) (stderr : string) (written : option string) :
  let ass_path := Py.replace ".srt" ".ass" srt_path in
  let after := encoded (files w) ass_path doc output_path written in
  files w !! srt_path = Some srt →
  App.ass_document caption_settings srt = Some doc →
  run h (App.ffmpeg_cmd h input_path ass_path output_path) 300
    (<[ass_path := doc]> (files w)) = Exited rc stderr written →
  match App.overlay_subtitles h input_path srt_path output_path
          caption_settings w with
  | Ok _ w' =>
      rc = 0 ∧ is_Some (after !! output_path) ∧
      files w' = match remove_error h ass_path with
                 | None => delete ass_path after
                 | Some _ => after
                 end
  | Raise ex w' =>
      files w' = after ∧
      (rc ≠ 0 ∧
       ex = Exception ("Subtitle overlay failed: FFmpeg failed: " +:+ stderr) ∨
       rc = 0 ∧ after !! output_path = None ∧
       ex = Exception "Subtitle overlay failed: Output file not created")
  | Beyond => False
  end.
Proof.
  intros ass_path after Hsrt Hdoc Hrun.
  run_app_task. rewrite Hsrt, Hdoc. cbn [files log spawned].
  fold ass_path. rewrite Hrun.
  change (match written with
          | Some c0 => <[output_path:=c0]> (<[ass_path:=doc]> (files w))
          | None => <[ass_path:=doc]> (files w)
          end) with after.
  case_bool_decide as Hrc; cbv beta iota; cbn [files log spawned].
  2:{ split; [done|]. by left. }
  case_bool_decide as Hout; cbv beta iota; cbn [files log spawned].
  2:{ split; [done|]. right. repeat split_and; try done.
      destruct (after !! output_path) eqn:E; [|done]. exfalso. apply Hout. eauto. }
  assert (is_Some (after !! ass_path)) as Hass.
  { subst after. unfold encoded. destruct written as [c|];
      [|by rewrite lookup_insert_eq].
    rewrite lookup_insert. case_decide; eauto. rewrite lookup_insert_eq. eauto. }
  rewrite (bool_decide_eq_true_2 _ Hass).
  destruct (remove_error h ass_path); cbn [files]; done.
Qed.

Lemma markup_path_differs (s : string) :
  Py.contains ".srt" s = true → Py.replace ".srt" ".ass" s ≠ s.
Proof.
  unfold Py.replace. induction s as [|c s IH]; [done|].
  cbn [Py.contains Py.replace_go]. destruct (Py.startswith ".srt" (String c s)) eqn:Hst.
  - intros _. apply startswith_occurs in Hst as [suf Hs]. rewrite Hs.
    change (".srt" +:+ suf) with (String "." (String "s" ("rt" +:+ suf))).
    change (".ass" +:+ ?x) with (String "." (String "a" ("ss" +:+ x))).
    discriminate.
  - cbn [orb]. intros Hc [= H]. by apply IH.
Qed.

Lemma contains_app_r (sub a : string) : Py.contains sub (a +:+ sub) = true.
Proof. apply contains_occurs. exists a, EmptyString. by rewrite append_empty_r. Qed.

Lemma task_markup_differs (job_id : string) :
  Py.replace ".srt" ".ass" (Service.srt_path_of job_id) ≠ Service.srt_path_of job_id.
Proof.
  apply markup_path_differs. unfold Service.srt_path_of.
  change "_captions.srt" with ("_captions" +:+ ".srt").
  rewrite <- !append_assoc. apply contains_app_r.
Qed.

Lemma last_char_cons (c : ascii) (s : string) :
  s ≠ EmptyString → last_char (String c s) = last_char s.
Proof. by destruct s. Qed.

Lemma last_char_app (a b : string) :
  b ≠ EmptyString → last_char (a +:+ b) = last_char b.
Proof.
  intros Hb. induction a as [|c a IH]; [done|].
  rewrite append_cons, last_char_cons; [done|]. by destruct a, b.
Qed.

(** Replacing [.srt] by [.ass] leaves the last character as it was or
    makes it an [s]. *)
Lemma replace_last (s : string) (k : nat) :
  let r := Py.replace_go ".srt" ".ass" k s in
  (r = EmptyString ∨ last_char r = last_char s ∨ last_char r = Some "s"%char) ∧
  (k = 0%nat → s ≠ EmptyString → r ≠ EmptyString).
Proof.
  revert k. induction s as [|c s IH]; intros k; cbn zeta.
  - split; [by left | done].
  - cbn [Py.replace_go]. destruct k as [|k].
    + destruct (Py.startswith ".srt" (String c s)).
      * cbn [String.length Nat.sub].
        change (".ass" +:+ ?x) with (String "." (String "a" (String "s" (String "s" x)))).
        split; [|done]. right.
        destruct (IH 3%nat) as [[Hr | [Hr | Hr]] _]; cbn zeta in Hr.
        -- right. by rewrite Hr.
        -- destruct (Py.replace_go ".srt" ".ass" 3 s) as [|x r] eqn:E;
             [by right|]. left.
           destruct s as [|d s]; [discriminate E|].
           change (last_char (String x r) = last_char (String d s)). exact Hr.
        -- destruct (Py.replace_go ".srt" ".ass" 3 s) as [|x r] eqn:E;
             [by right|]. right.
           change (last_char (String x r) = Some "s"%char). exact Hr.
      * split; [|done]. right.
        destruct (IH 0%nat) as [[Hr | [Hr | Hr]] Hne]; cbn zeta in Hr, Hne.
        -- destruct s as [|d s]; [left; by rewrite Hr|].
           exfalso. by apply Hne.
        -- destruct s as [|d s]; [by left|]. left.
           destruct (Py.replace_go ".srt" ".ass" 0 (String d s)) as [|x r] eqn:E;
             [exfalso; by apply Hne|].
           change (last_char (String x r) = last_char (String d s)). exact Hr.
        -- destruct (Py.replace_go ".srt" ".ass" 0 s) as [|x r] eqn:E; [done|].
           right. change (last_char (String x r) = Some "s"%char). exact Hr.
    + split; [|done].
      destruct (IH k) as [[Hr | [Hr | Hr]] _]; cbn zeta in Hr.
      * by left.
      * destruct s as [|d s]; [left; by destruct k|].
        right. left. exact Hr.
      * right. by right.
Qed.

Lemma task_markup_not_output (job_id : string) :
  Py.replace ".srt" ".ass" (Service.srt_path_of job_id) ≠
  Service.output_path_of job_id.
Proof.
  assert (last_char (Service.srt_path_of job_id) = Some "t"%char) as Hs.
  { unfold Service.srt_path_of. rewrite <- !append_assoc.
    by rewrite last_char_app. }
  assert (last_char (Service.output_path_of job_id) = Some "4"%char) as Ho.
  { unfold Service.output_path_of, Service.output_filename_of.
    rewrite <- !append_assoc. by rewrite last_char_app. }
  destruct (replace_last (Service.srt_path_of job_id) 0) as [Hr Hne].
  cbn zeta in Hr, Hne. unfold Py.replace. intros Heq. rewrite Heq in Hr, Hne.
  destruct Hr as [Hr | [Hr | Hr]].
  - apply Hne; [done | | done]. intros Hs'. by rewrite Hs' in Hs.
  - congruence.
  - congruence.
Qed.

Section TaskRun.
Variable h : host.
Variable e : Service.env.
Variable s : Service.studio.
Variables job_id filepath filename : string.
Variable token : option string.
Variable caption_settings : option (gmap string string).
Variable st : Service.server.
Variable segs : list segment.
Variable doc : string.

Let srt_path := Service.srt_path_of job_id.
Let output_path := Service.output_path_of job_id.
Let ass_path := Py.replace ".srt" ".ass" srt_path.
Let captions := App.generate_srt_text segs.
Let cmd := App.ffmpeg_cmd h filepath ass_path output_path.
Let before := <[srt_path := captions]> (files (Service.disk st)).

Hypothesis lock_free : Service.lock_held st = false.
Hypothesis whisper_there : Service.whisper_available s = true.
Hypothesis heard :
  Service.transcribe s filepath (files (Service.disk st)) = Service.Segments segs.
Hypothesis converts : App.ass_document caption_settings captions = Some doc.

Ltac to_muxer :=
  unfold Service.process_video_task, Service.bind at 1;
  unfold Service.process_video;
  unfold Service.bind at 1; unfold Service.log_info at 1;
  unfold Service.bind at 1; rewrite set_status_free by done; svc;
  rewrite whisper_there; cbn [negb]; svc; rewrite heard;
  unfold Service.bind at 1; rewrite set_status_free by done;
  unfold Service.bind at 1; unfold Service.on_disk at 1, write_file; svc;
  unfold Service.bind at 1; rewrite set_status_free by done;
  unfold Service.bind at 1; unfold Service.log_info at 1; svc;
  unfold Service.bind at 1; unfold Service.on_disk at 1; svc;
  fold srt_path output_path captions before.

(** X29. With the lock free, the speech model available and giving segments
    whose caption file converts, the task returns, and the record follows the
    exit code of the encoder. When the code is not 0 the job is failed with
    [Subtitle overlay failed: FFmpeg failed: ] and the error output, and both
    the caption file and the markup file are left in the processed folder. When
    the code is 0 and the output was written the job is completed, the output is
    kept, and the markup file, the caption file and the upload are gone as far
    as [os.remove] allows. *)
Theorem task_follows_encoder (rc : Z) (stderr : string) (written : option string) :
  run h cmd 300 (<[ass_path := doc]> before) = Exited rc stderr written →
  let after := encoded before ass_path doc output_path written in
  (rc ≠ 0 →
     ∃ st',
       Service.process_video_task h e s job_id filepath filename token
         caption_settings st = Service.Returns () st' ∧
       Service.dict_get job_id (Service.job_status st') =
         Some (Service.failed_info s filename
                 ("Subtitle overlay failed: FFmpeg failed: " +:+ stderr)) ∧
       files (Service.disk st') = after ∧
       files (Service.disk st') !! srt_path = Some captions ∧
       files (Service.disk st') !! ass_path = Some doc) ∧
  (rc = 0 → ∀ c, written = Some c →
     ∃ st',
       Service.process_video_task h e s job_id filepath filename token
         caption_settings st = Service.Returns () st' ∧
       Service.dict_get job_id (Service.job_status st') =
         Some (Service.completed_info s job_id filename segs) ∧
       files (Service.disk st') !! output_path = Some c ∧
       (remove_error h ass_path = None →
          files (Service.disk st') !! ass_path = None) ∧
       (remove_error h srt_path = None →
          files (Service.disk st') !! srt_path = None) ∧
       (remove_error h srt_path = None → remove_error h filepath = None →
          filepath ≠ output_path →
          files (Service.disk st') !! filepath = None)).
Proof.
  intros Hrun after.
  assert (srt_path ≠ output_path) as Hso by apply task_paths_differ.
  assert (ass_path ≠ srt_path) as Has by apply task_markup_differs.
  assert (ass_path ≠ output_path) as Hao by apply task_markup_not_output.
  assert (before !! srt_path = Some captions) as Hcap by apply lookup_insert_eq.
  assert (after !! srt_path = Some captions ∧ after !! ass_path = Some doc)
    as [Hafter_srt Hafter_ass].
  { subst after. unfold encoded. destruct written as [c|].
    - rewrite !(lookup_insert_ne _ output_path) by done.
      by rewrite lookup_insert_ne, lookup_insert_eq by done.
    - by rewrite lookup_insert_ne, lookup_insert_eq by done. }
  split.
  - intros Hrc. to_muxer.
    match goal with
    | |- context [App.overlay_subtitles h filepath srt_path output_path
                    caption_settings ?w] =>
        pose proof (app_overlay_after_run h filepath srt_path output_path
                      caption_settings w captions doc _ _ _
                      Hcap converts Hrun) as Hov;
        destruct (App.overlay_subtitles h filepath srt_path output_path
                    caption_settings w) as [b w2|ex w2|]; [| |done]
    end; cbn [files] in Hov; fold ass_path in Hov; fold after in Hov.
    + by destruct Hov as (-> & _).
    + destruct Hov as (Hfiles & [[_ ->] | (-> & _)]); [|done].
      cbn [exn_str]. unfold Service.ret.
      unfold Service.bind, Service.log_error. svc.
      match goal with
      | |- context [Service.record_job e job_id token ?info ?st0] =>
          destruct (record_job_free e job_id token info st0 eq_refl) as [us ->]
      end.
      eexists. split; [reflexivity|]. svc. rewrite Hfiles.
      repeat split_and; try done. apply dict_get_set.
  - intros -> c ->. to_muxer.
    match goal with
    | |- context [App.overlay_subtitles h filepath srt_path output_path
                    caption_settings ?w] =>
        pose proof (app_overlay_after_run h filepath srt_path output_path
                      caption_settings w captions doc _ _ _
                      Hcap converts Hrun) as Hov;
        destruct (App.overlay_subtitles h filepath srt_path output_path
                    caption_settings w) as [b w2|ex w2|]; [| |done]
    end; cbn [files] in Hov; fold ass_path in Hov; fold after in Hov.
    2:{ exfalso. destruct Hov as (_ & [[Hrc _] | (_ & Hnone & _)]); [done|].
        subst after. unfold encoded in Hnone.
        by rewrite lookup_insert_eq in Hnone. }
    destruct Hov as (_ & _ & Hfiles).
    assert (after !! output_path = Some c) as Hc
      by (subst after; apply lookup_insert_eq).
    assert (files w2 !! output_path = Some c ∧
            files w2 !! srt_path = Some captions ∧
            (remove_error h ass_path = None → files w2 !! ass_path = None))
      as (Hc2 & Hs2 & Ha2).
    { rewrite Hfiles. destruct (remove_error h ass_path).
      - by repeat split_and.
      - rewrite !lookup_delete_ne by done.
        repeat split_and; try done. intros _. apply lookup_delete_eq. }
    unfold Service.bind at 1. unfold Service.on_disk at 1, path_exists. svc.
    rewrite Hc2, bool_decide_eq_true_2 by eauto.
    unfold Service.bind at 1.
    match goal with
    | |- context [Service.record_job e job_id token ?info ?st0] =>
        destruct (record_job_free e job_id token info st0 eq_refl) as [us ->]
    end.
    unfold Service.bind at 1. unfold Service.on_disk at 1. svc.
    destruct (remove_inputs_total h srt_path filepath output_path w2)
      as (w3 & Hw3 & _ & _ & Hkeep & Hgone).
    rewrite Hw3.
    unfold Service.bind, Service.log_info, Service.ret. svc.
    eexists. split; [reflexivity|]. svc.
    repeat split_and.
    + apply dict_get_set.
    + rewrite Hkeep; [done | done |].
      destruct (decide (filepath = output_path)); [by right|]. left. congruence.
    + intros Hrm. eapply remove_inputs_shrinks; [exact Hw3 | by apply Ha2].
    + intros Hrm. apply Hgone; [by rewrite Hs2 | done].
    + intros Hrm1 Hrm2 Hne. apply Hgone; [by rewrite Hs2 | done | done | done].
Qed.

End TaskRun.

Lemma task_follows_encoder_witness :
  ∃ st',
    Service.process_video_task (sample_host (Exited 1 "boom" None) false)
      toy_env toy_studio "job1" "/app/uploads/job1_clip.mp4" "clip.mp4"
      (Some "jwt:ann") None busy_server = Service.Returns () st' ∧
    Service.dict_get "job1" (Service.job_status st') =
      Some (Service.failed_info toy_studio "clip.mp4"
              "Subtitle overlay failed: FFmpeg failed: boom") ∧
    is_Some (files (Service.disk st') !! "/app/processed/job1_captions.ass").
Proof.
  assert (∃ doc, App.ass_document None (App.generate_srt_text e2e_segments)
                 = Some doc) as [doc Hdoc]
    by (eexists; vm_compute; reflexivity).
  destruct (task_follows_encoder (sample_host (Exited 1 "boom" None) false)
              toy_env toy_studio "job1" "/app/uploads/job1_clip.mp4" "clip.mp4"
              (Some "jwt:ann") None busy_server e2e_segments doc
              eq_refl eq_refl eq_refl Hdoc 1 "boom" None eq_refl)
    as [Hfail _].
  destruct (Hfail ltac:(lia)) as (st' & Ht & Hs & _ & _ & Ha).
  exists st'. split; [exact Ht|]. split; [exact Hs|].
  exists doc. exact Ha.
Defined.

(** ** The duration of a finished job *)

(** Floor division of a float by sixty is integer division of its whole
    part. *)
Lemma floor_div_60 (d : Q) : Qfloor (d / 60) = Qfloor d / 60.
Proof.
  pose proof (Qfloor_le (d / 60)) as Hl. pose proof (Qlt_floor (d / 60)) as Hu.
  pose proof (Qfloor_le d) as Hdl. pose proof (Qlt_floor d) as Hdu.
  rewrite inject_Z_plus in Hu, Hdu. change (inject_Z 1) with 1%Q in Hu, Hdu.
  set (q := Qfloor (d / 60)) in *.
  assert (d == 60 * (d / 60))%Q as Hd by (field; lra).
  set (r := (d / 60)%Q) in *. clearbody r q.
  assert (60 * q ≤ Qfloor d < 60 * q + 60) as Hq.
  { apply Qfloor_bounds.
    - rewrite inject_Z_mult. change (inject_Z 60) with 60%Q. lra.
    - rewrite inject_Z_plus, inject_Z_mult.
      change (inject_Z 60) with 60%Q. lra. }
  apply (Z.div_unique_pos _ 60 q (Qfloor d - 60 * q)); lia.
Qed.

(** X30. The duration text of a completed job depends on the whole seconds only:
    for a duration that is not negative it is the minutes, a colon and the
    seconds of the duration rounded down, the seconds in two digits; the minutes
    are not reduced to hours. *)
Theorem duration_label_whole_seconds (d : Q) :
  (0 <= d)%Q →
  let m := Qfloor d / 60 in
  let s := Qfloor d mod 60 in
  Service.duration_label d = Py.str_int m +:+ ":" +:+ Py.fmt_0d 2 s ∧
  is_digits 2 (Py.fmt_0d 2 s) = true.
Proof.
  intros Hd m s.
  assert (0 ≤ s < 60) as Hs by (apply Z.mod_pos_bound; lia).
  split; [|apply fmt_0d_digits; [by left | simpl; lia]].
  unfold Service.duration_label. f_equal; [|f_equal].
  - unfold Py.floordiv. rewrite py_int_inject, floor_div_60; [done|].
    rewrite floor_div_60. apply Z.div_pos; [by apply Qfloor_nonneg | lia].
  - f_equal. destruct (pymod_bounds d 60) as [Hlo _]; [done|].
    rewrite py_int_nonneg by done. unfold Py.pymod. rewrite floor_div_60.
    fold m. apply Qfloor_unique.
    + pose proof (Qfloor_le d) as Hl.
      assert (inject_Z s == inject_Z (Qfloor d) - 60 * inject_Z m)%Q as ->; [|lra].
      subst s. rewrite Z.mod_eq by lia. fold m.
      unfold Z.sub. rewrite inject_Z_plus, inject_Z_opp, inject_Z_mult.
      change (inject_Z 60) with 60%Q. ring.
    + pose proof (Qlt_floor d) as Hu.
      rewrite inject_Z_plus in Hu |- *. change (inject_Z 1) with 1%Q in *.
      assert (inject_Z s == inject_Z (Qfloor d) - 60 * inject_Z m)%Q as ->; [|lra].
      subst s. rewrite Z.mod_eq by lia. fold m.
      unfold Z.sub. rewrite inject_Z_plus, inject_Z_opp, inject_Z_mult.
      change (inject_Z 60) with 60%Q. ring.
Qed.

Lemma duration_label_whole_seconds_witness :
  Service.duration_label (1259 # 10) = "2:05".
Proof.
  destruct (duration_label_whole_seconds (1259 # 10)) as [H _].
  - vm_compute. discriminate.
  - exact H.
Defined.
